(** * Subscription API: payment verification, gateway registry, OTP login

  A shallow embedding of the service layer of the subscription API
  (payment service and gateway adapters, gateway registry, subscription
  service, OTP authentication with its rate limiter) together with the
  properties its specification states about them.

  Conventions of the embedding:
  - a JavaScript string is a [string]; a character stands for one UTF-16
    code unit below 256, which covers every literal of the sources;
  - a JavaScript number that the code uses as an integer (amounts, codes,
    epoch milliseconds, counters) is a [Z];
  - [undefined] and [null] are [None];
  - the database is a record of tables, each table a list of rows in
    storage order, and it carries out every statement it is sent; a
    service method takes the database (and whatever else it mutates) and
    returns its outcome with the new state;
  - what a method obtains from outside the process (clock readings,
    random draws, provider replies, identifiers minted by the database)
    is passed to it as an explicit argument. *)

From Stdlib Require Import ZArith String Ascii List Lia DecimalString.
From stdpp Require Import base gmap strings list.
From stdpp Require Import sorting.

Open Scope Z_scope.

(** ** JavaScript string primitives used by the services *)

Module Js.

(** WhiteSpace and LineTerminator code units below 256
    (TAB, LF, VT, FF, CR, SP, NBSP): what [String.prototype.trim] strips. *)
Definition isWhiteSpace (c : ascii) : bool :=
  let n := N_of_ascii c in
  ((9 <=? n) && (n <=? 13) || (n =? 32) || (n =? 160))%N.

Fixpoint trimStart (s : string) : string :=
  match s with
  | EmptyString => EmptyString
  | String c r => if isWhiteSpace c then trimStart r else s
  end.

Fixpoint trimEnd (s : string) : string :=
  match s with
  | EmptyString => EmptyString
  | String c r =>
      match trimEnd r with
      | EmptyString => if isWhiteSpace c then EmptyString else String c EmptyString
      | r' => String c r'
      end
  end.

(** [s.trim()] *)
Definition trim (s : string) : string := trimEnd (trimStart s).

(** [s.startsWith(p)] *)
Fixpoint startsWith (s p : string) {struct p} : bool :=
  match p, s with
  | EmptyString, _ => true
  | String a p', String b s' => if Ascii.eqb a b then startsWith s' p' else false
  | String _ _, EmptyString => false
  end.

(** [s.slice(n)] for a non-negative [n] *)
Fixpoint slice (s : string) (n : nat) {struct n} : string :=
  match n, s with
  | O, _ => s
  | S n', String _ r => slice r n'
  | S _, EmptyString => EmptyString
  end.

(** Lower-casing of one code unit below 256: A-Z, and the upper-case
    letters of Latin-1 (C0-DE, the multiplication sign D7 apart). *)
Definition toLowerCaseUnit (c : ascii) : ascii :=
  let n := N_of_ascii c in
  if ((65 <=? n) && (n <=? 90) || (192 <=? n) && (n <=? 222) && negb (n =? 215))%N
  then ascii_of_N (n + 32)
  else c.

(** [s.toLowerCase()] *)
Fixpoint toLowerCase (s : string) : string :=
  match s with
  | EmptyString => EmptyString
  | String c r => String (toLowerCaseUnit c) (toLowerCase r)
  end.

(** An upper-case letter A-Z, and whether a string holds one. *)
Definition isUpperUnit (c : ascii) : bool :=
  let n := N_of_ascii c in ((65 <=? n) && (n <=? 90))%N.

Fixpoint hasUpper (s : string) : bool :=
  match s with
  | EmptyString => false
  | String c r => isUpperUnit c || hasUpper r
  end.

(** [l.join(sep)] *)
Fixpoint join (sep : string) (l : list string) : string :=
  match l with
  | [] => EmptyString
  | [x] => x
  | x :: r => x +:+ sep +:+ join sep r
  end.

(** [String(n)] for an integer [n] *)
Definition ofInt (n : Z) : string := NilZero.string_of_int (Z.to_int n).

Fixpoint repeatUnit (c : ascii) (k : nat) : string :=
  match k with
  | O => EmptyString
  | S k' => String c (repeatUnit c k')
  end.

(** [s.padStart(len, c)] with a one-character filler *)
Definition padStart (s : string) (len : Z) (c : ascii) : string :=
  repeatUnit c (Z.to_nat (len - Z.of_nat (String.length s))) +:+ s.

(** [a || b] on an optional string: the empty string is falsy too. *)
Definition orElse (a : option string) (b : string) : string :=
  match a with
  | Some EmptyString | None => b
  | Some s => s
  end.

End Js.

(** ** Errors thrown by the services

    [NodeError] is an error of the Node runtime, named by its code (a
    [TypeError] for [ERR_INVALID_ARG_TYPE], a [RangeError] for
    [ERR_OUT_OF_RANGE]); its message is left out. *)

Inductive Error : Type :=
| NotFoundError (resource : string)
| ValidationError (message : string)
| PaymentGatewayError (message : string) (code : option Z)
| TypeError (message : string)
| PrismaError (message : string)
| JsError (message : string)
| NodeError (code : string).

(** The outcome of a call that may throw. *)
Definition Result (A : Type) : Type := Error + A.

(** ** The part of Node's [crypto] and of [Math] that [randCode] uses

    A number that is not an integer is [None].  Integers are exact here;
    the floating-point results differ from them only above 2^53, where
    both are unsafe integers and [randomInt] throws either way. *)

Module Crypto.

Definition MAX_SAFE_INTEGER : Z := 2 ^ 53 - 1.

(** [0xFFFF_FFFF_FFFF], the widest range [randomInt] draws from. *)
Definition RAND_MAX : Z := 2 ^ 48 - 1.

(** [Math.pow(10, e)] for an integer [e]: an integer when [e >= 0]. *)
Definition pow10 (e : Z) : option Z :=
  if 0 <=? e then Some (10 ^ e) else None.

(** [Number.isSafeInteger(n)] *)
Definition isSafeInteger (n : option Z) : bool :=
  match n with
  | Some z => Z.abs z <=? MAX_SAFE_INTEGER
  | None => false
  end.

(** [crypto.randomInt(min, max)], the synchronous form: it throws unless
    both bounds are safe integers, [min < max] and [max - min] is at most
    [RAND_MAX]; otherwise it returns what the random source [draw] gives
    for the bounds. *)
Definition randomInt (draw : Z -> Z -> Z) (min max : option Z) : Result Z :=
  match min, max with
  | Some lo, Some hi =>
      if negb (isSafeInteger min) then inl (NodeError "ERR_INVALID_ARG_TYPE")
      else if negb (isSafeInteger max) then inl (NodeError "ERR_INVALID_ARG_TYPE")
      else if hi <=? lo then inl (NodeError "ERR_OUT_OF_RANGE")
      else if negb (hi - lo <=? RAND_MAX) then inl (NodeError "ERR_OUT_OF_RANGE")
      else inr (draw lo hi)
  | _, _ => inl (NodeError "ERR_INVALID_ARG_TYPE")
  end.

End Crypto.

(** ** Gateway registry ([gateways/index.ts]) *)

Inductive Adapter : Type := ZarinpalGateway | MockGateway | ZibalGateway.

#[global] Instance Adapter_eq_dec : EqDecision Adapter.
Proof. solve_decision. Defined.

Module Registry.

(** A registry is an object literal: its own properties in insertion
    order, each a factory of one adapter. *)
Definition Registry : Type := list (string * Adapter).

(** [services/payment/gateways/index.ts] *)
Definition gatewayRegistry : Registry :=
  [("zarinpal"%string, ZarinpalGateway); ("mock"%string, MockGateway)].

(** [routers/payment/gateways/index.ts] *)
Definition gatewayRegistryWithZibal : Registry :=
  [("zarinpal"%string, ZarinpalGateway); ("mock"%string, MockGateway);
   ("zibal"%string, ZibalGateway)].

(** The members an object literal inherits from [Object.prototype] under
    a name that lower-casing leaves alone.  [constructor] is the function
    [Object]; [__proto__] is an accessor that yields the prototype, an
    object that is not callable.  The remaining members ([hasOwnProperty],
    [isPrototypeOf], [propertyIsEnumerable], [toLocaleString], [toString],
    [valueOf], [__defineGetter__], [__defineSetter__], [__lookupGetter__],
    [__lookupSetter__]) all carry an upper-case letter; see
    [mixedCaseMembers] and [toLowerCase_not_mixed]. *)
Inductive ProtoMember : Type := ObjectConstructor | ProtoAccessor.

Definition objectPrototype (key : string) : option ProtoMember :=
  if String.eqb key "constructor" then Some ObjectConstructor
  else if String.eqb key "__proto__" then Some ProtoAccessor
  else None.

Definition mixedCaseMembers : list string :=
  ["hasOwnProperty"; "isPrototypeOf"; "propertyIsEnumerable"; "toLocaleString";
   "toString"; "valueOf"; "__defineGetter__"; "__defineSetter__";
   "__lookupGetter__"; "__lookupSetter__"]%string.

Fixpoint ownProperty (reg : Registry) (key : string) : option Adapter :=
  match reg with
  | [] => None
  | (k, a) :: r => if String.eqb k key then Some a else ownProperty r key
  end.

(** [Object.keys(reg)] *)
Definition keys (reg : Registry) : list string := map fst reg.

(** What [reg[key]] evaluates to. *)
Inductive PropertyValue : Type :=
| OwnFactory (a : Adapter)
| Inherited (m : ProtoMember)
| Undefined.

Definition getProperty (reg : Registry) (key : string) : PropertyValue :=
  match ownProperty reg key with
  | Some a => OwnFactory a
  | None =>
      match objectPrototype key with
      | Some m => Inherited m
      | None => Undefined
      end
  end.

(** What the caller of [getPaymentGateway] holds afterwards: an adapter
    instance or, when the factory was [Object], a fresh empty object. *)
Inductive GatewayObject : Type :=
| Instance (a : Adapter)
| PlainObject.

Definition notSupported (reg : Registry) (gatewayName : string) : string :=
  "Payment gateway '" +:+ gatewayName +:+ "' is not supported. Available gateways: "
    +:+ Js.join ", " (keys reg).

Definition getPaymentGatewayIn (reg : Registry) (gatewayName : string)
  : Result GatewayObject :=
  match getProperty reg (Js.toLowerCase gatewayName) with
  | Undefined => inl (ValidationError (notSupported reg gatewayName))
  | OwnFactory a => inr (Instance a)
  | Inherited ObjectConstructor => inr PlainObject
  | Inherited ProtoAccessor => inl (TypeError "gatewayFactory is not a function")
  end.

Definition getPaymentGateway : string -> Result GatewayObject :=
  getPaymentGatewayIn gatewayRegistry.

Definition getSupportedGateways : list string := keys gatewayRegistry.

End Registry.

(** ** The part of [Date] the subscription service uses

    Time values are milliseconds since the epoch.  The definitions follow
    the ECMAScript specification of [Date]; the host's time zone is the
    function [LocalTZA(t, isUTC)] of that specification: the offset of local
    time from UTC, in milliseconds, at the UTC time value [t] when [isUTC]
    is true, and at the local time value [t] when it is false.  It varies
    with [t] in a zone that has daylight-saving transitions. *)

Module JsDate.

Definition msPerDay : Z := 86400000.

Definition Day (t : Z) : Z := t / msPerDay.
Definition TimeWithinDay (t : Z) : Z := t mod msPerDay.

Definition DaysInYear (y : Z) : Z :=
  if negb (y mod 4 =? 0) then 365
  else if negb (y mod 100 =? 0) then 366
  else if negb (y mod 400 =? 0) then 365
  else 366.

Definition DayFromYear (y : Z) : Z :=
  365 * (y - 1970) + (y - 1969) / 4 - (y - 1901) / 100 + (y - 1601) / 400.

Fixpoint yearDown (fuel : nat) (d y : Z) : Z :=
  match fuel with
  | O => y
  | S f => if d <? DayFromYear y then yearDown f d (y - 1) else y
  end.

Fixpoint yearUp (fuel : nat) (d y : Z) : Z :=
  match fuel with
  | O => y
  | S f => if DayFromYear (y + 1) <=? d then yearUp f d (y + 1) else y
  end.

(** The year whose first day is the latest one not after [t]: an estimate
    from the mean length of a year, adjusted by at most a few steps. *)
Definition YearFromTime (t : Z) : Z :=
  let d := Day t in
  yearUp 4 d (yearDown 4 d (1970 + d * 400 / 146097)).

Definition InLeapYear (t : Z) : Z :=
  if DaysInYear (YearFromTime t) =? 366 then 1 else 0.

Definition DayWithinYear (t : Z) : Z := Day t - DayFromYear (YearFromTime t).

(** Day within the year on which month [m] (0 to 11) starts. *)
Definition monthStart (m leap : Z) : Z :=
  match m with
  | 0 => 0
  | 1 => 31
  | 2 => 59 + leap
  | 3 => 90 + leap
  | 4 => 120 + leap
  | 5 => 151 + leap
  | 6 => 181 + leap
  | 7 => 212 + leap
  | 8 => 243 + leap
  | 9 => 273 + leap
  | 10 => 304 + leap
  | _ => 334 + leap
  end.

Definition MonthFromTime (t : Z) : Z :=
  let d := DayWithinYear t in
  let leap := InLeapYear t in
  if d <? 31 then 0
  else if d <? 59 + leap then 1
  else if d <? 90 + leap then 2
  else if d <? 120 + leap then 3
  else if d <? 151 + leap then 4
  else if d <? 181 + leap then 5
  else if d <? 212 + leap then 6
  else if d <? 243 + leap then 7
  else if d <? 273 + leap then 8
  else if d <? 304 + leap then 9
  else if d <? 334 + leap then 10
  else 11.

Definition DateFromTime (t : Z) : Z :=
  DayWithinYear t - monthStart (MonthFromTime t) (InLeapYear t) + 1.

(** [MakeDay(year, month, date)]: the day number of the first of the month,
    plus [date - 1]. *)
Definition MakeDay (year month date : Z) : Z :=
  let ym := year + month / 12 in
  let mn := month mod 12 in
  DayFromYear ym + monthStart mn (if DaysInYear ym =? 366 then 1 else 0) + date - 1.

Definition MakeDate (day time : Z) : Z := day * msPerDay + time.

(** [TimeClip]: a time value out of range is [NaN], an invalid date. *)
Definition TimeClip (t : Z) : option Z :=
  if Z.abs t <=? 8640000000000000 then Some t else None.

Section Zone.

Variable LocalTZA : Z -> bool -> Z.

Definition LocalTime (t : Z) : Z := t + LocalTZA t true.
Definition UTC (t : Z) : Z := t - LocalTZA t false.

(** [d.getDate()] *)
Definition getDate (t : Z) : Z := DateFromTime (LocalTime t).

(** [d.setDate(date)]: the new time value of [d] *)
Definition setDate (t : Z) (date : Z) : option Z :=
  let l := LocalTime t in
  let newDate :=
    MakeDate (MakeDay (YearFromTime l) (MonthFromTime l) date) (TimeWithinDay l) in
  TimeClip (UTC newDate).

End Zone.

End JsDate.

(** ** JSON objects kept in the [metadata] column *)

Module Json.

Inductive value : Type :=
| JString (s : string)
| JNumber (n : Z)
| JNull.

(** A parsed object: its keys in insertion order. *)
Definition object : Type := list (string * value).

(** An object under construction, where a property may hold [undefined]. *)
Definition draft : Type := list (string * option value).

(** [{ ...o }] *)
Definition spread (o : object) : draft := map (fun kv => (fst kv, Some (snd kv))) o.

(** Adding the property [k: v] to an object literal: an existing key keeps
    its place and takes the new value. *)
Fixpoint assign (k : string) (v : option value) (o : draft) : draft :=
  match o with
  | [] => [(k, v)]
  | (k', v') :: r => if String.eqb k' k then (k, v) :: r else (k', v') :: assign k v r
  end.

(** [JSON.stringify] followed by the [JSON.parse] of a later read:
    properties holding [undefined] are left out. *)
Fixpoint stringify (o : draft) : object :=
  match o with
  | [] => []
  | (k, Some v) :: r => (k, v) :: stringify r
  | (_, None) :: r => stringify r
  end.

Definition str (s : option string) : option value := JString <$> s.
Definition num (n : option Z) : option value := JNumber <$> n.

End Json.

(** ** Configuration ([config/env.ts])

    Modelled from the spec: [env.AUTH] and [env.ZIBAL] are read by the
    services but the schema that declares them is not among the sources;
    the settings the services read are the fields of this record ("the
    configured max", "the configured window", "configured length"). *)

Module Config.

Record t : Type := mk {
  API_BASE_URL : string;
  ZARINPAL_GATEWAY_URL : string;
  ZIBAL_GATEWAY_URL : string;
  OTP_LENGTH : Z;
  OTP_EXP_MIN : Z;
  RATE_LIMIT_WINDOW_SEC : Z;
  RATE_LIMIT_MAX_REQUESTS : Z;
  LocalTZA : Z -> bool -> Z
}.

End Config.

(** ** Data model

    Modelled from the spec: the Prisma schema is not among the sources; the
    columns of each table are those the specification's data model lists,
    together with the ones the services read or write. *)

Module SubscriptionStatus.
Inductive t : Type := PENDING | ACTIVE | EXPIRED | CANCELLED.
End SubscriptionStatus.

Module PaymentStatus.
Inductive t : Type := PENDING | COMPLETED | FAILED.
End PaymentStatus.

#[global] Instance PaymentStatus_eq_dec : EqDecision PaymentStatus.t.
Proof. solve_decision. Defined.

#[global] Instance SubscriptionStatus_eq_dec : EqDecision SubscriptionStatus.t.
Proof. solve_decision. Defined.

Module Plan.
Record t : Type := mk {
  id : string;
  name : string;
  price : Z;
  currency : string;
  duration : Z;
  isActive : bool
}.
End Plan.

Module Subscription.
Record t : Type := mk {
  id : string;
  userId : string;
  planId : string;
  status : SubscriptionStatus.t;
  autoRenew : bool;
  startDate : option Z;
  endDate : option Z
}.
End Subscription.

Module Payment.
Record t : Type := mk {
  id : string;
  subscriptionId : string;
  amount : Z;
  currency : string;
  gateway : string;
  authority : option string;
  paymentUrl : option string;
  status : PaymentStatus.t;
  gatewayTxId : option string;
  paidAt : option Z;
  verifiedAt : option Z;
  userEmail : option string;
  userPhone : option string;
  notificationSent : bool;
  metadata : option Json.object
}.
End Payment.

Module OtpCode.
Record t : Type := mk {
  id : string;
  phone : string;
  codeHash : string;
  expiresAt : Z;
  attempts : Z;
  usedAt : option Z;
  createdAt : Z
}.
End OtpCode.

Module User.
Record t : Type := mk {
  id : string;
  phone : option string;
  email : option string;
  role : string
}.
End User.

Module ApiKey.
Record t : Type := mk {
  id : string;
  userId : option string;
  hash : string;
  label : option string;
  isActive : bool;
  lastUsedAt : option Z
}.
End ApiKey.

(** The database: one list of rows per table, in storage order. *)
Module Db.
Record t : Type := mk {
  plans : list Plan.t;
  subscriptions : list Subscription.t;
  payments : list Payment.t;
  otpCodes : list OtpCode.t;
  users : list User.t;
  apiKeys : list ApiKey.t
}.

Definition withSubscriptions (rows : list Subscription.t) (d : t) : t :=
  mk (plans d) rows (payments d) (otpCodes d) (users d) (apiKeys d).
Definition withPayments (rows : list Payment.t) (d : t) : t :=
  mk (plans d) (subscriptions d) rows (otpCodes d) (users d) (apiKeys d).
Definition withOtpCodes (rows : list OtpCode.t) (d : t) : t :=
  mk (plans d) (subscriptions d) (payments d) rows (users d) (apiKeys d).
Definition withUsers (rows : list User.t) (d : t) : t :=
  mk (plans d) (subscriptions d) (payments d) (otpCodes d) rows (apiKeys d).
Definition withApiKeys (rows : list ApiKey.t) (d : t) : t :=
  mk (plans d) (subscriptions d) (payments d) (otpCodes d) (users d) rows.
End Db.

(** ** Queries of the ORM client *)

Module Prisma.

Section Table.

Context {A : Type}.

(** [findFirst({ where })] and [findUnique({ where })]: the first row, in
    storage order, that satisfies the filter. *)
Fixpoint findFirst (where_ : A -> bool) (rows : list A) : option A :=
  match rows with
  | [] => None
  | r :: rest => if where_ r then Some r else findFirst where_ rest
  end.

(** [findMany({ where })] *)
Definition findMany (where_ : A -> bool) (rows : list A) : list A :=
  List.filter where_ rows.

(** [create({ data })]: the new row goes last.  Its identifier is minted
    for it, and is passed in with the row. *)
Definition create (row : A) (rows : list A) : list A := rows ++ [row].

(** [update({ where, data })] on a unique key: rewrites the row the key
    designates and returns it with the new table; [None] when there is no
    such row (the client then throws). *)
Fixpoint update (where_ : A -> bool) (data : A -> A) (rows : list A)
  : option (A * list A) :=
  match rows with
  | [] => None
  | r :: rest =>
      if where_ r then Some (data r, data r :: rest)
      else match update where_ data rest with
           | Some (u, rest') => Some (u, r :: rest')
           | None => None
           end
  end.

(** [findFirst({ where, orderBy: { key: 'desc' } })]: among the rows that
    satisfy the filter, one with the greatest key; of several with that
    key, the first in storage order. *)
Fixpoint findLatest (where_ : A -> bool) (key : A -> Z) (rows : list A) : option A :=
  match rows with
  | [] => None
  | r :: rest =>
      let best := findLatest where_ key rest in
      if where_ r then
        match best with
        | Some b => if key r <? key b then Some b else Some r
        | None => Some r
        end
      else best
  end.

End Table.

Definition recordNotFound : Error :=
  PrismaError "Record to update not found.".

End Prisma.

(** ** Gateway adapters ([types/payment.types.ts], [gateways/*.gateway.ts]) *)

Module CreatePaymentRequest.
Record t : Type := mk {
  amount : Z;
  description : string;
  callbackUrl : string;
  email : option string;
  mobile : option string;
  metadata : Json.object
}.
End CreatePaymentRequest.

Module CreatePaymentResponse.
Record t : Type := mk {
  paymentUrl : string;
  authority : string;
  gatewayTxId : option string;
  message : option string
}.
End CreatePaymentResponse.

Module VerifyPaymentRequest.
Record t : Type := mk {
  authority : string;
  amount : option Z
}.
End VerifyPaymentRequest.

Module VerifyPaymentResponse.
Record t : Type := mk {
  refId : option string;
  cardPan : option string;
  cardHash : option string;
  feeType : option string;
  fee : option Z
}.
End VerifyPaymentResponse.

(** What an HTTP call to a provider comes back with: a response whose body
    is [body], or a rejection carrying the message found in the error's
    response body (if any) and the error's own message (if any). *)
Inductive HttpOutcome (B : Type) : Type :=
| Responded (body : B)
| Rejected (providerMessage : option string) (message : option string).

Arguments Responded {B} body.
Arguments Rejected {B} providerMessage message.

(** Reading a property of [undefined]: the [TypeError] the runtime raises,
    which the adapters' [catch] wraps into a gateway error. *)
Definition cannotRead (property : string) : string :=
  "Cannot read properties of undefined (reading '" +:+ property +:+ "')".

Module ZarinpalRequestData.
Record t : Type := mk {
  code : option Z;
  message : option string;
  authority : option string
}.
End ZarinpalRequestData.

Module ZarinpalVerifyData.
Record t : Type := mk {
  code : option Z;
  message : option string;
  card_hash : option string;
  card_pan : option string;
  ref_id : option Z;
  fee_type : option string;
  fee : option Z
}.
End ZarinpalVerifyData.

Module Zarinpal.

(** The body of a response is [{ data, errors }]; [None] stands for a body
    without a [data] member. *)
Definition createPayment (env : Config.t)
  (reply : HttpOutcome (option ZarinpalRequestData.t))
  (request : CreatePaymentRequest.t) : Result CreatePaymentResponse.t :=
  match reply with
  | Rejected pm m =>
      inl (PaymentGatewayError
             (Js.orElse pm (Js.orElse m "Payment creation failed")) None)
  | Responded None => inl (PaymentGatewayError (cannotRead "code") None)
  | Responded (Some data) =>
      match ZarinpalRequestData.code data, ZarinpalRequestData.authority data with
      | Some 100, Some (String c r) =>
          let authority := String c r in
          inr (CreatePaymentResponse.mk
                 (Config.ZARINPAL_GATEWAY_URL env +:+ authority)
                 authority None (ZarinpalRequestData.message data))
      | code, _ =>
          inl (PaymentGatewayError
                 (Js.orElse (ZarinpalRequestData.message data) "Failed to create payment")
                 code)
      end
  end.

(** Code 100 or 101 means successful payment; 101 means the payment was
    already verified. *)
Definition verifyPayment (reply : HttpOutcome (option ZarinpalVerifyData.t))
  (request : VerifyPaymentRequest.t) : Result VerifyPaymentResponse.t :=
  match reply with
  | Rejected pm m =>
      inl (PaymentGatewayError
             (Js.orElse pm (Js.orElse m "Payment verification failed")) None)
  | Responded None => inl (PaymentGatewayError (cannotRead "code") None)
  | Responded (Some data) =>
      let code := ZarinpalVerifyData.code data in
      if negb (bool_decide (code = Some 100)) && negb (bool_decide (code = Some 101))
      then inl (PaymentGatewayError
                  (Js.orElse (ZarinpalVerifyData.message data) "Payment verification failed")
                  code)
      else inr (VerifyPaymentResponse.mk
                  (Js.ofInt <$> ZarinpalVerifyData.ref_id data)
                  (ZarinpalVerifyData.card_pan data)
                  (ZarinpalVerifyData.card_hash data)
                  (ZarinpalVerifyData.fee_type data)
                  (ZarinpalVerifyData.fee data))
  end.

End Zarinpal.

Module ZibalRequestData.
Record t : Type := mk {
  result : option Z;
  message : option string;
  trackId : option Z
}.
End ZibalRequestData.

Module ZibalVerifyData.
Record t : Type := mk {
  result : option Z;
  message : option string;
  refNumber : option Z;
  cardNumber : option string
}.
End ZibalVerifyData.

Module Zibal.

(** The body of a response is the provider's object itself; [None] stands
    for an empty body. *)
Definition createPayment (env : Config.t)
  (reply : HttpOutcome (option ZibalRequestData.t))
  (request : CreatePaymentRequest.t) : Result CreatePaymentResponse.t :=
  match reply with
  | Rejected pm m =>
      inl (PaymentGatewayError
             (Js.orElse pm (Js.orElse m "Payment creation failed")) None)
  | Responded None => inl (PaymentGatewayError "Failed to create payment" None)
  | Responded (Some data) =>
      match ZibalRequestData.result data, ZibalRequestData.trackId data with
      | Some 100, Some trackId =>
          if trackId =? 0
          then inl (PaymentGatewayError
                      (Js.orElse (ZibalRequestData.message data) "Failed to create payment")
                      (Some 100))
          else
            let authority := Js.ofInt trackId in
            inr (CreatePaymentResponse.mk
                   (Config.ZIBAL_GATEWAY_URL env +:+ authority)
                   authority (Some authority) (ZibalRequestData.message data))
      | result, _ =>
          inl (PaymentGatewayError
                 (Js.orElse (ZibalRequestData.message data) "Failed to create payment")
                 result)
      end
  end.

Definition refIdOf (refNumber : option Z) : string :=
  match refNumber with
  | Some n => if n =? 0 then EmptyString else Js.ofInt n
  | None => EmptyString
  end.

Definition verifyPayment (reply : HttpOutcome (option ZibalVerifyData.t))
  (request : VerifyPaymentRequest.t) : Result VerifyPaymentResponse.t :=
  match reply with
  | Rejected pm m =>
      inl (PaymentGatewayError
             (Js.orElse pm (Js.orElse m "Payment verification failed")) None)
  | Responded None => inl (PaymentGatewayError "Payment verification failed" None)
  | Responded (Some data) =>
      let result := ZibalVerifyData.result data in
      if negb (bool_decide (result = Some 100))
      then inl (PaymentGatewayError
                  (Js.orElse (ZibalVerifyData.message data) "Payment verification failed")
                  result)
      else inr (VerifyPaymentResponse.mk
                  (Some (refIdOf (ZibalVerifyData.refNumber data)))
                  (ZibalVerifyData.cardNumber data)
                  None None None)
  end.

End Zibal.

Module Mock.

Definition createPayment (now : Z) (request : CreatePaymentRequest.t)
  : Result CreatePaymentResponse.t :=
  let authority := "AUTH-" +:+ Js.ofInt now in
  inr (CreatePaymentResponse.mk
         ("https://mock.pay/StartPay/" +:+ authority)
         authority None (Some "Mock payment created"%string)).

Definition verifyPayment (now : Z) (request : VerifyPaymentRequest.t)
  : Result VerifyPaymentResponse.t :=
  inr (VerifyPaymentResponse.mk
         (Some ("REF-" +:+ Js.ofInt now))
         (Some "1234-5678-****-****"%string)
         (Some "mock-hash"%string)
         (Some "fixed"%string)
         (Some 0)).

End Mock.

(** What the providers and the clock hand to the adapter during one call. *)
Module ProviderIO.
Record t : Type := mk {
  zarinpalRequest : HttpOutcome (option ZarinpalRequestData.t);
  zarinpalVerify : HttpOutcome (option ZarinpalVerifyData.t);
  zibalRequest : HttpOutcome (option ZibalRequestData.t);
  zibalVerify : HttpOutcome (option ZibalVerifyData.t);
  now : Z
}.
End ProviderIO.

(** Dispatch on the adapter instance ([IPaymentGateway]). *)
Definition adapterCreatePayment (env : Config.t) (a : Adapter) (io : ProviderIO.t)
  (request : CreatePaymentRequest.t) : Result CreatePaymentResponse.t :=
  match a with
  | ZarinpalGateway => Zarinpal.createPayment env (ProviderIO.zarinpalRequest io) request
  | ZibalGateway => Zibal.createPayment env (ProviderIO.zibalRequest io) request
  | MockGateway => Mock.createPayment (ProviderIO.now io) request
  end.

Definition adapterVerifyPayment (a : Adapter) (io : ProviderIO.t)
  (request : VerifyPaymentRequest.t) : Result VerifyPaymentResponse.t :=
  match a with
  | ZarinpalGateway => Zarinpal.verifyPayment (ProviderIO.zarinpalVerify io) request
  | ZibalGateway => Zibal.verifyPayment (ProviderIO.zibalVerify io) request
  | MockGateway => Mock.verifyPayment (ProviderIO.now io) request
  end.

(** ** Payment service ([payment.service.ts]) *)

(** A call the service made on an adapter instance. *)
Inductive GatewayCall : Type :=
| CreateCall (a : Adapter) (request : CreatePaymentRequest.t)
| VerifyCall (a : Adapter) (request : VerifyPaymentRequest.t).

Definition isVerifyCall (c : GatewayCall) : bool :=
  match c with
  | VerifyCall _ _ => true
  | CreateCall _ _ => false
  end.

(** The state a service method runs in: the database and the log of the
    calls made on gateway adapters so far (most recent last). *)
Module World.
Record t : Type := mk {
  db : Db.t;
  gatewayCalls : list GatewayCall
}.

Definition withDb (d : Db.t) (w : t) : t := mk d (gatewayCalls w).
Definition logCall (c : GatewayCall) (w : t) : t := mk (db w) (gatewayCalls w ++ [c]).
Definition payments (w : t) : list Payment.t := Db.payments (db w).
Definition withPayments (rows : list Payment.t) (w : t) : t :=
  withDb (Db.withPayments rows (db w)) w.
End World.

Module PaymentService.

Definition hasAuthority (authority : string) (p : Payment.t) : bool :=
  bool_decide (Payment.authority p = Some authority).

Definition hasId (id : string) (p : Payment.t) : bool :=
  String.eqb (Payment.id p) id.

(** The primary key of the table: no two rows share an identifier. *)
Definition uniqueIds (w : World.t) : Prop :=
  NoDup (Payment.id <$> World.payments w).

(** [prisma.payment.update({ where: { id }, data })] *)
Definition updatePayment (id : string) (data : Payment.t -> Payment.t) (w : World.t)
  : Result Payment.t * World.t :=
  match Prisma.update (hasId id) data (World.payments w) with
  | Some (row, rows) => (inr row, World.withPayments rows w)
  | None => (inl Prisma.recordNotFound, w)
  end.

(** [data: { status }] *)
Definition setStatus (s : PaymentStatus.t) (p : Payment.t) : Payment.t :=
  Payment.mk (Payment.id p) (Payment.subscriptionId p) (Payment.amount p)
    (Payment.currency p) (Payment.gateway p) (Payment.authority p)
    (Payment.paymentUrl p) s (Payment.gatewayTxId p) (Payment.paidAt p)
    (Payment.verifiedAt p) (Payment.userEmail p) (Payment.userPhone p)
    (Payment.notificationSent p) (Payment.metadata p).

(** [data: { notificationSent: true }] *)
Definition setNotificationSent (p : Payment.t) : Payment.t :=
  Payment.mk (Payment.id p) (Payment.subscriptionId p) (Payment.amount p)
    (Payment.currency p) (Payment.gateway p) (Payment.authority p)
    (Payment.paymentUrl p) (Payment.status p) (Payment.gatewayTxId p)
    (Payment.paidAt p) (Payment.verifiedAt p) (Payment.userEmail p)
    (Payment.userPhone p) true (Payment.metadata p).

(** The metadata written on a successful verification: the stored object
    with the adapter's reference fields merged in. *)
Definition verifiedMetadata (existing : option Json.object)
  (r : VerifyPaymentResponse.t) : Json.object :=
  let existingMetadata := Json.spread (default [] existing) in
  Json.stringify
    (Json.assign "fee" (Json.num (VerifyPaymentResponse.fee r))
    (Json.assign "feeType" (Json.str (VerifyPaymentResponse.feeType r))
    (Json.assign "cardHash" (Json.str (VerifyPaymentResponse.cardHash r))
    (Json.assign "cardPan" (Json.str (VerifyPaymentResponse.cardPan r))
    (Json.assign "refId" (Json.str (VerifyPaymentResponse.refId r))
       existingMetadata))))).

(** [data: { status: COMPLETED, gatewayTxId, paidAt, verifiedAt, metadata }];
    a [gatewayTxId] that is [undefined] leaves the column as it is. *)
Definition setCompleted (r : VerifyPaymentResponse.t) (paidAt verifiedAt : Z)
  (existing : option Json.object) (p : Payment.t) : Payment.t :=
  Payment.mk (Payment.id p) (Payment.subscriptionId p) (Payment.amount p)
    (Payment.currency p) (Payment.gateway p) (Payment.authority p)
    (Payment.paymentUrl p) PaymentStatus.COMPLETED
    (match VerifyPaymentResponse.refId r with
     | Some ref => Some ref
     | None => Payment.gatewayTxId p
     end)
    (Some paidAt) (Some verifiedAt) (Payment.userEmail p) (Payment.userPhone p)
    (Payment.notificationSent p) (Some (verifiedMetadata existing r)).

(** What one call of [createPayment] obtains from outside: the providers'
    replies, and the identifier the database mints for the new row. *)
Module CreateIO.
Record t : Type := mk {
  provider : ProviderIO.t;
  newId : string
}.
End CreateIO.

(** [subscription.findUnique({ where: { id }, include: { plan: true } })] *)
Definition findSubscriptionWithPlan (subscriptionId : string) (d : Db.t)
  : option (Subscription.t * option Plan.t) :=
  match Prisma.findFirst (fun s => String.eqb (Subscription.id s) subscriptionId)
          (Db.subscriptions d) with
  | Some s =>
      Some (s, Prisma.findFirst (fun p => String.eqb (Plan.id p) (Subscription.planId s))
                 (Db.plans d))
  | None => None
  end.

Definition missingRelation : Error :=
  PrismaError "Inconsistent query result: Field plan is required to return data, got null instead.".

(** [paymentGateway.createPayment(request)] on whatever the registry
    returned; an empty object has no such method. *)
Definition callCreate (env : Config.t) (g : Registry.GatewayObject) (io : ProviderIO.t)
  (request : CreatePaymentRequest.t) (w : World.t)
  : Result CreatePaymentResponse.t * World.t :=
  match g with
  | Registry.Instance a =>
      (adapterCreatePayment env a io request, World.logCall (CreateCall a request) w)
  | Registry.PlainObject =>
      (inl (TypeError "paymentGateway.createPayment is not a function"), w)
  end.

(** [paymentGateway.verifyPayment(request)], likewise. *)
Definition callVerify (g : Registry.GatewayObject) (io : ProviderIO.t)
  (request : VerifyPaymentRequest.t) (w : World.t)
  : Result VerifyPaymentResponse.t * World.t :=
  match g with
  | Registry.Instance a =>
      (adapterVerifyPayment a io request, World.logCall (VerifyCall a request) w)
  | Registry.PlainObject =>
      (inl (TypeError "paymentGateway.verifyPayment is not a function"), w)
  end.

(** [prisma.payment.create({ data })] *)
Definition createRow (row : Payment.t) (w : World.t) : Payment.t * World.t :=
  (row, World.withPayments (Prisma.create row (World.payments w)) w).

(** [createPayment(subscriptionId, amount, gateway, userEmail?, userPhone?)].
    Sending the payment link is best effort: it neither throws nor touches
    the state, and is left out. *)
Definition createPayment (env : Config.t) (io : CreateIO.t)
  (subscriptionId : string) (amount : Z) (gateway : string)
  (userEmail userPhone : option string) (w : World.t)
  : Result Payment.t * World.t :=
  match findSubscriptionWithPlan subscriptionId (World.db w) with
  | None => (inl (NotFoundError "Subscription"), w)
  | Some (_, None) => (inl missingRelation, w)
  | Some (subscription, Some plan) =>
      match Registry.getPaymentGateway gateway with
      | inl e => (inl e, w)
      | inr paymentGateway =>
          let paymentRequest :=
            CreatePaymentRequest.mk amount
              ("Subscription: " +:+ Plan.name plan)
              (Config.API_BASE_URL env +:+ "/api/payment/verify")
              userEmail userPhone
              [("subscriptionId"%string, Json.JString subscriptionId);
               ("planId"%string, Json.JString (Subscription.planId subscription))] in
          match callCreate env paymentGateway (CreateIO.provider io) paymentRequest w with
          | (inl e, w1) => (inl e, w1)
          | (inr gatewayResponse, w1) =>
              let row :=
                Payment.mk (CreateIO.newId io) subscriptionId amount
                  (Plan.currency plan) gateway
                  (Some (CreatePaymentResponse.authority gatewayResponse))
                  (Some (CreatePaymentResponse.paymentUrl gatewayResponse))
                  PaymentStatus.PENDING None None None userEmail userPhone false
                  (Some (Json.stringify
                     [("gatewayTxId"%string,
                       Json.str (CreatePaymentResponse.gatewayTxId gatewayResponse));
                      ("message"%string,
                       Json.str (CreatePaymentResponse.message gatewayResponse))])) in
              let (payment, w2) := createRow row w1 in
              match updatePayment (Payment.id payment) setNotificationSent w2 with
              | (inl e, w3) => (inl e, w3)
              | (inr _, w3) => (inr payment, w3)
              end
          end
      end
  end.

(** What one call of [verifyPayment] obtains from outside: the providers'
    replies and the two clock readings that stamp the row. *)
Module VerifyIO.
Record t : Type := mk {
  provider : ProviderIO.t;
  paidAtNow : Z;
  verifiedAtNow : Z
}.
End VerifyIO.

(** [status === 'NOK' || status === 'cancel'] *)
Definition isFailureStatus (status : option string) : bool :=
  match status with
  | Some s => String.eqb s "NOK" || String.eqb s "cancel"
  | None => false
  end.

Definition cancelledOrFailed : Error :=
  PaymentGatewayError "Payment was cancelled or failed" None.

(** [verifyPayment(authority, status?)] *)
Definition verifyPayment (io : VerifyIO.t) (authority : string)
  (status : option string) (w : World.t) : Result Payment.t * World.t :=
  match Prisma.findFirst (hasAuthority authority) (World.payments w) with
  | None => (inl (NotFoundError "Payment"), w)
  | Some payment =>
      if isFailureStatus status then
        match updatePayment (Payment.id payment) (setStatus PaymentStatus.FAILED) w with
        | (inl e, w1) => (inl e, w1)
        | (inr _, w1) => (inl cancelledOrFailed, w1)
        end
      else if bool_decide (Payment.status payment = PaymentStatus.COMPLETED) then
        (inr payment, w)
      else
        match Registry.getPaymentGateway (Payment.gateway payment) with
        | inl e => (inl e, w)
        | inr paymentGateway =>
            let verifyRequest :=
              VerifyPaymentRequest.mk
                (default EmptyString (Payment.authority payment))
                (Some (Payment.amount payment)) in
            match callVerify paymentGateway (VerifyIO.provider io) verifyRequest w with
            | (inl error, w1) =>
                match updatePayment (Payment.id payment)
                        (setStatus PaymentStatus.FAILED) w1 with
                | (inl e, w2) => (inl e, w2)
                | (inr _, w2) => (inl error, w2)
                end
            | (inr verifyResponse, w1) =>
                updatePayment (Payment.id payment)
                  (setCompleted verifyResponse (VerifyIO.paidAtNow io)
                     (VerifyIO.verifiedAtNow io) (Payment.metadata payment))
                  w1
            end
        end
  end.

(** [getPaymentByAuthority(authority)] *)
Definition getPaymentByAuthority (authority : string) (w : World.t) : option Payment.t :=
  Prisma.findFirst (hasAuthority authority) (World.payments w).

(** [getPaymentsBySubscription(subscriptionId)]; the rows come back in
    storage order here, the order of the result plays no part below. *)
Definition getPaymentsBySubscription (subscriptionId : string) (w : World.t)
  : list Payment.t :=
  Prisma.findMany (fun p => String.eqb (Payment.subscriptionId p) subscriptionId)
    (World.payments w).

(** One call on the service, with what it obtains from outside. *)
Inductive Operation : Type :=
| CreatePayment (io : CreateIO.t) (subscriptionId : string) (amount : Z)
    (gateway : string) (userEmail userPhone : option string)
| VerifyPayment (io : VerifyIO.t) (authority : string) (status : option string)
| GetPaymentByAuthority (authority : string)
| GetPaymentsBySubscription (subscriptionId : string).

(** A verification called with one of the failure sentinels. *)
Definition isFailureVerify (op : Operation) : bool :=
  match op with
  | VerifyPayment _ _ status => isFailureStatus status
  | _ => false
  end.

(** The state after a call. *)
Definition run (env : Config.t) (op : Operation) (w : World.t) : World.t :=
  match op with
  | CreatePayment io s a g e p => snd (createPayment env io s a g e p w)
  | VerifyPayment io a s => snd (verifyPayment io a s w)
  | GetPaymentByAuthority _ => w
  | GetPaymentsBySubscription _ => w
  end.

Fixpoint runAll (env : Config.t) (ops : list Operation) (w : World.t) : World.t :=
  match ops with
  | [] => w
  | op :: rest => runAll env rest (run env op w)
  end.

(** The status a payment row has in a state, by primary key. *)
Definition statusOf (id : string) (w : World.t) : option PaymentStatus.t :=
  Payment.status <$> Prisma.findFirst (hasId id) (World.payments w).

(** The identifier minted for a created row is not in use. *)
Definition mintsFreshId (op : Operation) (w : World.t) : Prop :=
  match op with
  | CreatePayment io _ _ _ _ _ => CreateIO.newId io ∉ Payment.id <$> World.payments w
  | _ => True
  end.

(** A sequence of calls, none of which is a verification under a failure
    sentinel, run from [w]. *)
Fixpoint withoutFailureVerify (env : Config.t) (ops : list Operation) (w : World.t)
  : Prop :=
  match ops with
  | [] => True
  | op :: rest =>
      isFailureVerify op = false /\ mintsFreshId op w
      /\ withoutFailureVerify env rest (run env op w)
  end.

End PaymentService.

(** ** Subscription service ([subscription.service.ts]) *)

Module SubscriptionService.

Definition hasId (id : string) (s : Subscription.t) : bool :=
  String.eqb (Subscription.id s) id.

(** [prisma.subscription.update({ where: { id }, data })] *)
Definition updateSubscription (id : string) (data : Subscription.t -> Subscription.t)
  (d : Db.t) : Result Subscription.t * Db.t :=
  match Prisma.update (hasId id) data (Db.subscriptions d) with
  | Some (row, rows) => (inr row, Db.withSubscriptions rows d)
  | None => (inl Prisma.recordNotFound, d)
  end.

(** [data: { status: ACTIVE, startDate, endDate }] *)
Definition setActive (startDate endDate : Z) (s : Subscription.t) : Subscription.t :=
  Subscription.mk (Subscription.id s) (Subscription.userId s) (Subscription.planId s)
    SubscriptionStatus.ACTIVE (Subscription.autoRenew s) (Some startDate) (Some endDate).

(** [data: { status: CANCELLED, autoRenew: false }] *)
Definition setCancelled (s : Subscription.t) : Subscription.t :=
  Subscription.mk (Subscription.id s) (Subscription.userId s) (Subscription.planId s)
    SubscriptionStatus.CANCELLED false (Subscription.startDate s) (Subscription.endDate s).

(** The two readings of the clock behind [startDate] and [endDate]. *)
Module ActivateIO.
Record t : Type := mk {
  startNow : Z;
  endNow : Z
}.
End ActivateIO.

Definition invalidDate : Error :=
  PrismaError "Invalid value for argument endDate: Provided Date object is invalid.".

(** [activateSubscription(subscriptionId, userEmail?, userPhone?)].  The
    notification, the audit entry and the webhook dispatch that follow the
    update are best effort and write to other tables; they are left out. *)
Definition activateSubscription (env : Config.t) (io : ActivateIO.t)
  (subscriptionId : string) (userEmail userPhone : option string) (d : Db.t)
  : Result Subscription.t * Db.t :=
  match PaymentService.findSubscriptionWithPlan subscriptionId d with
  | None => (inl (NotFoundError "Subscription"), d)
  | Some (_, None) => (inl PaymentService.missingRelation, d)
  | Some (subscription, Some plan) =>
      let startDate := ActivateIO.startNow io in
      let endDate := ActivateIO.endNow io in
      match JsDate.setDate (Config.LocalTZA env) endDate
              (JsDate.getDate (Config.LocalTZA env) endDate + Plan.duration plan) with
      | None => (inl invalidDate, d)
      | Some endDate' => updateSubscription subscriptionId (setActive startDate endDate') d
      end
  end.

(** [cancelSubscription(subscriptionId)] *)
Definition cancelSubscription (subscriptionId : string) (d : Db.t)
  : Result Subscription.t * Db.t :=
  match Prisma.findFirst (hasId subscriptionId) (Db.subscriptions d) with
  | None => (inl (NotFoundError "Subscription"), d)
  | Some _ => updateSubscription subscriptionId setCancelled d
  end.

(** [getActiveSubscription(userId)] at clock reading [now] *)
Definition getActiveSubscription (now : Z) (userId : string) (d : Db.t)
  : option Subscription.t :=
  Prisma.findFirst
    (fun s => String.eqb (Subscription.userId s) userId
              && bool_decide (Subscription.status s = SubscriptionStatus.ACTIVE)
              && match Subscription.endDate s with
                 | Some e => now <=? e
                 | None => false
                 end)
    (Db.subscriptions d).

End SubscriptionService.

(** ** Authentication service ([auth.service.ts]) *)

Module RateEntry.
Record t : Type := mk {
  count : Z;
  windowStart : Z
}.
End RateEntry.

Module AuthService.

(** The service object: its in-memory rate map, and the database. *)
Record State : Type := mkState {
  rate : gmap string RateEntry.t;
  db : Db.t
}.

Definition tooManyRequests : Error :=
  JsError "Too many OTP requests. Please wait and try again.".
Definition otpNotFound : Error := JsError "OTP not found or expired".
Definition invalidCode : Error := JsError "Invalid OTP code".

(** What one call of [requestOtp] obtains from outside: the clock reading
    of the rate limiter, the random source, the clock reading behind
    [expiresAt], and the identifier and creation time the database gives
    the new row. *)
Module RequestIO.
Record t : Type := mk {
  rateNow : Z;
  randomInt : Z -> Z -> Z;
  expiryNow : Z;
  newId : string;
  createdNow : Z
}.
End RequestIO.

(** What one call of [verifyOtp] obtains from outside: the clock readings
    of the query and of [usedAt], the identifier of a user row to create,
    the random bytes of the API key in hexadecimal, and the identifier of
    the API key row. *)
Module VerifyIO.
Record t : Type := mk {
  queryNow : Z;
  usedNow : Z;
  newUserId : string;
  randomBytesHex : string;
  newApiKeyId : string
}.
End VerifyIO.

Section Service.

Variable env : Config.t.

(** [crypto.createHash('sha256').update(s).digest('hex')] *)
Variable sha256Hex : string -> string.

Definition normalizePhone (phone : string) : string :=
  let p := Js.trim phone in
  if Js.startsWith p "+98" then "0" +:+ Js.slice p 3 else p.

(** [randCode()], with the random source [draw]: [crypto.randomInt]
    throws when its bounds are not acceptable, which is the case unless the
    configured length is between 1 and 14. *)
Definition randCode (draw : Z -> Z -> Z) : Result string :=
  let len := Config.OTP_LENGTH env in
  let max := (fun p => p - 1) <$> Crypto.pow10 len in
  let min := Crypto.pow10 (len - 1) in
  match Crypto.randomInt draw min ((fun m => m + 1) <$> max) with
  | inl e => inl e
  | inr n => inr (Js.padStart (Js.ofInt n) len "0")
  end.

Definition hashCode (code : string) : string := sha256Hex code.

Definition windowMs : Z := Config.RATE_LIMIT_WINDOW_SEC env * 1000.
Definition maxReq : Z := Config.RATE_LIMIT_MAX_REQUESTS env.

(** [checkRateLimit(key)] at clock reading [now]: throws, or updates the map. *)
Definition checkRateLimit (now : Z) (key : string) (rate : gmap string RateEntry.t)
  : Result (gmap string RateEntry.t) :=
  match rate !! key with
  | None => inr (<[key := RateEntry.mk 1 now]> rate)
  | Some entry =>
      if windowMs <? now - RateEntry.windowStart entry
      then inr (<[key := RateEntry.mk 1 now]> rate)
      else if maxReq <=? RateEntry.count entry
      then inl tooManyRequests
      else inr (<[key := RateEntry.mk (RateEntry.count entry + 1)
                           (RateEntry.windowStart entry)]> rate)
  end.

Definition rateKey (phone : string) : string := "otp:" +:+ phone.

(** [prisma.otpCode.create({ data: { phone, codeHash, expiresAt } })] *)
Definition createOtpCode (row : OtpCode.t) (d : Db.t) : Db.t :=
  Db.withOtpCodes (Prisma.create row (Db.otpCodes d)) d.

(** [requestOtp(rawPhone)].  When [randCode] throws, the rate counter has
    been written already and no row is created.  Sending the code by SMS is
    best effort: it neither throws nor touches the state, and is left out. *)
Definition requestOtp (io : RequestIO.t) (rawPhone : string) (st : State)
  : Result unit * State :=
  let phone := normalizePhone rawPhone in
  match checkRateLimit (RequestIO.rateNow io) (rateKey phone) (rate st) with
  | inl e => (inl e, st)
  | inr rate' =>
      match randCode (RequestIO.randomInt io) with
      | inl e => (inl e, mkState rate' (db st))
      | inr code =>
          let codeHash := hashCode code in
          let expiresAt := RequestIO.expiryNow io + Config.OTP_EXP_MIN env * 60000 in
          let row :=
            OtpCode.mk (RequestIO.newId io) phone codeHash expiresAt 0 None
              (RequestIO.createdNow io) in
          (inr tt, mkState rate' (createOtpCode row (db st)))
      end
  end.

(** [where: { phone, usedAt: null, expiresAt: { gt: now } }] *)
Definition isLive (phone : string) (now : Z) (r : OtpCode.t) : bool :=
  String.eqb (OtpCode.phone r) phone
  && bool_decide (OtpCode.usedAt r = None)
  && (now <? OtpCode.expiresAt r).

(** [data: { attempts: record.attempts + 1, usedAt }] *)
Definition setAttempt (attempts : Z) (usedAt : option Z) (r : OtpCode.t) : OtpCode.t :=
  OtpCode.mk (OtpCode.id r) (OtpCode.phone r) (OtpCode.codeHash r)
    (OtpCode.expiresAt r) attempts usedAt (OtpCode.createdAt r).

Definition updateOtpCode (id : string) (data : OtpCode.t -> OtpCode.t) (d : Db.t)
  : Result Db.t :=
  match Prisma.update (fun r => String.eqb (OtpCode.id r) id) data (Db.otpCodes d) with
  | Some (_, rows) => inr (Db.withOtpCodes rows d)
  | None => inl Prisma.recordNotFound
  end.

(** [prisma.user.create({ data: { phone, role: 'USER' } })] *)
Definition createUser (row : User.t) (d : Db.t) : Db.t :=
  Db.withUsers (Prisma.create row (Db.users d)) d.

(** [prisma.apiKey.create({ data: { userId, hash, label: 'login' } })] *)
Definition createApiKey (row : ApiKey.t) (d : Db.t) : Db.t :=
  Db.withApiKeys (Prisma.create row (Db.apiKeys d)) d.

(** The user of a phone number, created when there is none. *)
Definition findOrCreateUser (io : VerifyIO.t) (phone : string) (d : Db.t)
  : User.t * Db.t :=
  match Prisma.findFirst (fun u => bool_decide (User.phone u = Some phone)) (Db.users d) with
  | Some user => (user, d)
  | None =>
      let user := User.mk (VerifyIO.newUserId io) (Some phone) None "USER" in
      (user, createUser user d)
  end.

(** [verifyOtp(rawPhone, code)]: the user and the API key in clear. *)
Definition verifyOtp (io : VerifyIO.t) (rawPhone code : string) (st : State)
  : Result (User.t * string) * State :=
  let phone := normalizePhone rawPhone in
  match Prisma.findLatest (isLive phone (VerifyIO.queryNow io)) OtpCode.createdAt
          (Db.otpCodes (db st)) with
  | None => (inl otpNotFound, st)
  | Some record =>
      let codeHash := hashCode code in
      let ok := String.eqb (OtpCode.codeHash record) codeHash in
      match updateOtpCode (OtpCode.id record)
              (setAttempt (OtpCode.attempts record + 1)
                 (if ok then Some (VerifyIO.usedNow io) else OtpCode.usedAt record))
              (db st) with
      | inl e => (inl e, st)
      | inr d1 =>
          if negb ok then (inl invalidCode, mkState (rate st) d1)
          else
            let (user, d2) := findOrCreateUser io phone d1 in
            let apiKeyPlain := VerifyIO.randomBytesHex io in
            let apiHash := sha256Hex apiKeyPlain in
            let d3 :=
              createApiKey
                (ApiKey.mk (VerifyIO.newApiKeyId io) (Some (User.id user))
                   apiHash (Some "login"%string) true None) d2 in
            (inr (user, apiKeyPlain), mkState (rate st) d3)
      end
  end.


End Service.

End AuthService.

(** ** Sample data

    A small installation used to run the services on concrete inputs. *)

Module Sample.

(** The host is in a zone that keeps the offset +03:30 all year. *)
Definition env : Config.t :=
  Config.mk "http://localhost:3001" "https://sandbox.zarinpal.com/pg/StartPay/"
    "https://gateway.zibal.ir/start/" 6 5 60 3 (fun _ _ => 12600000).

Definition monthly : Plan.t := Plan.mk "plan_1" "Monthly" 100000 "IRR" 30 true.

Definition subscription : Subscription.t :=
  Subscription.mk "sub_1" "user_1" "plan_1" SubscriptionStatus.PENDING true
    (Some 1690000000000) (Some 1692592000000).

Definition payment (id authority : string) (status : PaymentStatus.t) : Payment.t :=
  Payment.mk id "sub_1" 100000 "IRR" "mock" (Some authority)
    (Some ("https://mock.pay/StartPay/" +:+ authority)) status None None None
    (Some "user@example.com"%string) (Some "09120000000"%string) true
    (Some [("message"%string, Json.JString "Mock payment created")]).

Definition pending : Payment.t := payment "pay_1" "AUTH-1700000000000" PaymentStatus.PENDING.
Definition failed : Payment.t := payment "pay_2" "AUTH-1700000000500" PaymentStatus.FAILED.
Definition completed : Payment.t :=
  payment "pay_3" "AUTH-1700000000900" PaymentStatus.COMPLETED.

Definition database : Db.t :=
  Db.mk [monthly] [subscription] [pending; failed; completed] [] [] [].

Definition world : World.t := World.mk database [].

(** No provider answers; the clock reads 1700000001000. *)
Definition provider : ProviderIO.t :=
  ProviderIO.mk (Rejected None None) (Rejected None None)
    (Rejected None None) (Rejected None None) 1700000001000.

Definition verifyIO : PaymentService.VerifyIO.t :=
  PaymentService.VerifyIO.mk provider 1700000001001 1700000001002.

Definition laterVerifyIO : PaymentService.VerifyIO.t :=
  PaymentService.VerifyIO.mk provider 1700000009001 1700000009002.

(** A stand-in for the SHA-256 digest when a service is run on concrete
    inputs; nothing below depends on which function it is. *)
Definition digest (s : string) : string := "sha256:" +:+ s.

Definition emptyDatabase : Db.t := Db.mk [] [] [] [] [] [].

(** The authentication service right after start-up. *)
Definition started : AuthService.State := AuthService.mkState ∅ emptyDatabase.

(** A request at [now]; the random source draws the code 123456. *)
Definition request (id : string) (now : Z) : AuthService.RequestIO.t :=
  AuthService.RequestIO.mk now (fun min _ => min + 23456) now id now.

Definition login (now : Z) (userId key keyId : string) : AuthService.VerifyIO.t :=
  AuthService.VerifyIO.mk now now userId key keyId.

(** Two requests for one phone number, ten seconds apart, for both of
    which the random source draws the code 123456. *)
Definition requestedTwice : AuthService.State :=
  snd (AuthService.requestOtp env digest (request "otp_2" 1700000010000) "09120000000"
         (snd (AuthService.requestOtp env digest (request "otp_1" 1700000000000)
                 "09120000000" started))).

Definition firstLogin : AuthService.VerifyIO.t :=
  login 1700000060000 "user_1" "6b1f0c2e" "key_1".

Definition secondLogin : AuthService.VerifyIO.t :=
  login 1700000120000 "user_2" "9d4a7e55" "key_2".


End Sample.

(** ** Reading a JSON object *)

Module JsonObject.

(** [o[k]]: the value stored under the key, if any. *)
Fixpoint get (k : string) (o : Json.object) : option Json.value :=
  match o with
  | [] => None
  | (k', v) :: r => if String.eqb k' k then Some v else get k r
  end.

End JsonObject.

(** ** Subscription service, continued ([subscription.service.ts]) *)

Module CreateSubscriptionInput.
Record t : Type := mk {
  userId : string;
  planId : string;
  autoRenew : option bool;
  gateway : option string;
  userEmail : option string;
  userPhone : option string
}.
End CreateSubscriptionInput.

(** The [payment] member of what [createSubscription] returns. *)
Module PaymentSummary.
Record t : Type := mk {
  id : string;
  amount : Z;
  currency : string;
  paymentUrl : option string;
  authority : option string;
  status : PaymentStatus.t
}.
End PaymentSummary.

Module Subscriptions.

(** What one call of [createSubscription] obtains from outside: the
    identifier minted for the subscription row, and what the payment
    service obtains. *)
Module CreateIO.
Record t : Type := mk {
  newSubscriptionId : string;
  payment : PaymentService.CreateIO.t
}.
End CreateIO.

Definition planNotAvailable : Error := JsError "This plan is not currently available".

Definition summary (p : Payment.t) : PaymentSummary.t :=
  PaymentSummary.mk (Payment.id p) (Payment.amount p) (Payment.currency p)
    (Payment.paymentUrl p) (Payment.authority p) (Payment.status p).

(** [createSubscription(input)]: the subscription with its plan, and the
    summary of the payment. *)
Definition createSubscription (env : Config.t) (io : CreateIO.t)
  (input : CreateSubscriptionInput.t) (w : World.t)
  : Result (Subscription.t * Plan.t * PaymentSummary.t) * World.t :=
  match Prisma.findFirst
          (fun p => String.eqb (Plan.id p) (CreateSubscriptionInput.planId input))
          (Db.plans (World.db w)) with
  | None => (inl (NotFoundError "Plan"), w)
  | Some plan =>
      if negb (Plan.isActive plan) then (inl planNotAvailable, w)
      else
        let subscription :=
          Subscription.mk (CreateIO.newSubscriptionId io)
            (CreateSubscriptionInput.userId input)
            (CreateSubscriptionInput.planId input)
            SubscriptionStatus.PENDING
            (default false (CreateSubscriptionInput.autoRenew input))
            None None in
        let w1 :=
          World.withDb
            (Db.withSubscriptions
               (Prisma.create subscription (Db.subscriptions (World.db w)))
               (World.db w)) w in
        match PaymentService.createPayment env (CreateIO.payment io)
                (Subscription.id subscription) (Plan.price plan)
                (Js.orElse (CreateSubscriptionInput.gateway input) "zarinpal")
                (CreateSubscriptionInput.userEmail input)
                (CreateSubscriptionInput.userPhone input) w1 with
        | (inl e, w2) => (inl e, w2)
        | (inr payment, w2) => (inr (subscription, plan, summary payment), w2)
        end
  end.

Definition priceLe (a b : Plan.t) : Prop := Plan.price a <= Plan.price b.

#[global] Instance priceLe_dec (a b : Plan.t) : Decision (priceLe a b).
Proof. unfold priceLe. apply _. Defined.

(** [getAvailablePlans()]: the active plans, by ascending price. *)
Definition getAvailablePlans (d : Db.t) : list Plan.t :=
  merge_sort priceLe (Prisma.findMany Plan.isActive (Db.plans d)).

End Subscriptions.

(** ** Routes ([server/index.ts], [routers/payment.router.ts]) *)

Module Routes.

(** The body of a successful answer of [POST /api/payment/verify]. *)
Module VerifyResponse.
Record t : Type := mk {
  success : bool;
  id : string;
  amount : Z;
  currency : string;
  status : PaymentStatus.t;
  paidAt : option Z;
  gatewayTxId : option string;
  subscriptionId : string
}.
End VerifyResponse.

(** An answer: the JSON body with status 200, or status 400 for the error
    that was caught. *)
Inductive Answer (A : Type) : Type :=
| Ok (body : A)
| BadRequest (err : Error).

Arguments Ok {A} body.
Arguments BadRequest {A} err.

(** [s || undefined] *)
Definition nonEmpty (s : option string) : option string :=
  match s with
  | Some EmptyString | None => None
  | Some v => Some v
  end.

Module VerifyIO.
Record t : Type := mk {
  verify : PaymentService.VerifyIO.t;
  activate : SubscriptionService.ActivateIO.t
}.
End VerifyIO.

(** The handler of [POST /api/payment/verify], on a body that
    [verifyPaymentSchema] accepts (an [authority] and a [status], which the
    later schema makes optional): verify, activate the subscription when the
    payment is COMPLETED, and report; anything thrown is answered with 400
    and the error. *)
Definition verify (env : Config.t) (io : VerifyIO.t) (authority : string)
  (status : option string) (w : World.t) : Answer VerifyResponse.t * World.t :=
  match PaymentService.verifyPayment (VerifyIO.verify io) authority status w with
  | (inl e, w1) => (BadRequest e, w1)
  | (inr payment, w1) =>
      let completed := bool_decide (Payment.status payment = PaymentStatus.COMPLETED) in
      let body :=
        VerifyResponse.mk completed (Payment.id payment) (Payment.amount payment)
          (Payment.currency payment) (Payment.status payment) (Payment.paidAt payment)
          (Payment.gatewayTxId payment) (Payment.subscriptionId payment) in
      if completed then
        match SubscriptionService.activateSubscription env (VerifyIO.activate io)
                (Payment.subscriptionId payment)
                (nonEmpty (Payment.userEmail payment))
                (nonEmpty (Payment.userPhone payment)) (World.db w1) with
        | (inl e, d2) => (BadRequest e, World.withDb d2 w1)
        | (inr _, d2) => (Ok body, World.withDb d2 w1)
        end
      else (Ok body, w1)
  end.

End Routes.

(** ** Notions used in the statements below *)

(** A string of white space only. *)
Fixpoint isBlank (s : string) : bool :=
  match s with
  | EmptyString => true
  | String c r => Js.isWhiteSpace c && isBlank r
  end.

(** The two spellings of the number whose national part is [rest], with
    white space around. *)
Definition withPlus98 (pre rest post : string) : string :=
  pre +:+ "+98" +:+ rest +:+ post.
Definition withZero (pre rest post : string) : string :=
  pre +:+ "0" +:+ rest +:+ post.

(** A gateway error, whatever its message and code. *)
Definition isGatewayError (e : Error) : Prop :=
  exists message code, e = PaymentGatewayError message code.

(** The base of the payment page of an adapter. *)
Definition startPayUrl (env : Config.t) (a : Adapter) : string :=
  match a with
  | ZarinpalGateway => Config.ZARINPAL_GATEWAY_URL env
  | ZibalGateway => Config.ZIBAL_GATEWAY_URL env
  | MockGateway => "https://mock.pay/StartPay/"
  end.

(** The keys a verification writes into the metadata. *)
Definition referenceKeys : list string :=
  ["refId"; "cardPan"; "cardHash"; "feeType"; "fee"]%string.

(** The subscription row [createSubscription] writes. *)
Definition pendingSubscription (io : Subscriptions.CreateIO.t)
  (input : CreateSubscriptionInput.t) : Subscription.t :=
  Subscription.mk (Subscriptions.CreateIO.newSubscriptionId io)
    (CreateSubscriptionInput.userId input) (CreateSubscriptionInput.planId input)
    SubscriptionStatus.PENDING (default false (CreateSubscriptionInput.autoRenew input))
    None None.

(** The primary key of the subscriptions. *)
Definition uniqueSubscriptionIds (d : Db.t) : Prop :=
  NoDup (Subscription.id <$> Db.subscriptions d).


(** ** AuthService, continued *)

Module Otp.

(** What one call of [validateOtp] obtains from outside: the clock
    readings of the query and of [usedAt]. *)
Module ValidateIO.
Record t : Type := mk {
  queryNow : Z;
  usedNow : Z
}.
End ValidateIO.

(** [validateOtp(rawPhone, code)] *)
Definition validateOtp (sha256Hex : string -> string) (io : ValidateIO.t)
  (rawPhone code : string) (st : AuthService.State)
  : Result bool * AuthService.State :=
  let phone := AuthService.normalizePhone rawPhone in
  match Prisma.findLatest (AuthService.isLive phone (ValidateIO.queryNow io))
          OtpCode.createdAt (Db.otpCodes (AuthService.db st)) with
  | None => (inr false, st)
  | Some record =>
      let codeHash := AuthService.hashCode sha256Hex code in
      let ok := String.eqb (OtpCode.codeHash record) codeHash in
      match AuthService.updateOtpCode (OtpCode.id record)
              (AuthService.setAttempt (OtpCode.attempts record + 1)
                 (if ok then Some (ValidateIO.usedNow io) else OtpCode.usedAt record))
              (AuthService.db st) with
      | inl e => (inl e, st)
      | inr d1 => (inr ok, AuthService.mkState (AuthService.rate st) d1)
      end
  end.

(** The primary key of the OTP table. *)
Definition uniqueIds (d : Db.t) : Prop := NoDup (OtpCode.id <$> Db.otpCodes d).

(** Every counter of the rate map lies between 1 and the configured
    maximum (or 1, when the maximum is lower). *)
Definition rateBounded (env : Config.t) (rate : gmap string RateEntry.t) : Prop :=
  map_Forall
    (fun _ entry => 1 <= RateEntry.count entry <= Z.max 1 (AuthService.maxReq env))
    rate.

End Otp.

(** ** ApiKeyService (the version that knows the key's user) *)

Module ApiKeyService.

(** What one call of [create] or [createForUser] obtains from outside:
    the random bytes of the key in hexadecimal, and the identifier the
    database gives the new row. *)
Module CreateIO.
Record t : Type := mk {
  randomBytesHex : string;
  newId : string
}.
End CreateIO.

(** [{ id, key, label }] *)
Module Created.
Record t : Type := mk {
  id : string;
  key : string;
  label : option string
}.
End Created.

(** [{ ok, user }] *)
Module Verified.
Record t : Type := mk {
  ok : bool;
  user : option User.t
}.
End Verified.

Definition hasId (id : string) (r : ApiKey.t) : bool := String.eqb (ApiKey.id r) id.

(** [data: { isActive: false }] *)
Definition setInactive (r : ApiKey.t) : ApiKey.t :=
  ApiKey.mk (ApiKey.id r) (ApiKey.userId r) (ApiKey.hash r) (ApiKey.label r) false
    (ApiKey.lastUsedAt r).

(** [data: { lastUsedAt: new Date() }] *)
Definition setLastUsedAt (now : Z) (r : ApiKey.t) : ApiKey.t :=
  ApiKey.mk (ApiKey.id r) (ApiKey.userId r) (ApiKey.hash r) (ApiKey.label r)
    (ApiKey.isActive r) (Some now).

(** [prisma.apiKey.update({ where: { id }, data })] *)
Definition updateApiKey (id : string) (data : ApiKey.t -> ApiKey.t) (d : Db.t)
  : Result Db.t :=
  match Prisma.update (hasId id) data (Db.apiKeys d) with
  | Some (_, rows) => inr (Db.withApiKeys rows d)
  | None => inl Prisma.recordNotFound
  end.

(** [include: { user: true }] *)
Definition includeUser (found : ApiKey.t) (d : Db.t) : option User.t :=
  match ApiKey.userId found with
  | Some userId => Prisma.findFirst (fun u => String.eqb (User.id u) userId) (Db.users d)
  | None => None
  end.

(** The primary key of the API key table. *)
Definition uniqueIds (d : Db.t) : Prop := NoDup (ApiKey.id <$> Db.apiKeys d).

(** The primary key of the user table. *)
Definition uniqueUserIds (d : Db.t) : Prop := NoDup (User.id <$> Db.users d).

(** No stored key has the hash, or the identifier. *)
Definition hashUnused (h : string) (d : Db.t) : Prop :=
  Forall (fun r => ApiKey.hash r <> h) (Db.apiKeys d).
Definition idUnused (id : string) (d : Db.t) : Prop :=
  Forall (fun r => ApiKey.id r <> id) (Db.apiKeys d).

Section Service.

(** [crypto.createHash('sha256').update(s).digest('hex')] *)
Variable sha256Hex : string -> string.

Definition hash (key : string) : string := sha256Hex key.

(** [create(label)].  The index on [hash] is unique: the row is created
    under a hash that is not stored yet. *)
Definition create (io : CreateIO.t) (label : option string) (d : Db.t)
  : Created.t * Db.t :=
  let key := CreateIO.randomBytesHex io in
  let hash := hash key in
  let created := ApiKey.mk (CreateIO.newId io) None hash label true None in
  (Created.mk (ApiKey.id created) key (Routes.nonEmpty (ApiKey.label created)),
   AuthService.createApiKey created d).

(** [createForUser(userId, label)] *)
Definition createForUser (io : CreateIO.t) (userId : string) (label : option string)
  (d : Db.t) : Created.t * Db.t :=
  let key := CreateIO.randomBytesHex io in
  let hash := hash key in
  let created := ApiKey.mk (CreateIO.newId io) (Some userId) hash label true None in
  (Created.mk (ApiKey.id created) key (Routes.nonEmpty (ApiKey.label created)),
   AuthService.createApiKey created d).

(** [deactivate(id)] *)
Definition deactivate (id : string) (d : Db.t) : Result bool * Db.t :=
  match Prisma.findFirst (hasId id) (Db.apiKeys d) with
  | None => (inr false, d)
  | Some _ =>
      match updateApiKey id setInactive d with
      | inl e => (inl e, d)
      | inr d' => (inr true, d')
      end
  end.

(** [deactivateForUser(id, userId)] *)
Definition deactivateForUser (id userId : string) (d : Db.t) : Result bool * Db.t :=
  match Prisma.findFirst (hasId id) (Db.apiKeys d) with
  | None => (inr false, d)
  | Some found =>
      if negb (bool_decide (ApiKey.userId found = Some userId)) then (inr false, d)
      else
        match updateApiKey id setInactive d with
        | inl e => (inl e, d)
        | inr d' => (inr true, d')
        end
  end.

(** [verifyAndTouch(key)] at clock reading [now] *)
Definition verifyAndTouch (now : Z) (key : string) (d : Db.t)
  : Result Verified.t * Db.t :=
  let hash := hash key in
  match Prisma.findFirst (fun r => String.eqb (ApiKey.hash r) hash) (Db.apiKeys d) with
  | None => (inr (Verified.mk false None), d)
  | Some found =>
      if negb (ApiKey.isActive found) then (inr (Verified.mk false None), d)
      else
        match updateApiKey (ApiKey.id found) (setLastUsedAt now) d with
        | inl e => (inl e, d)
        | inr d' => (inr (Verified.mk true (includeUser found d)), d')
        end
  end.

End Service.

End ApiKeyService.

(** ** The authentication middleware of the server *)

Module Server.

(** What the middleware reads of a request. *)
Module Request.
Record t : Type := mk {
  path : string;
  xApiKey : option string;
  authorization : option string
}.
End Request.

(** What the middleware does with a request: [next()], with the user it
    attached, or a 401 with its message. *)
Inductive Outcome : Type :=
| Next (user : option User.t)
| Unauthorized (message : string).

(** [extractKey(req)] *)
Definition extractKey (req : Request.t) : option string :=
  let headerKey := Js.trim (Js.orElse (Request.xApiKey req) EmptyString) in
  let auth := Js.trim (Js.orElse (Request.authorization req) EmptyString) in
  let authKey :=
    if Js.startsWith auth "ApiKey " then Js.trim (Js.slice auth 7) else EmptyString in
  let key := Js.orElse (Some headerKey) authKey in
  Routes.nonEmpty (Some key).

(** [isMaster(key)], with [env.MASTER_API_KEY] as [master] *)
Definition isMaster (master : option string) (key : option string) : bool :=
  match Routes.nonEmpty key, Routes.nonEmpty master with
  | Some k, Some m => String.eqb k m
  | _, _ => false
  end.

Definition isExempt (path : string) : bool :=
  String.eqb path "/health"
  || String.eqb path "/api/payment/callback"
  || String.eqb path "/api/auth/request-otp"
  || String.eqb path "/api/auth/verify-otp"
  || String.eqb path "/openapi.yaml"
  || Js.startsWith path "/docs".

(** The middleware in front of every route. *)
Definition authenticate (sha256Hex : string -> string) (master : option string)
  (now : Z) (req : Request.t) (d : Db.t) : Result Outcome * Db.t :=
  if isExempt (Request.path req) then (inr (Next None), d)
  else
    let key := extractKey req in
    if isMaster master key then (inr (Next None), d)
    else
      match key with
      | None => (inr (Unauthorized "Missing API key"), d)
      | Some k =>
          match ApiKeyService.verifyAndTouch sha256Hex now k d with
          | (inl e, d') => (inl e, d')
          | (inr result, d') =>
              if negb (ApiKeyService.Verified.ok result)
              then (inr (Unauthorized "Invalid API key"), d')
              else (inr (Next (ApiKeyService.Verified.user result)), d')
          end
      end.

End Server.

(** ** Further sample data *)

Module Fixtures.

(** A payment row to create on the sample database: the database mints
    [pay_9] for it, and no provider answers. *)
Definition createIO : PaymentService.CreateIO.t :=
  PaymentService.CreateIO.mk Sample.provider "pay_9".

Definition createSubscriptionIO : Subscriptions.CreateIO.t :=
  Subscriptions.CreateIO.mk "sub_2" createIO.

(** A subscription request for the sample plan, through the given gateway. *)
Definition input (planId gateway : string) : CreateSubscriptionInput.t :=
  CreateSubscriptionInput.mk "user_2" planId (Some true) (Some gateway)
    (Some "user@example.com"%string) None.

(** The sample database with one pending Zarinpal payment. *)
Definition zarinpalPayment : Payment.t :=
  Payment.mk "pay_z" "sub_1" 100000 "IRR" "zarinpal"
    (Some "A00000000000000000000000000000123456"%string)
    (Some "https://sandbox.zarinpal.com/pg/StartPay/A00000000000000000000000000000123456"%string)
    PaymentStatus.PENDING None None None None None true None.

Definition zarinpalWorld : World.t :=
  World.mk (Db.mk [Sample.monthly] [Sample.subscription] [zarinpalPayment] [] [] []) [].

(** Two active subscriptions of one user. *)
Definition active (id : string) : Subscription.t :=
  Subscription.mk id "user_1" "plan_1" SubscriptionStatus.ACTIVE true
    (Some 1700000000000) (Some 1702592000000).

Definition twoActive : Db.t :=
  Db.mk [Sample.monthly] [active "sub_a"; active "sub_b"] [] [] [] [].

(** The clock readings of an activation. *)
Definition activateIO : SubscriptionService.ActivateIO.t :=
  SubscriptionService.ActivateIO.mk 1700000002000 1700000002001.

Definition routeIO : Routes.VerifyIO.t := Routes.VerifyIO.mk Sample.verifyIO activateIO.

(** The authentication service after one request for 09120000000, for
    which the random source draws the code 123456. *)
Definition requested : AuthService.State :=
  snd (AuthService.requestOtp Sample.env Sample.digest
         (Sample.request "otp_1" 1700000000000) "09120000000" Sample.started).

Definition requestedRow : OtpCode.t :=
  OtpCode.mk "otp_1" "09120000000" (Sample.digest "123456") 1700000300000 0 None
    1700000000000.

(** A database with one user, and the key created for that user. *)
Definition oneUser : Db.t :=
  Db.mk [] [] [] [] [User.mk "user_1" (Some "09120000000"%string) None "USER"] [].

Definition keyIO : ApiKeyService.CreateIO.t := ApiKeyService.CreateIO.mk "6b1f0c2e" "key_1".

Definition oneKey : Db.t :=
  snd (ApiKeyService.createForUser Sample.digest keyIO "user_1" None oneUser).



End Fixtures.

(** * Properties *)

(** ** Gateway registry *)

Lemma toLowerCaseUnit_not_upper (c : ascii) : Js.isUpperUnit (Js.toLowerCaseUnit c) = false.
Proof. destruct c as [[] [] [] [] [] [] [] []]; reflexivity. Qed.

Lemma toLowerCase_no_upper (s : string) : Js.hasUpper (Js.toLowerCase s) = false.
Proof.
  induction s as [|c r IH]; simpl; [reflexivity|].
  now rewrite toLowerCaseUnit_not_upper, IH.
Qed.

(** Lower-casing never produces one of the mixed-case members of
    [Object.prototype], so the registry lookup can only inherit
    [constructor] or [__proto__]. *)
Lemma toLowerCase_not_mixed (s : string) :
  ~ In (Js.toLowerCase s) Registry.mixedCaseMembers.
Proof.
  intros H. pose proof (toLowerCase_no_upper s) as U.
  simpl in H.
  repeat (destruct H as [H|H]; [rewrite <- H in U; discriminate U|]).
  exact H.
Qed.

Lemma toLowerCase_idempotent (s : string) :
  Js.toLowerCase (Js.toLowerCase s) = Js.toLowerCase s.
Proof.
  induction s as [|c r IH]; simpl; [reflexivity|].
  rewrite IH. f_equal.
  destruct c as [[] [] [] [] [] [] [] []]; reflexivity.
Qed.

(** A registered name resolves to its adapter. *)
Lemma getPaymentGatewayIn_registered (reg : Registry.Registry) (name : string) (a : Adapter) :
  Registry.ownProperty reg (Js.toLowerCase name) = Some a ->
  Registry.getPaymentGatewayIn reg name = inr (Registry.Instance a).
Proof.
  intros H. unfold Registry.getPaymentGatewayIn, Registry.getProperty.
  now rewrite H.
Qed.

(** Resolution looks at the lower-cased name only: two spellings of one
    name that resolve, resolve to the same thing. *)
Lemma getPaymentGatewayIn_case_insensitive (reg : Registry.Registry) (n1 n2 : string) :
  Js.toLowerCase n1 = Js.toLowerCase n2 ->
  forall g, Registry.getPaymentGatewayIn reg n1 = inr g ->
            Registry.getPaymentGatewayIn reg n2 = inr g.
Proof.
  unfold Registry.getPaymentGatewayIn. intros ->.
  destruct (Registry.getProperty reg (Js.toLowerCase n2)) as [a|[]|];
    intros g H; try discriminate H; exact H.
Qed.

(** A name that is neither registered nor inherited is refused with a
    [ValidationError] that lists the registered names. *)
Lemma getPaymentGatewayIn_unknown (reg : Registry.Registry) (name : string) :
  Registry.ownProperty reg (Js.toLowerCase name) = None ->
  Registry.objectPrototype (Js.toLowerCase name) = None ->
  Registry.getPaymentGatewayIn reg name
  = inl (ValidationError
           ("Payment gateway '" +:+ name +:+ "' is not supported. Available gateways: "
              +:+ Js.join ", " (Registry.keys reg))).
Proof.
  intros H1 H2. unfold Registry.getPaymentGatewayIn, Registry.getProperty.
  now rewrite H1, H2.
Qed.

Example getPaymentGateway_mixed_case :
  Registry.getPaymentGateway "ZarinPal" = inr (Registry.Instance ZarinpalGateway)
  /\ Registry.getPaymentGateway "MOCK" = inr (Registry.Instance MockGateway)
  /\ Registry.getPaymentGateway "zibal"
     = inl (ValidationError
              "Payment gateway 'zibal' is not supported. Available gateways: zarinpal, mock").
Proof. repeat split; reflexivity. Qed.

(** C4 (code defect).  The name [constructor] is not registered, yet
    resolving it does not fail: the registry is an object literal, the
    lookup finds the inherited [Object] function, and calling it yields an
    empty object.  The name [__proto__] is not registered either and fails
    with a [TypeError], not with a [ValidationError]. *)
Theorem getPaymentGateway_inherited_names :
  Registry.ownProperty Registry.gatewayRegistry "constructor" = None
  /\ Registry.getPaymentGateway "constructor" = inr Registry.PlainObject
  /\ Registry.ownProperty Registry.gatewayRegistry "__proto__" = None
  /\ Registry.getPaymentGateway "__proto__"
     = inl (TypeError "gatewayFactory is not a function").
Proof. repeat split; reflexivity. Qed.

(** ** Gateway adapters *)

(** Zarinpal accepts the codes 100 and 101 and nothing else. *)
Lemma Zarinpal_verifyPayment_accepts (data : ZarinpalVerifyData.t)
  (request : VerifyPaymentRequest.t) :
  ZarinpalVerifyData.code data = Some 100 \/ ZarinpalVerifyData.code data = Some 101 ->
  Zarinpal.verifyPayment (Responded (Some data)) request
  = inr (VerifyPaymentResponse.mk
           (Js.ofInt <$> ZarinpalVerifyData.ref_id data)
           (ZarinpalVerifyData.card_pan data) (ZarinpalVerifyData.card_hash data)
           (ZarinpalVerifyData.fee_type data) (ZarinpalVerifyData.fee data)).
Proof.
  intros [H|H]; unfold Zarinpal.verifyPayment; rewrite H; reflexivity.
Qed.

(** Zibal accepts the result 100 and nothing else. *)
Lemma Zibal_verifyPayment_rejects (data : ZibalVerifyData.t)
  (request : VerifyPaymentRequest.t) :
  ZibalVerifyData.result data <> Some 100 ->
  Zibal.verifyPayment (Responded (Some data)) request
  = inl (PaymentGatewayError
           (Js.orElse (ZibalVerifyData.message data) "Payment verification failed")
           (ZibalVerifyData.result data)).
Proof.
  intros H. unfold Zibal.verifyPayment.
  rewrite bool_decide_eq_false_2 by exact H. reflexivity.
Qed.

(** C5 (code defect).  Zarinpal's adapter returns the verification result
    for the provider's "already verified" code 101 as it does for 100;
    Zibal's adapter raises a gateway error for the provider's "already
    verified" result 201, as for every result other than 100. *)
Theorem verifyPayment_already_verified :
  Zarinpal.verifyPayment
    (Responded (Some (ZarinpalVerifyData.mk (Some 101) (Some "Verified"%string)
                        (Some "hash"%string) (Some "5022-29**-****-1234"%string)
                        (Some 48211) (Some "Merchant"%string) (Some 0))))
    (VerifyPaymentRequest.mk "A0001" (Some 100000))
  = inr (VerifyPaymentResponse.mk (Some "48211"%string)
           (Some "5022-29**-****-1234"%string) (Some "hash"%string)
           (Some "Merchant"%string) (Some 0))
  /\ Zibal.verifyPayment
       (Responded (Some (ZibalVerifyData.mk (Some 201) (Some "already verified"%string)
                           (Some 5521) (Some "5022-29**-****-1234"%string))))
       (VerifyPaymentRequest.mk "7001" (Some 100000))
     = inl (PaymentGatewayError "already verified" (Some 201)).
Proof. split; reflexivity. Qed.

(** ** Queries *)

Section PrismaFacts.

Context {A : Type}.
Implicit Types (rows pre post : list A) (r : A).

Lemma findFirst_Some (f : A -> bool) rows r :
  Prisma.findFirst f rows = Some r ->
  exists pre post,
    rows = pre ++ r :: post /\ Forall (fun x => f x = false) pre /\ f r = true.
Proof.
  induction rows as [|x rest IH]; simpl; [discriminate|].
  destruct (f x) eqn:Hx.
  - intros [= ->]. exists [], rest. repeat split; [constructor|exact Hx].
  - intros H. destruct (IH H) as (pre & post & -> & Hpre & Hr).
    exists (x :: pre), post. repeat split; [constructor; assumption|exact Hr].
Qed.

Lemma findFirst_split (f : A -> bool) pre post r :
  Forall (fun x => f x = false) pre -> f r = true ->
  Prisma.findFirst f (pre ++ r :: post) = Some r.
Proof.
  intros Hpre Hr. induction Hpre as [|x pre Hx _ IH]; simpl.
  - now rewrite Hr.
  - now rewrite Hx.
Qed.

Lemma findFirst_elem (f : A -> bool) rows r :
  Prisma.findFirst f rows = Some r -> r ∈ rows /\ f r = true.
Proof.
  intros H. destruct (findFirst_Some _ _ _ H) as (pre & post & -> & _ & Hr).
  split; [|exact Hr]. apply elem_of_app. right. apply elem_of_cons. now left.
Qed.

Lemma findFirst_None (f : A -> bool) rows :
  Prisma.findFirst f rows = None <-> Forall (fun x => f x = false) rows.
Proof.
  induction rows as [|x rest IH]; simpl.
  - split; [constructor|reflexivity].
  - destruct (f x) eqn:Hx.
    + split; [discriminate|]. intros H. inversion H; congruence.
    + rewrite IH. split; [now constructor|]. intros H. now inversion H.
Qed.

Lemma findFirst_app_Some (f : A -> bool) rows more r :
  Prisma.findFirst f rows = Some r -> Prisma.findFirst f (rows ++ more) = Some r.
Proof.
  induction rows as [|x rest IH]; simpl; [discriminate|].
  destruct (f x); [easy|exact IH].
Qed.

Lemma findFirst_app_None (f : A -> bool) rows more :
  Prisma.findFirst f rows = None ->
  Prisma.findFirst f (rows ++ more) = Prisma.findFirst f more.
Proof.
  induction rows as [|x rest IH]; simpl; [reflexivity|].
  destruct (f x); [discriminate|exact IH].
Qed.

Lemma update_split (f : A -> bool) (data : A -> A) pre post r :
  Forall (fun x => f x = false) pre -> f r = true ->
  Prisma.update f data (pre ++ r :: post) = Some (data r, pre ++ data r :: post).
Proof.
  intros Hpre Hr. induction Hpre as [|x pre Hx _ IH]; simpl.
  - now rewrite Hr.
  - now rewrite Hx, IH.
Qed.

(** An update rewrites the row [findFirst] designates, and only that one. *)
Lemma update_Some (f : A -> bool) (data : A -> A) rows u rows' :
  Prisma.update f data rows = Some (u, rows') ->
  exists pre post r,
    rows = pre ++ r :: post /\ rows' = pre ++ data r :: post /\ u = data r
    /\ Forall (fun x => f x = false) pre /\ f r = true.
Proof.
  revert rows'. induction rows as [|x rest IH]; simpl; intros rows'; [discriminate|].
  destruct (f x) eqn:Hx.
  - intros [= <- <-]. exists [], rest, x. repeat split; [constructor|exact Hx].
  - destruct (Prisma.update f data rest) as [[u' rest']|] eqn:Hu; [|discriminate].
    intros [= <- <-]. destruct (IH _ eq_refl) as (pre & post & r & -> & -> & -> & Hpre & Hr).
    exists (x :: pre), post, r. repeat split; [constructor; assumption|exact Hr].
Qed.

Lemma update_None (f : A -> bool) (data : A -> A) rows :
  Prisma.update f data rows = None -> Prisma.findFirst f rows = None.
Proof.
  induction rows as [|x rest IH]; simpl; [reflexivity|].
  destruct (f x); [discriminate|].
  destruct (Prisma.update f data rest) as [[u rest']|]; [discriminate|exact IH].
Qed.

(** A query that the rewritten row answers as the old one did, and of
    whose result only a part [h] is read that the rewriting keeps on the
    rows it could return, sees no difference. *)
Lemma findFirst_update (f g : A -> bool) {B} (h : A -> B) (data : A -> A) rows u rows' :
  Prisma.update f data rows = Some (u, rows') ->
  (forall x, f x = true -> g (data x) = g x) ->
  (forall x, f x = true -> g x = true -> h (data x) = h x) ->
  h <$> Prisma.findFirst g rows' = h <$> Prisma.findFirst g rows.
Proof.
  intros Hu Hg Hh.
  destruct (update_Some _ _ _ _ _ Hu) as (pre & post & r & -> & -> & -> & Hpre & Hr).
  clear Hu. induction pre as [|x pre IH]; simpl.
  - rewrite (Hg r Hr). destruct (g r) eqn:Hgr; [|reflexivity].
    simpl. now rewrite (Hh r Hr Hgr).
  - inversion Hpre; subst. destruct (g x); [reflexivity|]. now apply IH.
Qed.

End PrismaFacts.

(** ** Payment service *)

Lemma hasId_true (id : string) (p : Payment.t) :
  PaymentService.hasId id p = true <-> Payment.id p = id.
Proof. unfold PaymentService.hasId. apply String.eqb_eq. Qed.

Lemma hasId_self (p : Payment.t) : PaymentService.hasId (Payment.id p) p = true.
Proof. now apply hasId_true. Qed.

(** Under the primary key, the rows before a given row carry other
    identifiers. *)
Lemma unique_ids_before (pre post : list Payment.t) (p : Payment.t) :
  NoDup (Payment.id <$> (pre ++ p :: post)) ->
  Forall (fun x => PaymentService.hasId (Payment.id p) x = false) pre.
Proof.
  rewrite fmap_app, fmap_cons. intros H.
  apply NoDup_app in H as (_ & H & _).
  apply Forall_forall. intros x Hx.
  destruct (PaymentService.hasId (Payment.id p) x) eqn:E; [|reflexivity].
  apply hasId_true in E. exfalso. apply (H (Payment.id x)).
  - now apply list_elem_of_fmap_2.
  - rewrite E. apply elem_of_cons. now left.
Qed.

(** Updating, by identifier, a row found by authority rewrites that row
    in place. *)
Lemma updatePayment_found (authority : string) (data : Payment.t -> Payment.t)
  (w : World.t) (p : Payment.t) :
  PaymentService.uniqueIds w ->
  Prisma.findFirst (PaymentService.hasAuthority authority) (World.payments w) = Some p ->
  exists pre post,
    World.payments w = pre ++ p :: post
    /\ Forall (fun x => PaymentService.hasAuthority authority x = false) pre
    /\ Forall (fun x => PaymentService.hasId (Payment.id p) x = false) pre
    /\ PaymentService.updatePayment (Payment.id p) data w
       = (inr (data p), World.withPayments (pre ++ data p :: post) w).
Proof.
  intros Hu Hf. destruct (findFirst_Some _ _ _ Hf) as (pre & post & Hrows & Hpre & Hp).
  assert (Hid : Forall (fun x => PaymentService.hasId (Payment.id p) x = false) pre).
  { apply unique_ids_before with (post := post). unfold PaymentService.uniqueIds in Hu.
    now rewrite Hrows in Hu. }
  exists pre, post. repeat split; [exact Hrows|exact Hpre|exact Hid|].
  unfold PaymentService.updatePayment. rewrite Hrows.
  now rewrite (update_split _ data pre post p Hid (hasId_self p)).
Qed.

Lemma isFailureStatus_true (status : option string) :
  PaymentService.isFailureStatus status = true <->
  status = Some "NOK"%string \/ status = Some "cancel"%string.
Proof.
  destruct status as [s|]; simpl.
  - rewrite orb_true_iff, !String.eqb_eq. split; intros [H|H]; try (injection H as H);
      subst; auto.
  - split; [discriminate|]. intros [H|H]; discriminate H.
Qed.

Lemma setStatus_authority (s : PaymentStatus.t) (authority : string) (p : Payment.t) :
  PaymentService.hasAuthority authority (PaymentService.setStatus s p)
  = PaymentService.hasAuthority authority p.
Proof. reflexivity. Qed.

Lemma payments_withPayments (rows : list Payment.t) (w : World.t) :
  World.payments (World.withPayments rows w) = rows.
Proof. reflexivity. Qed.

(** A verification that finds the payment COMPLETED returns the stored
    row and leaves the database and the log of gateway calls as they are. *)
Lemma verifyPayment_completed (io : PaymentService.VerifyIO.t) (authority : string)
  (status : option string) (w : World.t) (p : Payment.t) :
  Prisma.findFirst (PaymentService.hasAuthority authority) (World.payments w) = Some p ->
  PaymentService.isFailureStatus status = false ->
  Payment.status p = PaymentStatus.COMPLETED ->
  PaymentService.verifyPayment io authority status w = (inr p, w).
Proof.
  intros Hf Hs Hc. unfold PaymentService.verifyPayment.
  rewrite Hf, Hs. now rewrite bool_decide_eq_true_2.
Qed.

(** C1.  Re-verifying a COMPLETED payment under a status other than a
    failure sentinel returns the stored row, changes nothing and makes no
    gateway call; and after a verification that succeeded, any further
    verification of the same authority returns the same payment data, the
    adapter having been called at most once over the two. *)
Theorem verifyPayment_idempotent (io : PaymentService.VerifyIO.t) (authority : string)
  (status : option string) (w : World.t) (p : Payment.t) :
  PaymentService.uniqueIds w ->
  Prisma.findFirst (PaymentService.hasAuthority authority) (World.payments w) = Some p ->
  PaymentService.isFailureStatus status = false ->
  (Payment.status p = PaymentStatus.COMPLETED ->
   PaymentService.verifyPayment io authority status w = (inr p, w))
  /\ (forall p1 w1,
        PaymentService.verifyPayment io authority status w = (inr p1, w1) ->
        Payment.status p1 = PaymentStatus.COMPLETED
        /\ (length (filter isVerifyCall (World.gatewayCalls w1))
            <= S (length (filter isVerifyCall (World.gatewayCalls w))))%nat
        /\ forall io2 status2,
             PaymentService.isFailureStatus status2 = false ->
             PaymentService.verifyPayment io2 authority status2 w1 = (inr p1, w1)).
Proof.
  intros Hu Hf Hs. split; [now apply verifyPayment_completed|].
  intros p1 w1. unfold PaymentService.verifyPayment. rewrite Hf, Hs.
  destruct (bool_decide (Payment.status p = PaymentStatus.COMPLETED)) eqn:Hc.
  - apply bool_decide_eq_true_1 in Hc. intros [= <- <-].
    split; [exact Hc|]. split; [lia|].
    intros io2 status2 Hs2. now apply verifyPayment_completed.
  - destruct (Registry.getPaymentGateway (Payment.gateway p)) as [e|[a|]]; [discriminate| |].
    + simpl.
      set (req := VerifyPaymentRequest.mk _ _).
      set (w' := World.logCall (VerifyCall a req) w).
      assert (Hu' : PaymentService.uniqueIds w') by exact Hu.
      assert (Hf' : Prisma.findFirst (PaymentService.hasAuthority authority)
                      (World.payments w') = Some p) by exact Hf.
      destruct (adapterVerifyPayment a (PaymentService.VerifyIO.provider io) req)
        as [e|resp].
      * destruct (PaymentService.updatePayment _ _ w') as [[e'|u] w2]; discriminate.
      * destruct (updatePayment_found authority
                    (PaymentService.setCompleted resp (PaymentService.VerifyIO.paidAtNow io)
                       (PaymentService.VerifyIO.verifiedAtNow io) (Payment.metadata p))
                    w' p Hu' Hf') as (pre & post & Hrows & Hpre & _ & Hupd).
        rewrite Hupd. intros [= <- <-].
        split; [reflexivity|]. split.
        { simpl. rewrite filter_app, length_app. simpl. lia. }
        intros io2 status2 Hs2. apply verifyPayment_completed; [|exact Hs2|reflexivity].
        rewrite payments_withPayments. apply findFirst_split; [exact Hpre|].
        destruct (findFirst_elem _ _ _ Hf) as [_ Ha]. exact Ha.
    + simpl.
      destruct (PaymentService.updatePayment _ _ w) as [[e'|u] w2]; discriminate.
Qed.

(** C2.  Verifying a payment found by authority under the status [NOK] or
    [cancel] moves the payment to FAILED, fails with the gateway error
    "Payment was cancelled or failed", and calls no adapter. *)
Theorem verifyPayment_failure_status (io : PaymentService.VerifyIO.t) (authority : string)
  (status : option string) (w : World.t) (p : Payment.t) :
  PaymentService.uniqueIds w ->
  Prisma.findFirst (PaymentService.hasAuthority authority) (World.payments w) = Some p ->
  status = Some "NOK"%string \/ status = Some "cancel"%string ->
  exists w',
    PaymentService.verifyPayment io authority status w
    = (inl (PaymentGatewayError "Payment was cancelled or failed" None), w')
    /\ PaymentService.getPaymentByAuthority authority w'
       = Some (PaymentService.setStatus PaymentStatus.FAILED p)
    /\ PaymentService.statusOf (Payment.id p) w' = Some PaymentStatus.FAILED
    /\ World.gatewayCalls w' = World.gatewayCalls w.
Proof.
  intros Hu Hf Hs. apply isFailureStatus_true in Hs.
  destruct (updatePayment_found authority (PaymentService.setStatus PaymentStatus.FAILED)
              w p Hu Hf) as (pre & post & Hrows & Hpre & Hid & Hupd).
  eexists. unfold PaymentService.verifyPayment. rewrite Hf, Hs, Hupd.
  split; [reflexivity|].
  destruct (findFirst_elem _ _ _ Hf) as [_ Ha].
  repeat split.
  - unfold PaymentService.getPaymentByAuthority. rewrite payments_withPayments.
    now apply findFirst_split.
  - unfold PaymentService.statusOf. rewrite payments_withPayments.
    rewrite (findFirst_split _ pre post _ Hid); [reflexivity|].
    apply (hasId_self (PaymentService.setStatus PaymentStatus.FAILED p)).
Qed.

Lemma statusOf_found (authority : string) (w : World.t) (p : Payment.t) :
  PaymentService.uniqueIds w ->
  Prisma.findFirst (PaymentService.hasAuthority authority) (World.payments w) = Some p ->
  PaymentService.statusOf (Payment.id p) w = Some (Payment.status p).
Proof.
  intros Hu Hf.
  destruct (updatePayment_found authority (fun x => x) w p Hu Hf)
    as (pre & post & Hrows & _ & Hid & _).
  unfold PaymentService.statusOf. rewrite Hrows.
  now rewrite (findFirst_split _ pre post p Hid (hasId_self p)).
Qed.

(** An update that keeps identifiers, and keeps the status of the row
    asked about, does not change the status read by identifier. *)
Lemma statusOf_updatePayment (id' : string) (data : Payment.t -> Payment.t)
  (w : World.t) (id : string) :
  (forall x, Payment.id (data x) = Payment.id x) ->
  (forall x, Payment.id x = id' -> Payment.id x = id ->
             Payment.status (data x) = Payment.status x) ->
  PaymentService.statusOf id (snd (PaymentService.updatePayment id' data w))
  = PaymentService.statusOf id w.
Proof.
  intros Hid Hst. unfold PaymentService.updatePayment.
  destruct (Prisma.update (PaymentService.hasId id') data (World.payments w))
    as [[u rows']|] eqn:Hu; [|reflexivity].
  unfold PaymentService.statusOf. simpl snd. rewrite payments_withPayments.
  apply (findFirst_update _ _ _ _ _ _ _ Hu).
  - intros x _. unfold PaymentService.hasId. now rewrite Hid.
  - intros x Hx Hx'. apply hasId_true in Hx, Hx'. now apply Hst.
Qed.

Lemma statusOf_logCall (c : GatewayCall) (w : World.t) (id : string) :
  PaymentService.statusOf id (World.logCall c w) = PaymentService.statusOf id w.
Proof. reflexivity. Qed.

Lemma statusOf_createRow (row : Payment.t) (w : World.t) (id : string) (s : PaymentStatus.t) :
  PaymentService.statusOf id w = Some s ->
  PaymentService.statusOf id (snd (PaymentService.createRow row w)) = Some s.
Proof.
  unfold PaymentService.statusOf, PaymentService.createRow. simpl snd.
  rewrite payments_withPayments. unfold Prisma.create.
  destruct (Prisma.findFirst (PaymentService.hasId id) (World.payments w)) as [r|] eqn:Hf;
    [|discriminate].
  now rewrite (findFirst_app_Some _ _ _ _ Hf).
Qed.

Lemma createPayment_keeps_status (env : Config.t) (io : PaymentService.CreateIO.t)
  (subscriptionId : string) (amount : Z) (gateway : string)
  (userEmail userPhone : option string) (w : World.t) (id : string) (s : PaymentStatus.t) :
  PaymentService.statusOf id w = Some s ->
  PaymentService.statusOf id
    (snd (PaymentService.createPayment env io subscriptionId amount gateway
            userEmail userPhone w)) = Some s.
Proof.
  intros H. unfold PaymentService.createPayment.
  destruct (PaymentService.findSubscriptionWithPlan _ _) as [[sub [plan|]]|]; try exact H.
  destruct (Registry.getPaymentGateway gateway) as [e|g]; [exact H|].
  set (req := CreatePaymentRequest.mk _ _ _ _ _ _).
  destruct (PaymentService.callCreate env g _ req w) as [[e|resp] w1] eqn:Hc.
  - destruct g; simpl in Hc; injection Hc as _ <-; exact H.
  - assert (H1 : PaymentService.statusOf id w1 = Some s).
    { destruct g; simpl in Hc; [injection Hc as _ <-; exact H|discriminate]. }
    set (row := Payment.mk _ _ _ _ _ _ _ _ _ _ _ _ _ _ _).
    pose proof (statusOf_createRow row w1 id s H1) as H2.
    destruct (PaymentService.createRow row w1) as [payment w2]. simpl snd in H2.
    pose proof (statusOf_updatePayment (Payment.id payment)
                  PaymentService.setNotificationSent w2 id
                  (fun _ => eq_refl) (fun _ _ _ => eq_refl)) as H3.
    destruct (PaymentService.updatePayment _ _ w2) as [[e|u] w3]; simpl snd in *;
      now rewrite H3.
Qed.

Lemma verifyPayment_keeps_completed (io : PaymentService.VerifyIO.t) (authority : string)
  (status : option string) (w : World.t) (id : string) :
  PaymentService.uniqueIds w ->
  PaymentService.isFailureStatus status = false ->
  PaymentService.statusOf id w = Some PaymentStatus.COMPLETED ->
  PaymentService.statusOf id (snd (PaymentService.verifyPayment io authority status w))
  = Some PaymentStatus.COMPLETED.
Proof.
  intros Hu Hs H. unfold PaymentService.verifyPayment. rewrite Hs.
  destruct (Prisma.findFirst _ (World.payments w)) as [p|] eqn:Hf; [|exact H].
  destruct (bool_decide (Payment.status p = PaymentStatus.COMPLETED)) eqn:Hc; [exact H|].
  apply bool_decide_eq_false_1 in Hc.
  assert (Hne : Payment.id p <> id).
  { intros <-. rewrite (statusOf_found authority w p Hu Hf) in H. congruence. }
  assert (Hupd : forall data w', PaymentService.statusOf id w' = PaymentService.statusOf id w ->
            (forall x, Payment.id (data x) = Payment.id x) ->
            PaymentService.statusOf id
              (snd (PaymentService.updatePayment (Payment.id p) data w'))
            = Some PaymentStatus.COMPLETED).
  { intros data w' Hw' Hd. rewrite statusOf_updatePayment; [now rewrite Hw'|exact Hd|].
    intros x Hx Hx'. congruence. }
  destruct (Registry.getPaymentGateway (Payment.gateway p)) as [e|g]; [exact H|].
  set (req := VerifyPaymentRequest.mk _ _).
  destruct (PaymentService.callVerify g _ req w) as [r w1] eqn:Hcv.
  assert (Hw1 : PaymentService.statusOf id w1 = PaymentService.statusOf id w).
  { destruct g; simpl in Hcv; injection Hcv as _ <-; reflexivity. }
  destruct r as [e|resp].
  - specialize (Hupd (PaymentService.setStatus PaymentStatus.FAILED) w1 Hw1
                  (fun _ => eq_refl)).
    destruct (PaymentService.updatePayment _ _ w1) as [[e'|u] w2]; exact Hupd.
  - apply Hupd; [exact Hw1|reflexivity].
Qed.

Lemma update_ids {A} (f : A -> bool) (data : A -> A) (id : A -> string)
  (rows : list A) (u : A) (rows' : list A) :
  Prisma.update f data rows = Some (u, rows') ->
  (forall x, id (data x) = id x) ->
  id <$> rows' = id <$> rows.
Proof.
  intros Hu Hid.
  destruct (update_Some _ _ _ _ _ Hu) as (pre & post & r & -> & -> & _).
  now rewrite !fmap_app, !fmap_cons, Hid.
Qed.

Lemma updatePayment_ids (id : string) (data : Payment.t -> Payment.t) (w : World.t) :
  (forall x, Payment.id (data x) = Payment.id x) ->
  Payment.id <$> World.payments (snd (PaymentService.updatePayment id data w))
  = Payment.id <$> World.payments w.
Proof.
  intros Hid. unfold PaymentService.updatePayment.
  destruct (Prisma.update (PaymentService.hasId id) data (World.payments w))
    as [[u rows']|] eqn:Hu; [|reflexivity].
  simpl snd. rewrite payments_withPayments. now apply (update_ids _ _ _ _ _ _ Hu).
Qed.

(** Every operation keeps the primary key, a creation provided the
    identifier minted for the new row is fresh. *)
Lemma run_uniqueIds (env : Config.t) (op : PaymentService.Operation) (w : World.t) :
  PaymentService.uniqueIds w ->
  PaymentService.mintsFreshId op w ->
  PaymentService.uniqueIds (PaymentService.run env op w).
Proof.
  intros Hu Hfresh. unfold PaymentService.uniqueIds in *.
  destruct op as [io s a g e ph|io a st|a|s]; simpl in *; try exact Hu.
  - unfold PaymentService.createPayment.
    destruct (PaymentService.findSubscriptionWithPlan _ _) as [[sub [plan|]]|];
      try exact Hu.
    destruct (Registry.getPaymentGateway g) as [err|gw]; [exact Hu|].
    set (req := CreatePaymentRequest.mk _ _ _ _ _ _).
    destruct (PaymentService.callCreate env gw _ req w) as [[err|resp] w1] eqn:Hc.
    + destruct gw; simpl in Hc; injection Hc as _ <-; exact Hu.
    + assert (Hw1 : World.payments w1 = World.payments w).
      { destruct gw; simpl in Hc; [injection Hc as _ <-; reflexivity|discriminate]. }
      set (row := Payment.mk _ _ _ _ _ _ _ _ _ _ _ _ _ _ _).
      unfold PaymentService.createRow.
      pose proof (updatePayment_ids (Payment.id row) PaymentService.setNotificationSent
                    (World.withPayments (Prisma.create row (World.payments w1)) w1)
                    (fun _ => eq_refl)) as Hids.
      destruct (PaymentService.updatePayment _ _ _) as [[err|u] w3]; simpl snd in *;
        rewrite Hids, payments_withPayments, Hw1; unfold Prisma.create;
        rewrite fmap_app; apply NoDup_app; (split; [exact Hu|]);
        (split; [|apply NoDup_singleton]);
        intros x Hx Hx'; apply list_elem_of_singleton in Hx'; subst x;
        apply Hfresh; exact Hx.
  - unfold PaymentService.verifyPayment.
    destruct (Prisma.findFirst _ (World.payments w)) as [p|]; [|exact Hu].
    destruct (PaymentService.isFailureStatus st).
    { pose proof (updatePayment_ids (Payment.id p)
                    (PaymentService.setStatus PaymentStatus.FAILED) w
                    (fun _ => eq_refl)) as Hids.
      destruct (PaymentService.updatePayment _ _ w) as [[err|u] w1]; simpl snd in *;
        now rewrite Hids. }
    destruct (bool_decide _); [exact Hu|].
    destruct (Registry.getPaymentGateway (Payment.gateway p)) as [err|gw]; [exact Hu|].
    set (req := VerifyPaymentRequest.mk _ _).
    destruct (PaymentService.callVerify gw _ req w) as [r w1] eqn:Hcv.
    assert (Hw1 : World.payments w1 = World.payments w).
    { destruct gw; simpl in Hcv; injection Hcv as _ <-; reflexivity. }
    destruct r as [err|resp].
    + pose proof (updatePayment_ids (Payment.id p)
                    (PaymentService.setStatus PaymentStatus.FAILED) w1
                    (fun _ => eq_refl)) as Hids.
      destruct (PaymentService.updatePayment _ _ w1) as [[err'|u] w2]; simpl snd in *;
        now rewrite Hids, Hw1.
    + rewrite updatePayment_ids by reflexivity. now rewrite Hw1.
Qed.

Lemma run_keeps_completed (env : Config.t) (op : PaymentService.Operation)
  (w : World.t) (id : string) :
  PaymentService.uniqueIds w ->
  PaymentService.isFailureVerify op = false ->
  PaymentService.statusOf id w = Some PaymentStatus.COMPLETED ->
  PaymentService.statusOf id (PaymentService.run env op w) = Some PaymentStatus.COMPLETED.
Proof.
  intros Hu Hop H. destruct op as [io s a g e ph|io a st|a|s]; simpl in *.
  - now apply createPayment_keeps_status.
  - now apply verifyPayment_keeps_completed.
  - exact H.
  - exact H.
Qed.

(** C3 (as amended).  COMPLETED is kept along every sequence of operations
    of the payment service none of which is a verification called with a
    failure sentinel; and FAILED is not terminal: verifying a FAILED
    payment under another status calls the adapter, and an accepting
    adapter moves the row to COMPLETED. *)
Theorem completed_is_terminal (env : Config.t) (w : World.t) :
  PaymentService.uniqueIds w ->
  (forall ops id,
     PaymentService.withoutFailureVerify env ops w ->
     PaymentService.statusOf id w = Some PaymentStatus.COMPLETED ->
     PaymentService.statusOf id (PaymentService.runAll env ops w)
     = Some PaymentStatus.COMPLETED)
  /\ (forall io authority status p a response,
        Prisma.findFirst (PaymentService.hasAuthority authority) (World.payments w)
        = Some p ->
        Payment.status p = PaymentStatus.FAILED ->
        PaymentService.isFailureStatus status = false ->
        Registry.getPaymentGateway (Payment.gateway p) = inr (Registry.Instance a) ->
        adapterVerifyPayment a (PaymentService.VerifyIO.provider io)
          (VerifyPaymentRequest.mk (default EmptyString (Payment.authority p))
             (Some (Payment.amount p))) = inr response ->
        PaymentService.statusOf (Payment.id p)
          (PaymentService.run env (PaymentService.VerifyPayment io authority status) w)
        = Some PaymentStatus.COMPLETED).
Proof.
  intros Hu. split.
  - intros ops. revert w Hu. induction ops as [|op rest IH]; intros w Hu id Hops H.
    + exact H.
    + destruct Hops as (Hop & Hfresh & Hrest). simpl.
      apply IH; [now apply run_uniqueIds|exact Hrest|now apply run_keeps_completed].
  - intros io authority status p a response Hf Hst Hs Hg Ha. simpl.
    unfold PaymentService.verifyPayment. rewrite Hf, Hs, Hst, Hg. simpl.
    rewrite Ha.
    set (w' := World.logCall _ w).
    destruct (updatePayment_found authority
                (PaymentService.setCompleted response (PaymentService.VerifyIO.paidAtNow io)
                   (PaymentService.VerifyIO.verifiedAtNow io) (Payment.metadata p))
                w' p Hu Hf) as (pre & post & Hrows & _ & Hid & Hupd).
    rewrite Hupd. unfold PaymentService.statusOf. simpl snd.
    rewrite payments_withPayments.
    rewrite (findFirst_split _ pre post _ Hid); [reflexivity|].
    apply (hasId_self (PaymentService.setCompleted _ _ _ _ p)).
Qed.

Lemma sample_world_unique : PaymentService.uniqueIds Sample.world.
Proof.
  unfold PaymentService.uniqueIds.
  refine (bool_decide_unpack (NoDup (Payment.id <$> World.payments Sample.world)) _).
  vm_compute. exact I.
Defined.

(** A first verification of the pending sample payment through the mock
    gateway, then a second one at a later time and without a status. *)
Lemma verifyPayment_idempotent_witness :
  exists p1 w1,
    PaymentService.verifyPayment Sample.verifyIO "AUTH-1700000000000"
      (Some "OK"%string) Sample.world = (inr p1, w1)
    /\ Payment.status p1 = PaymentStatus.COMPLETED
    /\ length (filter isVerifyCall (World.gatewayCalls w1)) = 1%nat
    /\ PaymentService.verifyPayment Sample.laterVerifyIO "AUTH-1700000000000" None w1
       = (inr p1, w1).
Proof.
  destruct (verifyPayment_idempotent Sample.verifyIO "AUTH-1700000000000"
              (Some "OK"%string) Sample.world Sample.pending
              sample_world_unique eq_refl eq_refl) as [_ H].
  destruct (PaymentService.verifyPayment Sample.verifyIO "AUTH-1700000000000"
              (Some "OK"%string) Sample.world) as [[e|p1] w1] eqn:E;
    [vm_compute in E; discriminate E|].
  destruct (H p1 w1 eq_refl) as (H1 & _ & H3).
  exists p1, w1.
  split; [reflexivity|]. split; [exact H1|].
  split; [|exact (H3 Sample.laterVerifyIO None eq_refl)].
  vm_compute in E. injection E as _ <-. reflexivity.
Defined.

Lemma verifyPayment_failure_status_witness :
  exists w',
    PaymentService.verifyPayment Sample.verifyIO "AUTH-1700000000000"
      (Some "NOK"%string) Sample.world
    = (inl (PaymentGatewayError "Payment was cancelled or failed" None), w')
    /\ PaymentService.statusOf "pay_1" w' = Some PaymentStatus.FAILED
    /\ World.gatewayCalls w' = [].
Proof.
  destruct (verifyPayment_failure_status Sample.verifyIO "AUTH-1700000000000"
              (Some "NOK"%string) Sample.world Sample.pending
              sample_world_unique eq_refl (or_introl eq_refl))
    as (w' & H1 & _ & H3 & H4).
  exists w'. split; [exact H1|]. split; [exact H3|exact H4].
Defined.

(** C3 (counterexample).  The sample payment [pay_2] is FAILED; verifying
    it again under the status [OK] calls the mock gateway and leaves the
    same row COMPLETED. *)
Lemma failed_is_not_terminal :
  PaymentService.statusOf "pay_2" Sample.world = Some PaymentStatus.FAILED
  /\ PaymentService.statusOf "pay_2"
       (PaymentService.run Sample.env
          (PaymentService.VerifyPayment Sample.verifyIO "AUTH-1700000000500"
             (Some "OK"%string))
          Sample.world)
     = Some PaymentStatus.COMPLETED.
Proof. split; vm_compute; reflexivity. Qed.

(** The failure sentinel is examined before the COMPLETED guard: a
    verification under [NOK] marks a COMPLETED payment FAILED. *)
Example verifyPayment_NOK_on_completed :
  PaymentService.statusOf "pay_3" Sample.world = Some PaymentStatus.COMPLETED
  /\ PaymentService.statusOf "pay_3"
       (PaymentService.run Sample.env
          (PaymentService.VerifyPayment Sample.verifyIO "AUTH-1700000000900"
             (Some "NOK"%string))
          Sample.world)
     = Some PaymentStatus.FAILED.
Proof. split; vm_compute; reflexivity. Qed.

Lemma completed_is_terminal_witness :
  PaymentService.statusOf "pay_3"
    (PaymentService.runAll Sample.env
       [PaymentService.VerifyPayment Sample.verifyIO "AUTH-1700000000900"
          (Some "OK"%string);
        PaymentService.CreatePayment
          (PaymentService.CreateIO.mk Sample.provider "pay_4")
          "sub_1" 100000 "mock" None None;
        PaymentService.VerifyPayment Sample.laterVerifyIO "AUTH-1700000000000" None;
        PaymentService.GetPaymentByAuthority "AUTH-1700000000900"]
       Sample.world)
  = Some PaymentStatus.COMPLETED
  /\ PaymentService.statusOf "pay_2"
       (PaymentService.run Sample.env
          (PaymentService.VerifyPayment Sample.verifyIO "AUTH-1700000000500" None)
          Sample.world)
     = Some PaymentStatus.COMPLETED.
Proof.
  destruct (completed_is_terminal Sample.env Sample.world sample_world_unique)
    as [HA HB].
  split.
  - apply HA; [|reflexivity].
    simpl PaymentService.withoutFailureVerify.
    repeat match goal with
           | |- _ /\ _ => split
           | |- True => exact I
           | |- _ = _ => reflexivity
           | |- _ ∉ _ => apply (bool_decide_unpack _); vm_compute; exact I
           end.
  - exact (HB Sample.verifyIO "AUTH-1700000000500"%string None Sample.failed
             MockGateway _ eq_refl eq_refl eq_refl eq_refl eq_refl).
Defined.

(** ** Subscription service *)

Lemma MonthFromTime_range (t : Z) : 0 <= JsDate.MonthFromTime t <= 11.
Proof.
  unfold JsDate.MonthFromTime.
  repeat match goal with |- context [if ?b then _ else _] => destruct b end; lia.
Qed.

(** Setting the day of the month to the current one plus [d] moves the
    local time by [d] days of 86 400 000 ms: the same local time of day,
    [d] calendar days later. *)
Lemma setDate_getDate (tza : Z -> bool -> Z) (t d : Z) :
  JsDate.setDate tza t (JsDate.getDate tza t + d)
  = JsDate.TimeClip (JsDate.UTC tza (JsDate.LocalTime tza t + d * JsDate.msPerDay)).
Proof.
  unfold JsDate.setDate, JsDate.getDate. do 2 f_equal.
  set (l := JsDate.LocalTime tza t).
  pose proof (MonthFromTime_range l) as Hm.
  unfold JsDate.MakeDay.
  rewrite (Z.div_small (JsDate.MonthFromTime l) 12) by lia.
  rewrite (Z.mod_small (JsDate.MonthFromTime l) 12) by lia.
  rewrite Z.add_0_r.
  unfold JsDate.DateFromTime, JsDate.InLeapYear, JsDate.DayWithinYear,
    JsDate.MakeDate, JsDate.TimeWithinDay, JsDate.Day.
  pose proof (Z.div_mod l JsDate.msPerDay ltac:(discriminate)) as Hl.
  lia.
Qed.


Lemma findSubscriptionWithPlan_Some (id : string) (d : Db.t) (s : Subscription.t)
  (plan : option Plan.t) :
  PaymentService.findSubscriptionWithPlan id d = Some (s, plan) ->
  Prisma.findFirst (SubscriptionService.hasId id) (Db.subscriptions d) = Some s.
Proof.
  unfold PaymentService.findSubscriptionWithPlan.
  change (fun s0 : Subscription.t => String.eqb (Subscription.id s0) id)
    with (SubscriptionService.hasId id).
  destruct (Prisma.findFirst (SubscriptionService.hasId id) (Db.subscriptions d));
    [|discriminate].
  now intros [= -> _].
Qed.

(** Updating a subscription found by identifier rewrites that row. *)
Lemma updateSubscription_found (id : string)
  (data : Subscription.t -> Subscription.t) (d : Db.t) (s : Subscription.t) :
  Prisma.findFirst (SubscriptionService.hasId id) (Db.subscriptions d) = Some s ->
  Subscription.id (data s) = Subscription.id s ->
  exists rows',
    SubscriptionService.updateSubscription id data d
    = (inr (data s), Db.withSubscriptions rows' d)
    /\ Prisma.update (SubscriptionService.hasId id) data (Db.subscriptions d)
       = Some (data s, rows')
    /\ Prisma.findFirst (SubscriptionService.hasId id) rows' = Some (data s).
Proof.
  intros Hf Hid. destruct (findFirst_Some _ _ _ Hf) as (pre & post & Hrows & Hpre & Hs).
  exists (pre ++ data s :: post). unfold SubscriptionService.updateSubscription.
  rewrite Hrows, (update_split _ data pre post s Hpre Hs).
  split; [reflexivity|]. split; [reflexivity|].
  apply findFirst_split; [exact Hpre|].
  unfold SubscriptionService.hasId in *. now rewrite Hid.
Qed.


(** C9.  Cancelling an existing subscription stores the status CANCELLED
    and [autoRenew] false, keeps every other column of the row, [endDate]
    among them, and leaves the other rows and the other tables alone. *)
Theorem cancelSubscription_frame (id : string) (d : Db.t) (s : Subscription.t) :
  Prisma.findFirst (SubscriptionService.hasId id) (Db.subscriptions d) = Some s ->
  exists s' d',
    SubscriptionService.cancelSubscription id d = (inr s', d')
    /\ Prisma.findFirst (SubscriptionService.hasId id) (Db.subscriptions d') = Some s'
    /\ Subscription.status s' = SubscriptionStatus.CANCELLED
    /\ Subscription.autoRenew s' = false
    /\ Subscription.endDate s' = Subscription.endDate s
    /\ Subscription.startDate s' = Subscription.startDate s
    /\ Subscription.id s' = Subscription.id s
    /\ Subscription.userId s' = Subscription.userId s
    /\ Subscription.planId s' = Subscription.planId s
    /\ (forall id', id' <> id ->
          Prisma.findFirst (SubscriptionService.hasId id') (Db.subscriptions d')
          = Prisma.findFirst (SubscriptionService.hasId id') (Db.subscriptions d))
    /\ Db.withSubscriptions (Db.subscriptions d) d' = d.
Proof.
  intros Hf. unfold SubscriptionService.cancelSubscription. rewrite Hf.
  destruct (updateSubscription_found id SubscriptionService.setCancelled d s Hf eq_refl)
    as (rows' & Hu & Hupd & Hf').
  exists (SubscriptionService.setCancelled s), (Db.withSubscriptions rows' d).
  split; [exact Hu|]. split; [exact Hf'|].
  do 7 (split; [reflexivity|]).
  split; [|now destruct d].
  intros id' Hne.
  pose proof (findFirst_update _ (SubscriptionService.hasId id') (fun x => x) _ _ _ _ Hupd)
    as H.
  rewrite !option_fmap_id in H. apply H.
  - intros x _. reflexivity.
  - intros x Hx Hx'. unfold SubscriptionService.hasId in Hx, Hx'.
    apply String.eqb_eq in Hx, Hx'. congruence.
Qed.



Lemma cancelSubscription_frame_witness :
  exists s' d',
    SubscriptionService.cancelSubscription "sub_1" Sample.database = (inr s', d')
    /\ Subscription.status s' = SubscriptionStatus.CANCELLED
    /\ Subscription.autoRenew s' = false
    /\ Subscription.endDate s' = Some 1692592000000.
Proof.
  destruct (cancelSubscription_frame "sub_1" Sample.database Sample.subscription eq_refl)
    as (s' & d' & H1 & _ & H3 & H4 & H5 & _).
  exists s', d'. split; [exact H1|]. split; [exact H3|]. split; [exact H4|exact H5].
Defined.

(** ** Authentication service *)

Lemma trimEnd_cons (c : ascii) (r : string) :
  Js.isWhiteSpace c = false -> Js.trimEnd (String c r) = String c (Js.trimEnd r).
Proof. intros H. simpl. rewrite H. now destruct (Js.trimEnd r). Qed.

(** The two spellings of a number have one canonical form. *)
Lemma normalizePhone_prefix (rest : string) :
  AuthService.normalizePhone ("+98" +:+ rest) = "0" +:+ Js.trimEnd rest
  /\ AuthService.normalizePhone ("0" +:+ rest) = "0" +:+ Js.trimEnd rest.
Proof.
  change ("+98" +:+ rest) with (String "+" (String "9" (String "8" rest))).
  change ("0" +:+ rest) with (String "0" rest).
  unfold AuthService.normalizePhone, Js.trim. simpl Js.trimStart.
  split.
  - rewrite !trimEnd_cons by reflexivity. simpl. reflexivity.
  - rewrite trimEnd_cons by reflexivity. simpl. reflexivity.
Qed.

Example normalizePhone_samples :
  AuthService.normalizePhone "  +989120000000 " = "09120000000"%string
  /\ AuthService.normalizePhone "09120000000" = "09120000000"%string
  /\ AuthService.normalizePhone "9120000000" = "9120000000"%string.
Proof. repeat split. Qed.


(** With any other length, [crypto.randomInt] throws. *)
Lemma randCode_out_of_range (env : Config.t) (draw : Z -> Z -> Z) :
  ~ 1 <= Config.OTP_LENGTH env <= 14 ->
  exists code, AuthService.randCode env draw = inl (NodeError code).
Proof.
  intros Hlen. unfold AuthService.randCode, Crypto.pow10.
  set (len := Config.OTP_LENGTH env) in *.
  destruct (0 <=? len - 1) eqn:Hmin.
  - apply Z.leb_le in Hmin.
    rewrite (proj2 (Z.leb_le 0 len)) by lia.
    cbn [fmap option_fmap option_map].
    assert (Hlo : 10 ^ 14 <= 10 ^ (len - 1)) by (apply Z.pow_le_mono_r; lia).
    assert (Hhi : 10 ^ len = 10 * 10 ^ (len - 1)).
    { replace len with (Z.succ (len - 1)) at 1 by lia. apply Z.pow_succ_r. lia. }
    assert (H14 : 10 ^ 14 = 100000000000000) by reflexivity.
    unfold Crypto.randomInt, Crypto.RAND_MAX.
    assert (H48 : 2 ^ 48 - 1 = 281474976710655) by reflexivity.
    rewrite H48.
    destruct (negb (Crypto.isSafeInteger (Some (10 ^ (len - 1))))); [now eexists|].
    destruct (negb (Crypto.isSafeInteger (Some (10 ^ len - 1 + 1)))); [now eexists|].
    destruct (10 ^ len - 1 + 1 <=? 10 ^ (len - 1)); [now eexists|].
    rewrite (proj2 (Z.leb_gt (10 ^ len - 1 + 1 - 10 ^ (len - 1)) _)) by lia.
    now eexists.
  - destruct (if 0 <=? len then Some (10 ^ len) else None); now eexists.
Qed.

Section RateLimiter.

Variable env : Config.t.
Variable sha256Hex : string -> string.

Implicit Types (rate : gmap string RateEntry.t) (st : AuthService.State).

(** When the configured length is out of range, a request that the rate
    limiter lets through fails after the counter has been written, and no
    row is created. *)
Lemma requestOtp_length_out_of_range (io : AuthService.RequestIO.t) (raw : string) st
  rate' :
  ~ 1 <= Config.OTP_LENGTH env <= 14 ->
  AuthService.checkRateLimit env (AuthService.RequestIO.rateNow io)
    (AuthService.rateKey (AuthService.normalizePhone raw)) (AuthService.rate st)
  = inr rate' ->
  exists code,
    AuthService.requestOtp env sha256Hex io raw st
    = (inl (NodeError code), AuthService.mkState rate' (AuthService.db st)).
Proof.
  intros Hlen Hrate. unfold AuthService.requestOtp. rewrite Hrate.
  destruct (randCode_out_of_range env (AuthService.RequestIO.randomInt io) Hlen)
    as (code & ->).
  now exists code.
Qed.

Hypothesis Hlen : 1 <= Config.OTP_LENGTH env <= 14.




(** A call within the window, once the maximum is reached, is refused. *)
Lemma checkRateLimit_refuses (now : Z) (key : string) rate (count start : Z) :
  rate !! key = Some (RateEntry.mk count start) ->
  now - start <= AuthService.windowMs env ->
  AuthService.maxReq env <= count ->
  AuthService.checkRateLimit env now key rate = inl AuthService.tooManyRequests.
Proof.
  intros H Hw Hc. unfold AuthService.checkRateLimit. rewrite H. simpl.
  rewrite (proj2 (Z.ltb_ge _ _) Hw).
  apply Z.leb_le in Hc. now rewrite Hc.
Qed.


End RateLimiter.




Section FindLatest.

Context {A : Type}.
Implicit Types (rows : list A) (r : A).

Lemma findLatest_elem (f : A -> bool) (key : A -> Z) rows r :
  Prisma.findLatest f key rows = Some r -> r ∈ rows /\ f r = true.
Proof.
  revert r. induction rows as [|x rest IH]; simpl; intros r; [discriminate|].
  destruct (f x) eqn:Hx.
  - destruct (Prisma.findLatest f key rest) as [b|].
    + destruct (key x <? key b); intros [= <-].
      * destruct (IH b eq_refl). split; [now apply elem_of_cons; right|assumption].
      * split; [apply elem_of_cons; now left|exact Hx].
    + intros [= <-]. split; [apply elem_of_cons; now left|exact Hx].
  - intros H. destruct (IH r H). split; [now apply elem_of_cons; right|assumption].
Qed.

(** A row appended last, that satisfies the filter and is newer than every
    stored row that does, is the one the query returns. *)
Lemma findLatest_app_newest (f : A -> bool) (key : A -> Z) rows r :
  Forall (fun x => f x = true -> key x < key r) rows ->
  f r = true ->
  Prisma.findLatest f key (rows ++ [r]) = Some r.
Proof.
  intros Hrows Hr. induction Hrows as [|x rest Hx _ IH]; simpl.
  - now rewrite Hr.
  - rewrite IH. destruct (f x); [|reflexivity].
    now rewrite (proj2 (Z.ltb_lt _ _) (Hx eq_refl)).
Qed.

(** A row appended last that does not satisfy the filter plays no part. *)
Lemma findLatest_app_other (f : A -> bool) (key : A -> Z) rows r :
  f r = false ->
  Prisma.findLatest f key (rows ++ [r]) = Prisma.findLatest f key rows.
Proof.
  intros Hr. induction rows as [|x rest IH]; simpl.
  - now rewrite Hr.
  - now rewrite IH.
Qed.

End FindLatest.

Lemma isLive_phone (phone : string) (now : Z) (r : OtpCode.t) :
  AuthService.isLive phone now r = true -> OtpCode.phone r = phone.
Proof.
  unfold AuthService.isLive. rewrite !andb_true_iff.
  intros [[H _] _]. now apply String.eqb_eq.
Qed.

Lemma findOrCreateUser_phone (io : AuthService.VerifyIO.t) (phone : string) (d : Db.t) :
  User.phone (fst (AuthService.findOrCreateUser io phone d)) = Some phone
  /\ Db.otpCodes (snd (AuthService.findOrCreateUser io phone d)) = Db.otpCodes d
  /\ Db.apiKeys (snd (AuthService.findOrCreateUser io phone d)) = Db.apiKeys d.
Proof.
  unfold AuthService.findOrCreateUser.
  destruct (Prisma.findFirst _ (Db.users d)) as [u|] eqn:Hu; simpl.
  - destruct (findFirst_elem _ _ _ Hu) as [_ H].
    apply bool_decide_eq_true_1 in H. now split.
  - now split.
Qed.

(** A request that succeeds has drawn a code. *)
Lemma requestOtp_drew_code (env : Config.t) (sha256Hex : string -> string)
  (request : AuthService.RequestIO.t) (raw : string) (st : AuthService.State) :
  fst (AuthService.requestOtp env sha256Hex request raw st) = inr tt ->
  exists code,
    AuthService.randCode env (AuthService.RequestIO.randomInt request) = inr code.
Proof.
  unfold AuthService.requestOtp.
  destruct (AuthService.checkRateLimit _ _ _ _) as [e|rate']; [discriminate|].
  destruct (AuthService.randCode _ _) as [e|code]; [discriminate|].
  intros _. now exists code.
Qed.

(** A row requested under one spelling of a number is found and consumed
    by a verification under any spelling with the same canonical form. *)
Lemma verifyOtp_requested_code (env : Config.t) (sha256Hex : string -> string)
  (request : AuthService.RequestIO.t) (login : AuthService.VerifyIO.t)
  (raw raw' code : string) (st : AuthService.State) :
  AuthService.normalizePhone raw' = AuthService.normalizePhone raw ->
  Forall (fun r => OtpCode.id r <> AuthService.RequestIO.newId request)
    (Db.otpCodes (AuthService.db st)) ->
  Forall (fun r => OtpCode.phone r = AuthService.normalizePhone raw ->
                   OtpCode.createdAt r < AuthService.RequestIO.createdNow request)
    (Db.otpCodes (AuthService.db st)) ->
  AuthService.randCode env (AuthService.RequestIO.randomInt request) = inr code ->
  fst (AuthService.requestOtp env sha256Hex request raw st) = inr tt ->
  AuthService.VerifyIO.queryNow login
  < AuthService.RequestIO.expiryNow request + Config.OTP_EXP_MIN env * 60000 ->
  exists user st2,
    AuthService.verifyOtp sha256Hex login raw' code
      (snd (AuthService.requestOtp env sha256Hex request raw st))
    = (inr (user, AuthService.VerifyIO.randomBytesHex login), st2)
    /\ User.phone user = Some (AuthService.normalizePhone raw)
    /\ Db.otpCodes (AuthService.db st2)
       = Db.otpCodes (AuthService.db st)
         ++ [OtpCode.mk (AuthService.RequestIO.newId request)
               (AuthService.normalizePhone raw) (sha256Hex code)
               (AuthService.RequestIO.expiryNow request + Config.OTP_EXP_MIN env * 60000)
               1 (Some (AuthService.VerifyIO.usedNow login))
               (AuthService.RequestIO.createdNow request)]
    /\ Db.apiKeys (AuthService.db st2)
       = Db.apiKeys (AuthService.db st)
         ++ [ApiKey.mk (AuthService.VerifyIO.newApiKeyId login) (Some (User.id user))
               (sha256Hex (AuthService.VerifyIO.randomBytesHex login))
               (Some "login"%string) true None].
Proof.
  intros Hsame Hfresh Hnewest Hcode Hreq Hexp.
  set (phone := AuthService.normalizePhone raw) in *.
  set (expiresAt := AuthService.RequestIO.expiryNow request
                    + Config.OTP_EXP_MIN env * 60000) in *.
  set (old := Db.otpCodes (AuthService.db st)) in *.
  set (row := OtpCode.mk (AuthService.RequestIO.newId request) phone (sha256Hex code)
                expiresAt 0 None (AuthService.RequestIO.createdNow request)).
  set (used := OtpCode.mk (AuthService.RequestIO.newId request) phone (sha256Hex code)
                 expiresAt 1 (Some (AuthService.VerifyIO.usedNow login))
                 (AuthService.RequestIO.createdNow request)).
  (* the state after the request *)
  assert (Hst1 : exists rate',
             snd (AuthService.requestOtp env sha256Hex request raw st)
             = AuthService.mkState rate'
                 (Db.withOtpCodes (old ++ [row]) (AuthService.db st))).
  { revert Hreq. unfold AuthService.requestOtp. fold phone.
    destruct (AuthService.checkRateLimit _ _ _ _) as [e|rate']; [discriminate|].
    rewrite Hcode. intros _. exists rate'. reflexivity. }
  destruct Hst1 as (rate' & ->).
  (* the new row is the one the query returns *)
  assert (Hlive : AuthService.isLive phone (AuthService.VerifyIO.queryNow login) row = true).
  { unfold AuthService.isLive. simpl. rewrite String.eqb_refl.
    now rewrite (proj2 (Z.ltb_lt _ _) Hexp). }
  assert (Hlatest : Prisma.findLatest
                      (AuthService.isLive phone (AuthService.VerifyIO.queryNow login))
                      OtpCode.createdAt (old ++ [row]) = Some row).
  { apply findLatest_app_newest; [|exact Hlive].
    eapply Forall_impl; [exact Hnewest|]. intros r Hr Hl. apply Hr.
    now apply isLive_phone in Hl. }
  (* the update by identifier rewrites it *)
  assert (Hupdate : forall data,
             Prisma.update
               (fun r => String.eqb (OtpCode.id r) (AuthService.RequestIO.newId request))
               data (old ++ [row]) = Some (data row, old ++ [data row])).
  { intros data. apply update_split; [|apply String.eqb_refl].
    eapply Forall_impl; [exact Hfresh|]. intros r Hr. now apply String.eqb_neq. }
  pose proof (findOrCreateUser_phone login phone
                (Db.withOtpCodes (old ++ [used]) (AuthService.db st))) as Huser.
  destruct (AuthService.findOrCreateUser login phone
              (Db.withOtpCodes (old ++ [used]) (AuthService.db st)))
    as [user d2] eqn:Hfc.
  simpl fst in Huser. simpl snd in Huser. destruct Huser as (Hphone & Hotp2 & Hkeys2).
  exists user. eexists. split.
  { unfold AuthService.verifyOtp. rewrite Hsame. simpl AuthService.db. simpl Db.otpCodes.
    rewrite Hlatest. unfold AuthService.hashCode, AuthService.updateOtpCode.
    simpl OtpCode.codeHash. rewrite String.eqb_refl.
    simpl Db.otpCodes. simpl OtpCode.id. rewrite Hupdate.
    simpl negb. cbv iota. simpl OtpCode.attempts. change (0 + 1) with 1.
    match goal with
    | |- context [AuthService.findOrCreateUser login phone ?d] =>
        change d with (Db.withOtpCodes (old ++ [used]) (AuthService.db st))
    end.
    rewrite Hfc. reflexivity. }
  split; [exact Hphone|].
  split; [simpl; exact Hotp2|].
  simpl; unfold Prisma.create; now rewrite Hkeys2.
Qed.

(** C7 (as amended).  After a request that the rate limiter lets through,
    whose row receives a fresh identifier and the latest creation time of
    the phone's rows, verifying the generated code before its expiry
    succeeds: the row is marked used after one attempt, and the call
    returns the phone's user with the API key just drawn, stored under its
    digest.  A second verification with the same code fails, unless another
    unused, unexpired row of that phone carries the same code. *)
Theorem otp_round_trip (env : Config.t) (sha256Hex : string -> string)
  (request : AuthService.RequestIO.t) (login again : AuthService.VerifyIO.t)
  (raw : string) (st : AuthService.State) :
  Forall (fun r => OtpCode.id r <> AuthService.RequestIO.newId request)
    (Db.otpCodes (AuthService.db st)) ->
  Forall (fun r => OtpCode.phone r = AuthService.normalizePhone raw ->
                   OtpCode.createdAt r < AuthService.RequestIO.createdNow request)
    (Db.otpCodes (AuthService.db st)) ->
  fst (AuthService.requestOtp env sha256Hex request raw st) = inr tt ->
  AuthService.VerifyIO.queryNow login
  < AuthService.RequestIO.expiryNow request + Config.OTP_EXP_MIN env * 60000 ->
  exists code user st2,
    AuthService.randCode env (AuthService.RequestIO.randomInt request) = inr code
    /\ AuthService.verifyOtp sha256Hex login raw code
         (snd (AuthService.requestOtp env sha256Hex request raw st))
       = (inr (user, AuthService.VerifyIO.randomBytesHex login), st2)
    /\ User.phone user = Some (AuthService.normalizePhone raw)
    /\ Db.otpCodes (AuthService.db st2)
       = Db.otpCodes (AuthService.db st)
         ++ [OtpCode.mk (AuthService.RequestIO.newId request)
               (AuthService.normalizePhone raw) (sha256Hex code)
               (AuthService.RequestIO.expiryNow request + Config.OTP_EXP_MIN env * 60000)
               1 (Some (AuthService.VerifyIO.usedNow login))
               (AuthService.RequestIO.createdNow request)]
    /\ Db.apiKeys (AuthService.db st2)
       = Db.apiKeys (AuthService.db st)
         ++ [ApiKey.mk (AuthService.VerifyIO.newApiKeyId login) (Some (User.id user))
               (sha256Hex (AuthService.VerifyIO.randomBytesHex login))
               (Some "login"%string) true None]
    /\ (Forall (fun r =>
                  AuthService.isLive (AuthService.normalizePhone raw)
                    (AuthService.VerifyIO.queryNow again) r = true ->
                  OtpCode.codeHash r <> sha256Hex code)
          (Db.otpCodes (AuthService.db st)) ->
        exists e st3,
          AuthService.verifyOtp sha256Hex again raw code st2 = (inl e, st3)
          /\ (e = JsError "OTP not found or expired" \/ e = JsError "Invalid OTP code")).
Proof.
  intros Hfresh Hnewest Hreq Hexp.
  destruct (requestOtp_drew_code env sha256Hex request raw st Hreq) as (code & Hcode).
  destruct (verifyOtp_requested_code env sha256Hex request login raw raw code st
              eq_refl Hfresh Hnewest Hcode Hreq Hexp)
    as (user & st2 & Hverify & Hphone & Hotp2 & Hkeys2).
  set (phone := AuthService.normalizePhone raw) in *.
  set (old := Db.otpCodes (AuthService.db st)) in *.
  set (used := OtpCode.mk _ _ _ _ _ _ _) in Hotp2.
  exists code, user, st2. split; [exact Hcode|].
  split; [exact Hverify|]. split; [exact Hphone|].
  split; [exact Hotp2|]. split; [exact Hkeys2|].
  (* the second verification *)
  intros Hother. unfold AuthService.verifyOtp. fold phone.
  rewrite Hotp2.
  rewrite findLatest_app_other
    by (unfold AuthService.isLive; simpl; now rewrite andb_false_r).
  destruct (Prisma.findLatest _ OtpCode.createdAt old) as [record|] eqn:Hl.
  - destruct (findLatest_elem _ _ _ _ Hl) as [Hin Hrl].
    assert (Hne : String.eqb (OtpCode.codeHash record) (sha256Hex code) = false).
    { apply String.eqb_neq. exact (proj1 (Forall_forall _ _) Hother record Hin Hrl). }
    unfold AuthService.hashCode. rewrite Hne.
    unfold AuthService.updateOtpCode.
    rewrite Hotp2.
    destruct (Prisma.update _ _ (old ++ [used])) as [[u rows']|] eqn:Hu.
    + simpl. eexists _, _. split; [reflexivity|]. now right.
    + exfalso. apply update_None in Hu. apply findFirst_None in Hu.
      assert (Hin' : record ∈ old ++ [used]) by (apply elem_of_app; now left).
      pose proof (proj1 (Forall_forall _ _) Hu record Hin') as Hrec.
      simpl in Hrec. rewrite String.eqb_refl in Hrec. discriminate Hrec.
  - eexists _, _. split; [reflexivity|]. now left.
Qed.

(** A request from the start-up state, a login with the code drawn, one
    minute later, and a second login with the same code. *)
Lemma otp_round_trip_witness :
  exists user st2,
    AuthService.verifyOtp Sample.digest Sample.firstLogin "+989120000000" "123456"
      (snd (AuthService.requestOtp Sample.env Sample.digest
              (Sample.request "otp_1" 1700000000000) "+989120000000" Sample.started))
    = (inr (user, "6b1f0c2e"%string), st2)
    /\ User.phone user = Some "09120000000"%string
    /\ exists e st3,
         AuthService.verifyOtp Sample.digest Sample.secondLogin "+989120000000" "123456" st2
         = (inl e, st3).
Proof.
  destruct (otp_round_trip Sample.env Sample.digest
              (Sample.request "otp_1" 1700000000000) Sample.firstLogin Sample.secondLogin
              "+989120000000" Sample.started)
    as (code & user & st2 & Hcode & H1 & H2 & _ & _ & H5).
  - constructor.
  - constructor.
  - vm_compute. reflexivity.
  - vm_compute. reflexivity.
  - vm_compute in Hcode. injection Hcode as <-.
    exists user, st2. split; [exact H1|]. split; [exact H2|].
    destruct (H5 ltac:(constructor)) as (e & st3 & H6 & _).
    exists e, st3. exact H6.
Defined.

(** C7 (counterexample).  Two requests for one phone number draw the same
    code 123456.  A login with that code consumes the later row; a second
    login with the same code finds the earlier row, still unused and
    unexpired, and succeeds as well. *)
Lemma verifyOtp_same_code_twice :
  AuthService.randCode Sample.env
    (AuthService.RequestIO.randomInt (Sample.request "otp_2" 1700000010000))
  = inr "123456"%string
  /\ fst (AuthService.verifyOtp Sample.digest Sample.firstLogin "09120000000" "123456"
            Sample.requestedTwice)
     = inr (User.mk "user_1" (Some "09120000000"%string) None "USER", "6b1f0c2e"%string)
  /\ fst (AuthService.verifyOtp Sample.digest Sample.secondLogin "09120000000" "123456"
            (snd (AuthService.verifyOtp Sample.digest Sample.firstLogin "09120000000"
                    "123456" Sample.requestedTwice)))
     = inr (User.mk "user_1" (Some "09120000000"%string) None "USER", "9d4a7e55"%string).
Proof. split; [|split]; vm_compute; reflexivity. Qed.

(** ** The two spellings of a phone number *)

Lemma trimStart_blank (pre s : string) :
  isBlank pre = true -> Js.trimStart (pre +:+ s) = Js.trimStart s.
Proof.
  induction pre as [|c r IH]; [reflexivity|].
  simpl. intros H. apply andb_true_iff in H as [Hc Hr].
  rewrite Hc. now apply IH.
Qed.

Lemma trimEnd_of_blank (s : string) : isBlank s = true -> Js.trimEnd s = EmptyString.
Proof.
  induction s as [|c r IH]; [reflexivity|].
  simpl. intros H. apply andb_true_iff in H as [Hc Hr].
  now rewrite (IH Hr), Hc.
Qed.

Lemma trimEnd_blank (s post : string) :
  isBlank post = true -> Js.trimEnd (s +:+ post) = Js.trimEnd s.
Proof.
  intros H. induction s as [|c r IH].
  - simpl. now apply trimEnd_of_blank.
  - change (String c r +:+ post) with (String c (r +:+ post)).
    cbn [Js.trimEnd]. now rewrite IH.
Qed.

(** Both spellings, with white space around, have the canonical form
    [0] followed by the national part. *)
Lemma normalizePhone_spellings (pre rest post : string) :
  isBlank pre = true -> isBlank post = true ->
  AuthService.normalizePhone (withPlus98 pre rest post) = "0" +:+ Js.trimEnd rest
  /\ AuthService.normalizePhone (withZero pre rest post) = "0" +:+ Js.trimEnd rest.
Proof.
  intros Hpre Hpost.
  assert (Hn : forall s, AuthService.normalizePhone (pre +:+ s) = AuthService.normalizePhone s).
  { intros s. unfold AuthService.normalizePhone, Js.trim.
    now rewrite (trimStart_blank pre s Hpre). }
  unfold withPlus98, withZero. rewrite !Hn.
  destruct (normalizePhone_prefix (rest +:+ post)) as [H1 H2].
  rewrite H1, H2, (trimEnd_blank rest post Hpost). now split.
Qed.

(** What a call that the rate limiter lets through stores under the key:
    a new window with a count of one, or the open window with one more. *)
Lemma checkRateLimit_inr (env : Config.t) (now : Z) (key : string)
  (rate rate' : gmap string RateEntry.t) :
  AuthService.checkRateLimit env now key rate = inr rate' ->
  exists entry,
    rate' = <[key := entry]> rate
    /\ (entry = RateEntry.mk 1 now
        \/ exists old, rate !! key = Some old
                       /\ entry = RateEntry.mk (RateEntry.count old + 1)
                                    (RateEntry.windowStart old)).
Proof.
  unfold AuthService.checkRateLimit.
  destruct (rate !! key) as [old|] eqn:Hk.
  - destruct (_ <? _).
    + intros [= <-]. eexists. split; [reflexivity|]. now left.
    + destruct (_ <=? _); [discriminate|].
      intros [= <-]. eexists. split; [reflexivity|]. right. now exists old.
  - intros [= <-]. eexists. split; [reflexivity|]. now left.
Qed.

(** A request under one spelling is counted where a request under any
    spelling with the same canonical form is checked. *)
Lemma requestOtp_counts_for (env : Config.t) (sha256Hex : string -> string)
  (io : AuthService.RequestIO.t) (raw raw' : string) (st st1 : AuthService.State) :
  AuthService.normalizePhone raw' = AuthService.normalizePhone raw ->
  AuthService.requestOtp env sha256Hex io raw st = (inr tt, st1) ->
  exists entry,
    AuthService.rate st1 !! AuthService.rateKey (AuthService.normalizePhone raw)
    = Some entry
    /\ (entry = RateEntry.mk 1 (AuthService.RequestIO.rateNow io)
        \/ exists old,
             AuthService.rate st !! AuthService.rateKey (AuthService.normalizePhone raw)
             = Some old
             /\ entry = RateEntry.mk (RateEntry.count old + 1) (RateEntry.windowStart old))
    /\ forall io',
         AuthService.RequestIO.rateNow io' - RateEntry.windowStart entry
         <= Config.RATE_LIMIT_WINDOW_SEC env * 1000 ->
         Config.RATE_LIMIT_MAX_REQUESTS env <= RateEntry.count entry ->
         AuthService.requestOtp env sha256Hex io' raw' st1
         = (inl AuthService.tooManyRequests, st1).
Proof.
  intros Hsame Hreq. unfold AuthService.requestOtp in Hreq.
  destruct (AuthService.checkRateLimit _ _ _ _) as [e|rate'] eqn:Hrate; [discriminate|].
  destruct (AuthService.randCode _ _) as [e|code]; [discriminate|].
  injection Hreq as <-.
  destruct (checkRateLimit_inr _ _ _ _ _ Hrate) as (entry & -> & Hentry).
  exists entry. simpl AuthService.rate.
  split; [apply lookup_insert_eq|]. split; [exact Hentry|].
  intros io' Hwithin Hmax. unfold AuthService.requestOtp. rewrite Hsame.
  simpl AuthService.rate. destruct entry as [count start].
  now rewrite (checkRateLimit_refuses env _ _ _ count start (lookup_insert_eq _ _ _)
                 Hwithin Hmax).
Qed.

(** C10.  [requestOtp] and [verifyOtp] read the phone number through the
    same normalisation, which trims white space and sends a number spelled
    with a leading [+98] and the same number spelled with a leading [0] to
    one canonical form.  So, in either order of the two spellings: a code
    requested under one spelling (by a request that succeeds, whose row has
    a fresh identifier and the latest creation time of the number's rows) is
    verified under the other before its expiry; and a request that succeeds
    under one spelling is counted in the one entry of the rate map that
    requests under the other spelling are checked against, so that such a
    request is refused once that count has reached the maximum.  Every call
    of either method has the same outcome under both spellings. *)
Theorem phone_spellings_agree (env : Config.t) (sha256Hex : string -> string)
  (pre post pre' post' rest : string) :
  isBlank pre = true -> isBlank post = true ->
  isBlank pre' = true -> isBlank post' = true ->
  AuthService.normalizePhone (withPlus98 pre rest post) = "0" +:+ Js.trimEnd rest
  /\ AuthService.normalizePhone (withZero pre' rest post') = "0" +:+ Js.trimEnd rest
  /\ forall raw raw',
       (raw = withPlus98 pre rest post /\ raw' = withZero pre' rest post')
       \/ (raw = withZero pre' rest post' /\ raw' = withPlus98 pre rest post) ->
       (forall (request : AuthService.RequestIO.t) (login : AuthService.VerifyIO.t)
               (st : AuthService.State),
          Forall (fun r => OtpCode.id r <> AuthService.RequestIO.newId request)
            (Db.otpCodes (AuthService.db st)) ->
          Forall (fun r => OtpCode.phone r = "0" +:+ Js.trimEnd rest ->
                           OtpCode.createdAt r < AuthService.RequestIO.createdNow request)
            (Db.otpCodes (AuthService.db st)) ->
          fst (AuthService.requestOtp env sha256Hex request raw st) = inr tt ->
          AuthService.VerifyIO.queryNow login
          < AuthService.RequestIO.expiryNow request + Config.OTP_EXP_MIN env * 60000 ->
          exists code user st2,
            AuthService.randCode env (AuthService.RequestIO.randomInt request) = inr code
            /\ AuthService.verifyOtp sha256Hex login raw' code
                 (snd (AuthService.requestOtp env sha256Hex request raw st))
               = (inr (user, AuthService.VerifyIO.randomBytesHex login), st2)
            /\ User.phone user = Some ("0" +:+ Js.trimEnd rest))
       /\ (forall (io : AuthService.RequestIO.t) (st st1 : AuthService.State),
             AuthService.requestOtp env sha256Hex io raw st = (inr tt, st1) ->
             exists entry,
               AuthService.rate st1 !! AuthService.rateKey ("0" +:+ Js.trimEnd rest)
               = Some entry
               /\ (entry = RateEntry.mk 1 (AuthService.RequestIO.rateNow io)
                   \/ exists old,
                        AuthService.rate st
                          !! AuthService.rateKey ("0" +:+ Js.trimEnd rest) = Some old
                        /\ entry = RateEntry.mk (RateEntry.count old + 1)
                                     (RateEntry.windowStart old))
               /\ forall io',
                    AuthService.RequestIO.rateNow io' - RateEntry.windowStart entry
                    <= Config.RATE_LIMIT_WINDOW_SEC env * 1000 ->
                    Config.RATE_LIMIT_MAX_REQUESTS env <= RateEntry.count entry ->
                    AuthService.requestOtp env sha256Hex io' raw' st1
                    = (inl (JsError "Too many OTP requests. Please wait and try again."),
                       st1))
       /\ (forall io st,
             AuthService.requestOtp env sha256Hex io raw st
             = AuthService.requestOtp env sha256Hex io raw' st)
       /\ (forall io code st,
             AuthService.verifyOtp sha256Hex io raw code st
             = AuthService.verifyOtp sha256Hex io raw' code st).
Proof.
  intros Hpre Hpost Hpre' Hpost'.
  destruct (normalizePhone_spellings pre rest post Hpre Hpost) as [Hplus _].
  destruct (normalizePhone_spellings pre' rest post' Hpre' Hpost') as [_ Hzero].
  split; [exact Hplus|]. split; [exact Hzero|].
  intros raw raw' Hcase.
  assert (Hraw : AuthService.normalizePhone raw = "0" +:+ Js.trimEnd rest
                 /\ AuthService.normalizePhone raw' = "0" +:+ Js.trimEnd rest).
  { destruct Hcase as [[-> ->]|[-> ->]]; now split. }
  destruct Hraw as [Hraw Hraw']. split.
  - intros request login st Hfresh Hnewest Hreq Hexp.
    rewrite <- Hraw in Hnewest |- *.
    destruct (requestOtp_drew_code env sha256Hex request raw st Hreq) as (code & Hcode).
    destruct (verifyOtp_requested_code env sha256Hex request login raw raw' code st
                ltac:(congruence) Hfresh Hnewest Hcode Hreq Hexp)
      as (user & st2 & Hverify & Hphone & _).
    now exists code, user, st2.
  - split; [|split].
    + intros io st st1 Hreq. rewrite <- Hraw.
      exact (requestOtp_counts_for env sha256Hex io raw raw' st st1
               ltac:(congruence) Hreq).
    + intros io st. unfold AuthService.requestOtp. now rewrite Hraw, Hraw'.
    + intros io code st. unfold AuthService.verifyOtp. now rewrite Hraw, Hraw'.
Qed.

(** A request for [  +989120000000 ], with white space around, and a
    login for [09120000000] with the code drawn; and a third request in the
    window under the first spelling, after which a request under the second
    is refused. *)
Lemma phone_spellings_agree_witness :
  exists st1 user st2,
    AuthService.requestOtp Sample.env Sample.digest
      (Sample.request "otp_3" 1700000020000) "  +989120000000 " Sample.requestedTwice
    = (inr tt, st1)
    /\ AuthService.requestOtp Sample.env Sample.digest
         (Sample.request "otp_4" 1700000030000) "09120000000" st1
       = (inl (JsError "Too many OTP requests. Please wait and try again."), st1)
    /\ AuthService.verifyOtp Sample.digest Sample.firstLogin "09120000000" "123456"
         (snd (AuthService.requestOtp Sample.env Sample.digest
                 (Sample.request "otp_1" 1700000000000) "  +989120000000 "
                 Sample.started))
       = (inr (user, "6b1f0c2e"%string), st2).
Proof.
  destruct (phone_spellings_agree Sample.env Sample.digest "  " " " EmptyString
              EmptyString "9120000000" eq_refl eq_refl eq_refl eq_refl)
    as (_ & _ & H).
  destruct (H "  +989120000000 "%string "09120000000"%string
              (or_introl (conj eq_refl eq_refl))) as (Hverify & Hcount & _).
  destruct (AuthService.requestOtp Sample.env Sample.digest
              (Sample.request "otp_3" 1700000020000) "  +989120000000 "
              Sample.requestedTwice) as [r st1] eqn:E.
  assert (Hr : r = inr tt).
  { vm_compute in E. injection E as <- _. reflexivity. }
  subst r.
  destruct (Hcount _ _ _ E) as (entry & Hentry & _ & Hrefused).
  assert (Hthree : entry = RateEntry.mk 3 1700000000000).
  { vm_compute in E. injection E as <-. vm_compute in Hentry.
    now injection Hentry as <-. }
  destruct (Hverify (Sample.request "otp_1" 1700000000000) Sample.firstLogin
              Sample.started) as (code & user & st2 & Hcode & Hlogin & _).
  - constructor.
  - constructor.
  - vm_compute. reflexivity.
  - vm_compute. reflexivity.
  - vm_compute in Hcode. injection Hcode as <-.
    exists st1, user, st2. split; [reflexivity|]. split; [|exact Hlogin].
    apply Hrefused; rewrite Hthree; vm_compute; discriminate.
Defined.

(** * Further properties *)

(** ** Gateway adapters, continued *)

Lemma ofInt_not_empty (n : Z) : Js.ofInt n <> EmptyString.
Proof.
  unfold Js.ofInt. destruct (Z.to_int n) as [d|d]; simpl; [|discriminate].
  destruct d; discriminate.
Qed.

Lemma adapterCreate_gateway_error (env : Config.t) (a : Adapter) (io : ProviderIO.t)
  (request : CreatePaymentRequest.t) (e : Error) :
  adapterCreatePayment env a io request = inl e -> isGatewayError e.
Proof.
  destruct a; simpl.
  - unfold Zarinpal.createPayment.
    destruct (ProviderIO.zarinpalRequest io) as [[data|]|pm m];
      try (intros [= <-]; eexists _, _; reflexivity).
    destruct (ZarinpalRequestData.code data) as [c|];
      [|intros [= <-]; eexists _, _; reflexivity].
    destruct (ZarinpalRequestData.authority data) as [[|ch r]|];
      repeat (match goal with
              | |- context [match ?x with _ => _ end] => destruct x
              end);
      try discriminate; intros [= <-]; eexists _, _; reflexivity.
  - discriminate.
  - unfold Zibal.createPayment.
    destruct (ProviderIO.zibalRequest io) as [[data|]|pm m];
      try (intros [= <-]; eexists _, _; reflexivity).
    destruct (ZibalRequestData.result data) as [c|];
      [|intros [= <-]; eexists _, _; reflexivity].
    destruct (ZibalRequestData.trackId data) as [t|];
      repeat (match goal with
              | |- context [match ?x with _ => _ end] => destruct x
              | |- context [if ?x then _ else _] => destruct x
              end);
      try discriminate; intros [= <-]; eexists _, _; reflexivity.
Qed.

Lemma adapterVerify_gateway_error (a : Adapter) (io : ProviderIO.t)
  (request : VerifyPaymentRequest.t) (e : Error) :
  adapterVerifyPayment a io request = inl e -> isGatewayError e.
Proof.
  destruct a; simpl.
  - unfold Zarinpal.verifyPayment.
    destruct (ProviderIO.zarinpalVerify io) as [[data|]|pm m];
      try (intros [= <-]; eexists _, _; reflexivity).
    destruct (_ && _); [|discriminate]. intros [= <-]; eexists _, _; reflexivity.
  - discriminate.
  - unfold Zibal.verifyPayment.
    destruct (ProviderIO.zibalVerify io) as [[data|]|pm m];
      try (intros [= <-]; eexists _, _; reflexivity).
    destruct (negb _); [|discriminate]. intros [= <-]; eexists _, _; reflexivity.
Qed.

Lemma created_payment_url_aux (env : Config.t) (a : Adapter) (io : ProviderIO.t)
  (request : CreatePaymentRequest.t) (response : CreatePaymentResponse.t) :
  adapterCreatePayment env a io request = inr response ->
  CreatePaymentResponse.authority response <> EmptyString
  /\ CreatePaymentResponse.paymentUrl response
     = startPayUrl env a +:+ CreatePaymentResponse.authority response.
Proof.
  destruct a; simpl.
  - unfold Zarinpal.createPayment.
    destruct (ProviderIO.zarinpalRequest io) as [[data|]|pm m]; try discriminate.
    destruct (ZarinpalRequestData.code data) as [c|]; [|discriminate].
    destruct (ZarinpalRequestData.authority data) as [[|ch r]|];
      repeat (match goal with
              | |- context [match ?x with _ => _ end] => destruct x
              end);
      try discriminate; intros [= <-]; split; [discriminate|reflexivity].
  - intros [= <-]. split; [discriminate|reflexivity].
  - unfold Zibal.createPayment.
    destruct (ProviderIO.zibalRequest io) as [[data|]|pm m]; try discriminate.
    destruct (ZibalRequestData.result data) as [c|]; [|discriminate].
    destruct (ZibalRequestData.trackId data) as [t|];
      repeat (match goal with
              | |- context [match ?x with _ => _ end] => destruct x
              | |- context [if ?x then _ else _] => destruct x
              end);
      try discriminate; intros [= <-]; (split; [apply ofInt_not_empty|reflexivity]).
Qed.

(** X1.  A payment that an adapter creates has a non-empty authority, and
    its payment URL is the adapter's payment page followed by that
    authority. *)
Theorem created_payment_url (env : Config.t) (a : Adapter) (io : ProviderIO.t)
  (request : CreatePaymentRequest.t) (response : CreatePaymentResponse.t) :
  adapterCreatePayment env a io request = inr response ->
  CreatePaymentResponse.authority response <> EmptyString
  /\ CreatePaymentResponse.paymentUrl response
     = startPayUrl env a +:+ CreatePaymentResponse.authority response.
Proof. apply created_payment_url_aux. Qed.

(** X2.  Whatever the provider answers, and however the HTTP call ends, an
    adapter that fails fails with a [PaymentGatewayError]: the [catch] of
    every adapter method wraps anything else. *)
Theorem adapters_raise_gateway_errors (env : Config.t) (a : Adapter) (io : ProviderIO.t) :
  (forall request e,
     adapterCreatePayment env a io request = inl e -> isGatewayError e)
  /\ (forall request e,
        adapterVerifyPayment a io request = inl e -> isGatewayError e).
Proof.
  split; intros request e.
  - apply adapterCreate_gateway_error.
  - apply adapterVerify_gateway_error.
Qed.

(** ** Payment service, continued *)

Lemma update_is_Some {A} (f : A -> bool) (data : A -> A) (rows : list A) (x : A) :
  x ∈ rows -> f x = true -> is_Some (Prisma.update f data rows).
Proof.
  intros Hx Hf. destruct (Prisma.update f data rows) as [r|] eqn:Hu; [now exists r|].
  apply update_None, findFirst_None in Hu.
  rewrite (proj1 (Forall_forall _ _) Hu x Hx) in Hf. discriminate Hf.
Qed.

(** What an update by identifier leaves alone: the other tables, the log
    of gateway calls, the identifiers in the table, and every row under
    another identifier. *)
Lemma updatePayment_frame (id : string) (data : Payment.t -> Payment.t) (w : World.t) :
  (forall x, Payment.id (data x) = Payment.id x) ->
  let w' := snd (PaymentService.updatePayment id data w) in
  Db.withPayments (World.payments w) (World.db w') = World.db w
  /\ World.gatewayCalls w' = World.gatewayCalls w
  /\ Payment.id <$> World.payments w' = Payment.id <$> World.payments w
  /\ forall id', id' <> id ->
       Prisma.findFirst (PaymentService.hasId id') (World.payments w')
       = Prisma.findFirst (PaymentService.hasId id') (World.payments w).
Proof.
  intros Hid w'. subst w'. split; [|split; [|split]].
  - unfold PaymentService.updatePayment.
    destruct (Prisma.update _ _ _) as [[u rows']|]; simpl; now destruct w as [[] ?].
  - unfold PaymentService.updatePayment.
    now destruct (Prisma.update _ _ _) as [[u rows']|].
  - now apply updatePayment_ids.
  - intros id' Hne. unfold PaymentService.updatePayment.
    destruct (Prisma.update _ _ _) as [[u rows']|] eqn:Hu; [|reflexivity].
    simpl snd. rewrite payments_withPayments.
    pose proof (findFirst_update _ (PaymentService.hasId id') (fun x => x) _ _ _ _ Hu) as H.
    rewrite !option_fmap_id in H. apply H.
    + intros x _. unfold PaymentService.hasId. now rewrite Hid.
    + intros x Hx Hx'. apply hasId_true in Hx, Hx'. congruence.
Qed.

Lemma callCreate_frame (env : Config.t) (g : Registry.GatewayObject) (io : ProviderIO.t)
  (request : CreatePaymentRequest.t) (w : World.t) :
  World.db (snd (PaymentService.callCreate env g io request w)) = World.db w
  /\ exists calls,
       World.gatewayCalls (snd (PaymentService.callCreate env g io request w))
       = World.gatewayCalls w ++ calls
       /\ (length calls <= 1)%nat.
Proof.
  destruct g; simpl; (split; [reflexivity|]).
  - eexists [_]. split; [reflexivity|simpl; lia].
  - exists []. split; [now rewrite app_nil_r|simpl; lia].
Qed.

Lemma callVerify_frame (g : Registry.GatewayObject) (io : ProviderIO.t)
  (request : VerifyPaymentRequest.t) (w : World.t) :
  World.db (snd (PaymentService.callVerify g io request w)) = World.db w
  /\ exists calls,
       World.gatewayCalls (snd (PaymentService.callVerify g io request w))
       = World.gatewayCalls w ++ calls
       /\ (length calls <= 1)%nat.
Proof.
  destruct g; simpl; (split; [reflexivity|]).
  - eexists [_]. split; [reflexivity|simpl; lia].
  - exists []. split; [now rewrite app_nil_r|simpl; lia].
Qed.

(** The update that follows the creation of a row cannot miss. *)
Lemma createPayment_update (row : Payment.t) (w : World.t) :
  exists u w',
    PaymentService.updatePayment (Payment.id row) PaymentService.setNotificationSent
      (snd (PaymentService.createRow row w)) = (inr u, w').
Proof.
  unfold PaymentService.updatePayment, PaymentService.createRow. simpl snd.
  rewrite payments_withPayments.
  destruct (update_is_Some (PaymentService.hasId (Payment.id row))
              PaymentService.setNotificationSent
              (Prisma.create row (World.payments w)) row) as [[u rows'] ->].
  - apply elem_of_app. right. apply list_elem_of_singleton. reflexivity.
  - apply hasId_self.
  - eexists _, _. reflexivity.
Qed.

Lemma createPayment_failure_aux (env : Config.t)
  (io : PaymentService.CreateIO.t) (subscriptionId : string) (amount : Z)
  (gateway : string) (userEmail userPhone : option string) (w : World.t)
  (e : Error) (w' : World.t) :
  PaymentService.createPayment env io subscriptionId amount gateway userEmail userPhone w
  = (inl e, w') ->
  World.db w' = World.db w
  /\ exists calls,
       World.gatewayCalls w' = World.gatewayCalls w ++ calls /\ (length calls <= 1)%nat.
Proof.
  assert (Hnil : exists calls : list GatewayCall,
             World.gatewayCalls w = World.gatewayCalls w ++ calls /\ (length calls <= 1)%nat).
  { exists []. split; [now rewrite app_nil_r|simpl; lia]. }
  unfold PaymentService.createPayment.
  destruct (PaymentService.findSubscriptionWithPlan _ _) as [[sub [plan|]]|];
    try (intros [= <- <-]; now split).
  destruct (Registry.getPaymentGateway gateway) as [err|gw];
    [intros [= <- <-]; now split|].
  set (req := CreatePaymentRequest.mk _ _ _ _ _ _).
  pose proof (callCreate_frame env gw (PaymentService.CreateIO.provider io) req w) as Hc.
  destruct (PaymentService.callCreate env gw _ req w) as [[err|resp] w1]; simpl snd in Hc.
  - intros [= <- <-]. exact Hc.
  - set (row := Payment.mk _ _ _ _ _ _ _ _ _ _ _ _ _ _ _).
    destruct (createPayment_update row w1) as (u & w3 & Hu).
    destruct (PaymentService.createRow row w1) as [payment w2] eqn:Hcr.
    assert (payment = row) as -> by (now injection Hcr).
    simpl snd in Hu. rewrite Hu. discriminate.
Qed.

(** X3.  A call of [createPayment] that fails has written nothing: the
    database is as before, whether the subscription was missing, the
    gateway name did not resolve, or the adapter refused; and it has made
    at most one call on an adapter. *)
Theorem createPayment_failure_writes_nothing (env : Config.t)
  (io : PaymentService.CreateIO.t) (subscriptionId : string) (amount : Z)
  (gateway : string) (userEmail userPhone : option string) (w : World.t)
  (e : Error) (w' : World.t) :
  PaymentService.createPayment env io subscriptionId amount gateway userEmail userPhone w
  = (inl e, w') ->
  World.db w' = World.db w
  /\ exists calls,
       World.gatewayCalls w' = World.gatewayCalls w ++ calls /\ (length calls <= 1)%nat.
Proof. apply createPayment_failure_aux. Qed.

(** A successful [createPayment], given a fresh identifier, appends one
    row: the returned record with [notificationSent] set. *)
Lemma createPayment_rows (env : Config.t) (io : PaymentService.CreateIO.t)
  (subscriptionId : string) (amount : Z) (gateway : string)
  (userEmail userPhone : option string) (w : World.t)
  (payment : Payment.t) (w' : World.t) :
  PaymentService.createPayment env io subscriptionId amount gateway userEmail userPhone w
  = (inr payment, w') ->
  PaymentService.CreateIO.newId io ∉ Payment.id <$> World.payments w ->
  World.payments w'
  = World.payments w ++ [PaymentService.setNotificationSent payment]
  /\ Db.withPayments (World.payments w) (World.db w') = World.db w
  /\ exists plan a response,
       (exists sub, PaymentService.findSubscriptionWithPlan subscriptionId (World.db w)
                    = Some (sub, Some plan))
       /\ Registry.getPaymentGateway gateway = inr (Registry.Instance a)
       /\ CreatePaymentResponse.authority response <> EmptyString
       /\ CreatePaymentResponse.paymentUrl response
          = startPayUrl env a +:+ CreatePaymentResponse.authority response
       /\ payment
          = Payment.mk (PaymentService.CreateIO.newId io) subscriptionId amount
              (Plan.currency plan) gateway
              (Some (CreatePaymentResponse.authority response))
              (Some (CreatePaymentResponse.paymentUrl response))
              PaymentStatus.PENDING None None None userEmail userPhone false
              (Some (Json.stringify
                 [("gatewayTxId"%string,
                   Json.str (CreatePaymentResponse.gatewayTxId response));
                  ("message"%string,
                   Json.str (CreatePaymentResponse.message response))])).
Proof.
  intros H Hfresh. revert H. unfold PaymentService.createPayment.
  destruct (PaymentService.findSubscriptionWithPlan _ _) as [[sub [plan|]]|];
    try discriminate.
  destruct (Registry.getPaymentGateway gateway) as [err|[a|]] eqn:Hg; [discriminate| |].
  2:{ simpl. discriminate. }
  set (req := CreatePaymentRequest.mk _ _ _ _ _ _). simpl.
  destruct (adapterCreatePayment env a _ req) as [err|resp] eqn:Ha; [discriminate|].
  set (row := Payment.mk _ _ _ _ _ _ _ _ _ _ _ _ _ _ _).
  unfold PaymentService.createRow, PaymentService.updatePayment.
  rewrite payments_withPayments. unfold Prisma.create.
  change (World.payments (World.logCall (CreateCall a req) w)) with (World.payments w).
  rewrite (update_split (PaymentService.hasId (PaymentService.CreateIO.newId io))
             PaymentService.setNotificationSent (World.payments w) [] row).
  - intros [= <- <-]. split; [reflexivity|]. split; [now destruct w as [[] ?]|].
    exists plan, a, resp. split; [now exists sub|]. split; [reflexivity|].
    destruct (created_payment_url_aux env a _ req resp Ha) as [Hne Hurl].
    split; [exact Hne|]. split; [exact Hurl|reflexivity].
  - apply Forall_forall. intros x Hx.
    destruct (PaymentService.hasId (PaymentService.CreateIO.newId io) x) eqn:E;
      [|reflexivity].
    apply hasId_true in E. exfalso. apply Hfresh. rewrite <- E.
    now apply list_elem_of_fmap_2.
  - apply (hasId_self row).
Qed.

(** X4.  What a successful [createPayment] stores and returns, the
    identifier minted for the row being fresh: one row is appended, PENDING,
    for the amount, subscription and gateway name given, with a non-empty
    authority and the payment page of the resolved adapter; the stored row
    has [notificationSent] set, the record returned to the caller has not. *)
Theorem createPayment_stores_pending (env : Config.t) (io : PaymentService.CreateIO.t)
  (subscriptionId : string) (amount : Z) (gateway : string)
  (userEmail userPhone : option string) (w : World.t)
  (payment : Payment.t) (w' : World.t) :
  PaymentService.createPayment env io subscriptionId amount gateway userEmail userPhone w
  = (inr payment, w') ->
  PaymentService.CreateIO.newId io ∉ Payment.id <$> World.payments w ->
  World.payments w'
  = World.payments w ++ [PaymentService.setNotificationSent payment]
  /\ Db.withPayments (World.payments w) (World.db w') = World.db w
  /\ Payment.id payment = PaymentService.CreateIO.newId io
  /\ Payment.status payment = PaymentStatus.PENDING
  /\ Payment.amount payment = amount
  /\ Payment.subscriptionId payment = subscriptionId
  /\ Payment.gateway payment = gateway
  /\ Payment.notificationSent payment = false
  /\ exists a authority,
       Registry.getPaymentGateway gateway = inr (Registry.Instance a)
       /\ Payment.authority payment = Some authority
       /\ authority <> EmptyString
       /\ Payment.paymentUrl payment = Some (startPayUrl env a +:+ authority).
Proof.
  intros H Hfresh.
  destruct (createPayment_rows _ _ _ _ _ _ _ _ _ _ H Hfresh)
    as (Hrows & Hdb & plan & a & resp & _ & Hg & Hne & Hurl & ->).
  split; [exact Hrows|]. split; [exact Hdb|].
  do 6 (split; [reflexivity|]).
  exists a, (CreatePaymentResponse.authority resp).
  split; [exact Hg|]. split; [reflexivity|]. split; [exact Hne|].
  simpl. now rewrite Hurl.
Qed.

(** X5.  A created payment is found by its authority: when no stored row
    carried the authority (authorities are unique), the lookup by the
    authority of the new payment returns the row stored for it. *)
Theorem authority_lookup_after_create (env : Config.t) (io : PaymentService.CreateIO.t)
  (subscriptionId : string) (amount : Z) (gateway : string)
  (userEmail userPhone : option string) (w : World.t)
  (payment : Payment.t) (w' : World.t) (authority : string) :
  PaymentService.createPayment env io subscriptionId amount gateway userEmail userPhone w
  = (inr payment, w') ->
  PaymentService.CreateIO.newId io ∉ Payment.id <$> World.payments w ->
  Payment.authority payment = Some authority ->
  PaymentService.getPaymentByAuthority authority w = None ->
  PaymentService.getPaymentByAuthority authority w'
  = Some (PaymentService.setNotificationSent payment).
Proof.
  intros H Hfresh Ha Hnone.
  destruct (createPayment_rows _ _ _ _ _ _ _ _ _ _ H Hfresh)
    as (Hrows & _ & plan & a & resp & _ & _ & _ & _ & Hp).
  unfold PaymentService.getPaymentByAuthority in *. rewrite Hrows.
  rewrite (findFirst_app_None _ _ _ Hnone). simpl.
  unfold PaymentService.hasAuthority. simpl. rewrite Ha.
  now rewrite bool_decide_eq_true_2.
Qed.

Lemma getPaymentGateway_errors (name : string) (e : Error) :
  Registry.getPaymentGateway name = inl e ->
  (exists m, e = ValidationError m) \/ (exists m, e = TypeError m).
Proof.
  unfold Registry.getPaymentGateway, Registry.getPaymentGatewayIn.
  destruct (Registry.getProperty _ _) as [a|[]|]; try discriminate;
    intros [= <-]; [right|left]; eexists; reflexivity.
Qed.

(** X6.  A verification that fails with a gateway error, because the
    caller passed a failure sentinel or because the adapter refused, leaves
    the payment it found FAILED. *)
Theorem verifyPayment_gateway_error_marks_failed (io : PaymentService.VerifyIO.t)
  (authority : string) (status : option string) (w : World.t)
  (message : string) (code : option Z) (w' : World.t) :
  PaymentService.uniqueIds w ->
  PaymentService.verifyPayment io authority status w
  = (inl (PaymentGatewayError message code), w') ->
  exists p,
    PaymentService.getPaymentByAuthority authority w = Some p
    /\ PaymentService.getPaymentByAuthority authority w'
       = Some (PaymentService.setStatus PaymentStatus.FAILED p)
    /\ PaymentService.statusOf (Payment.id p) w' = Some PaymentStatus.FAILED.
Proof.
  intros Hu. unfold PaymentService.verifyPayment, PaymentService.getPaymentByAuthority.
  destruct (Prisma.findFirst _ (World.payments w)) as [p|] eqn:Hf; [|discriminate].
  assert (Hdone : forall w0 : World.t,
            World.payments w0 = World.payments w ->
            forall e,
            (let (r, w1) := PaymentService.updatePayment (Payment.id p)
                              (PaymentService.setStatus PaymentStatus.FAILED) w0 in
             match r with
             | inl e' => (inl e' : Result Payment.t, w1)
             | inr _ => (inl e, w1)
             end)
            = (inl (PaymentGatewayError message code), w') ->
            Prisma.findFirst (PaymentService.hasAuthority authority) (World.payments w')
            = Some (PaymentService.setStatus PaymentStatus.FAILED p)
            /\ PaymentService.statusOf (Payment.id p) w' = Some PaymentStatus.FAILED).
  { intros w0 Hw0 e.
    assert (Hu0 : PaymentService.uniqueIds w0)
      by (unfold PaymentService.uniqueIds; now rewrite Hw0).
    assert (Hf0 : Prisma.findFirst (PaymentService.hasAuthority authority)
                    (World.payments w0) = Some p) by now rewrite Hw0.
    destruct (updatePayment_found authority (PaymentService.setStatus PaymentStatus.FAILED)
                w0 p Hu0 Hf0) as (pre & post & Hrows & Hpre & Hid & ->).
    intros [= _ <-]. rewrite payments_withPayments.
    destruct (findFirst_elem _ _ _ Hf) as [_ Ha]. split.
    - now apply findFirst_split.
    - unfold PaymentService.statusOf. rewrite payments_withPayments.
      rewrite (findFirst_split _ pre post _ Hid); [reflexivity|].
      apply (hasId_self (PaymentService.setStatus PaymentStatus.FAILED p)). }
  destruct (PaymentService.isFailureStatus status).
  { intros H. exists p. split; [reflexivity|]. exact (Hdone w eq_refl _ H). }
  destruct (bool_decide _); [discriminate|].
  destruct (Registry.getPaymentGateway (Payment.gateway p)) as [e|g] eqn:Hg.
  { intros [= -> _]. destruct (getPaymentGateway_errors _ _ Hg) as [[m H]|[m H]];
      discriminate H. }
  set (req := VerifyPaymentRequest.mk _ _).
  destruct (PaymentService.callVerify g _ req w) as [[e|resp] w1] eqn:Hcv.
  - assert (Hw1 : World.payments w1 = World.payments w).
    { destruct g; simpl in Hcv; injection Hcv as _ <-; reflexivity. }
    intros H. exists p. split; [reflexivity|]. exact (Hdone w1 Hw1 _ H).
  - destruct (PaymentService.updatePayment _ _ w1) as [[e'|u] w2] eqn:Hup;
      [|discriminate].
    intros [= -> _]. exfalso.
    unfold PaymentService.updatePayment, Prisma.recordNotFound in Hup.
    destruct (Prisma.update _ _ (World.payments w1)) as [[? ?]|]; discriminate Hup.
Qed.

(** X7.  A verification that fails with a not-found or a validation error
    has changed nothing: an unknown authority, and a payment whose gateway
    name does not resolve, leave the database and the log of gateway calls
    as they were (such a payment stays PENDING). *)
Theorem verifyPayment_rejected_unchanged (io : PaymentService.VerifyIO.t)
  (authority : string) (status : option string) (w : World.t)
  (e : Error) (w' : World.t) :
  PaymentService.verifyPayment io authority status w = (inl e, w') ->
  (exists r, e = NotFoundError r) \/ (exists m, e = ValidationError m) ->
  w' = w.
Proof.
  intros H He. revert H. unfold PaymentService.verifyPayment.
  destruct (Prisma.findFirst _ (World.payments w)) as [p|]; [|now intros [= _ <-]].
  assert (Hupd : forall (w0 w1 : World.t) (r : Result Payment.t) (e0 : Error),
            (forall x, e0 = NotFoundError x -> False) ->
            (forall x, e0 = ValidationError x -> False) ->
            PaymentService.updatePayment (Payment.id p)
              (PaymentService.setStatus PaymentStatus.FAILED) w0 = (r, w1) ->
            match r with
            | inl e' => (inl e' : Result Payment.t, w1)
            | inr _ => (inl e0, w1)
            end = (inl e, w') -> w' = w).
  { intros w0 w1 r e0 H1 H2 Hup. unfold PaymentService.updatePayment in Hup.
    destruct (Prisma.update _ _ _) as [[u rows]|]; injection Hup as <- <-;
      intros [= <- _]; exfalso; destruct He as [[x Hx]|[x Hx]];
      try discriminate Hx; eauto. }
  destruct (PaymentService.isFailureStatus status).
  { destruct (PaymentService.updatePayment _ _ w) as [r w1] eqn:Hup.
    apply (Hupd w w1 r _); [discriminate|discriminate|exact Hup]. }
  destruct (bool_decide _); [discriminate|].
  destruct (Registry.getPaymentGateway (Payment.gateway p)) as [e0|g];
    [now intros [= _ <-]|].
  set (req := VerifyPaymentRequest.mk _ _).
  destruct (PaymentService.callVerify g _ req w) as [[e0|resp] w1] eqn:Hcv.
  - destruct (PaymentService.updatePayment _ _ w1) as [r w2] eqn:Hup.
    apply (Hupd w1 w2 r e0); [| |exact Hup].
    + intros x ->. destruct g as [a|]; simpl in Hcv; [|discriminate Hcv].
      injection Hcv as Ha _.
      destruct (adapterVerify_gateway_error _ _ _ _ Ha) as (m & c & H).
      discriminate H.
    + intros x ->. destruct g as [a|]; simpl in Hcv; [|discriminate Hcv].
      injection Hcv as Ha _.
      destruct (adapterVerify_gateway_error _ _ _ _ Ha) as (m & c & H).
      discriminate H.
  - unfold PaymentService.updatePayment.
    destruct (Prisma.update _ _ _) as [[u rows]|]; [discriminate|].
    intros [= <- _]. exfalso. destruct He as [[x Hx]|[x Hx]]; discriminate Hx.
Qed.

Lemma verifyPayment_frame_aux (io : PaymentService.VerifyIO.t) (authority : string)
  (status : option string) (w : World.t) :
  Db.withPayments (World.payments w)
    (World.db (snd (PaymentService.verifyPayment io authority status w)))
  = World.db w
  /\ Payment.id <$> World.payments (snd (PaymentService.verifyPayment io authority status w))
     = Payment.id <$> World.payments w
  /\ (exists calls,
        World.gatewayCalls (snd (PaymentService.verifyPayment io authority status w))
        = World.gatewayCalls w ++ calls
        /\ (length calls <= 1)%nat)
  /\ (forall p id,
        PaymentService.getPaymentByAuthority authority w = Some p ->
        id <> Payment.id p ->
        Prisma.findFirst (PaymentService.hasId id)
          (World.payments (snd (PaymentService.verifyPayment io authority status w)))
        = Prisma.findFirst (PaymentService.hasId id) (World.payments w)).
Proof.
  unfold PaymentService.verifyPayment, PaymentService.getPaymentByAuthority.
  remember (Prisma.findFirst (PaymentService.hasAuthority authority) (World.payments w))
    as found eqn:Hf.
  assert (Hsame : forall w0 : World.t,
            World.db w0 = World.db w ->
            (exists calls, World.gatewayCalls w0 = World.gatewayCalls w ++ calls
                           /\ (length calls <= 1)%nat) ->
            Db.withPayments (World.payments w) (World.db w0) = World.db w
            /\ Payment.id <$> World.payments w0 = Payment.id <$> World.payments w
            /\ (exists calls, World.gatewayCalls w0 = World.gatewayCalls w ++ calls
                              /\ (length calls <= 1)%nat)
            /\ (forall p id,
                  found = Some p ->
                  id <> Payment.id p ->
                  Prisma.findFirst (PaymentService.hasId id) (World.payments w0)
                  = Prisma.findFirst (PaymentService.hasId id) (World.payments w))).
  { intros w0 Hdb Hcalls. unfold World.payments. rewrite Hdb.
    split; [now destruct (World.db w)|]. split; [reflexivity|].
    split; [exact Hcalls|]. reflexivity. }
  assert (Hnil : exists calls : list GatewayCall,
             World.gatewayCalls w = World.gatewayCalls w ++ calls /\ (length calls <= 1)%nat).
  { exists []. split; [now rewrite app_nil_r|simpl; lia]. }
  clear Hf. destruct found as [p|]; [|now apply Hsame].
  assert (Hupd : forall (data : Payment.t -> Payment.t) (w0 : World.t),
            (forall x, Payment.id (data x) = Payment.id x) ->
            World.db w0 = World.db w ->
            (exists calls, World.gatewayCalls w0 = World.gatewayCalls w ++ calls
                           /\ (length calls <= 1)%nat) ->
            let w1 := snd (PaymentService.updatePayment (Payment.id p) data w0) in
            Db.withPayments (World.payments w) (World.db w1) = World.db w
            /\ Payment.id <$> World.payments w1 = Payment.id <$> World.payments w
            /\ (exists calls, World.gatewayCalls w1 = World.gatewayCalls w ++ calls
                              /\ (length calls <= 1)%nat)
            /\ (forall p0 id,
                  Some p = Some p0 -> id <> Payment.id p0 ->
                  Prisma.findFirst (PaymentService.hasId id) (World.payments w1)
                  = Prisma.findFirst (PaymentService.hasId id) (World.payments w))).
  { intros data w0 Hid Hdb Hcalls w1. subst w1.
    destruct (updatePayment_frame (Payment.id p) data w0 Hid) as (H1 & H2 & H3 & H4).
    assert (Hp : World.payments w0 = World.payments w)
      by (unfold World.payments; now rewrite Hdb).
    rewrite Hp in H1, H3, H4. rewrite Hdb in H1.
    split; [exact H1|]. split; [exact H3|]. split; [now rewrite H2|].
    intros p0 id [= <-] Hne. now apply H4. }
  destruct (PaymentService.isFailureStatus status).
  { specialize (Hupd (PaymentService.setStatus PaymentStatus.FAILED) w
                  (fun _ => eq_refl) eq_refl Hnil).
    destruct (PaymentService.updatePayment _ _ w) as [[e|u] w1]; exact Hupd. }
  destruct (bool_decide _); [now apply Hsame|].
  destruct (Registry.getPaymentGateway (Payment.gateway p)) as [e|g]; [now apply Hsame|].
  set (req := VerifyPaymentRequest.mk _ _).
  destruct (callVerify_frame g (PaymentService.VerifyIO.provider io) req w) as [Hdb Hcalls].
  destruct (PaymentService.callVerify g _ req w) as [[e|resp] w1]; simpl snd in *.
  - specialize (Hupd (PaymentService.setStatus PaymentStatus.FAILED) w1
                  (fun _ => eq_refl) Hdb Hcalls).
    destruct (PaymentService.updatePayment _ _ w1) as [[e'|u] w2]; exact Hupd.
  - apply Hupd; [reflexivity|exact Hdb|exact Hcalls].
Qed.

(** X8.  A verification touches one row at most: the tables other than
    the payments are as before, no payment row is added or removed, every
    row other than the one found by the authority is as before, and at most
    one call is made on an adapter. *)
Theorem verifyPayment_frame (io : PaymentService.VerifyIO.t) (authority : string)
  (status : option string) (w : World.t) :
  Db.withPayments (World.payments w)
    (World.db (snd (PaymentService.verifyPayment io authority status w)))
  = World.db w
  /\ Payment.id <$> World.payments (snd (PaymentService.verifyPayment io authority status w))
     = Payment.id <$> World.payments w
  /\ (exists calls,
        World.gatewayCalls (snd (PaymentService.verifyPayment io authority status w))
        = World.gatewayCalls w ++ calls
        /\ (length calls <= 1)%nat)
  /\ (forall p id,
        PaymentService.getPaymentByAuthority authority w = Some p ->
        id <> Payment.id p ->
        Prisma.findFirst (PaymentService.hasId id)
          (World.payments (snd (PaymentService.verifyPayment io authority status w)))
        = Prisma.findFirst (PaymentService.hasId id) (World.payments w)).
Proof. apply verifyPayment_frame_aux. Qed.

Lemma get_stringify_assign_other (k k' : string) (v : option Json.value) (o : Json.draft) :
  k' <> k ->
  JsonObject.get k' (Json.stringify (Json.assign k v o))
  = JsonObject.get k' (Json.stringify o).
Proof.
  intros Hne. induction o as [|[k0 v0] r IH]; simpl.
  - destruct v; simpl; [|reflexivity].
    now rewrite (proj2 (String.eqb_neq _ _) (not_eq_sym Hne)).
  - destruct (String.eqb k0 k) eqn:E; simpl.
    + apply String.eqb_eq in E. subst k0.
      destruct v, v0; simpl;
        rewrite ?(proj2 (String.eqb_neq _ _) (not_eq_sym Hne)); reflexivity.
    + destruct v0; simpl; [|exact IH]. now rewrite IH.
Qed.

Lemma get_stringify_spread (k : string) (o : Json.object) :
  JsonObject.get k (Json.stringify (Json.spread o)) = JsonObject.get k o.
Proof.
  induction o as [|[k0 v0] r IH]; simpl; [reflexivity|]. now rewrite IH.
Qed.

(** X9.  The metadata stored by a successful verification keeps every
    entry of the stored metadata other than the five reference fields: the
    adapter's answer is merged in, never put in place of the object. *)
Theorem verifiedMetadata_keeps_entries (existing : option Json.object)
  (response : VerifyPaymentResponse.t) (key : string) :
  ~ In key referenceKeys ->
  JsonObject.get key (PaymentService.verifiedMetadata existing response)
  = JsonObject.get key (default [] existing).
Proof.
  intros Hk. unfold PaymentService.verifiedMetadata.
  rewrite !get_stringify_assign_other, get_stringify_spread; [reflexivity|..];
    intros ->; apply Hk; simpl; tauto.
Qed.

(** ** Subscription service, continued *)

Lemma priceLe_total : Total Subscriptions.priceLe.
Proof. intros a b. unfold Subscriptions.priceLe. lia. Qed.

Lemma priceLe_trans : Transitive Subscriptions.priceLe.
Proof. intros a b c. unfold Subscriptions.priceLe. lia. Qed.

Lemma getAvailablePlans_sorted_active_aux (d : Db.t) :
  StronglySorted (fun a b => Plan.price a <= Plan.price b)
    (Subscriptions.getAvailablePlans d)
  /\ Subscriptions.getAvailablePlans d ≡ₚ filter (fun p => Plan.isActive p = true) (Db.plans d)
  /\ forall p, p ∈ Subscriptions.getAvailablePlans d
               <-> p ∈ Db.plans d /\ Plan.isActive p = true.
Proof.
  assert (Hf : Prisma.findMany Plan.isActive (Db.plans d)
               = filter (fun p => Plan.isActive p = true) (Db.plans d)).
  { unfold Prisma.findMany. induction (Db.plans d) as [|x r IH]; [reflexivity|].
    simpl. rewrite filter_cons. destruct (Plan.isActive x) eqn:E.
    - rewrite decide_True by reflexivity. now rewrite IH.
    - rewrite decide_False by discriminate. exact IH. }
  unfold Subscriptions.getAvailablePlans. rewrite Hf.
  split; [|split].
  - exact (@StronglySorted_merge_sort _ Subscriptions.priceLe _ priceLe_trans
             priceLe_total _).
  - apply merge_sort_Permutation.
  - intros p. rewrite (merge_sort_Permutation Subscriptions.priceLe).
    rewrite list_elem_of_filter. tauto.
Qed.

Lemma available_plan_found (d : Db.t) (planId : string) (plan : Plan.t) :
  Prisma.findFirst (fun p => String.eqb (Plan.id p) planId) (Db.plans d) = Some plan ->
  Plan.isActive plan = true ->
  plan ∈ Subscriptions.getAvailablePlans d /\ Plan.id plan = planId.
Proof.
  intros Hf Ha. destruct (findFirst_elem _ _ _ Hf) as [Hin Hid].
  apply String.eqb_eq in Hid. split; [|exact Hid].
  apply (proj2 (proj2 (getAvailablePlans_sorted_active_aux d))). now split.
Qed.

(** X11.  A plan that [getAvailablePlans] does not list cannot be
    subscribed to: [createSubscription] for an identifier that no listed
    plan carries fails, with "Plan" not found or with "This plan is not
    currently available", and writes nothing. *)
Theorem createSubscription_unlisted_plan (env : Config.t) (io : Subscriptions.CreateIO.t)
  (input : CreateSubscriptionInput.t) (w : World.t) :
  (forall plan, plan ∈ Subscriptions.getAvailablePlans (World.db w) ->
                Plan.id plan <> CreateSubscriptionInput.planId input) ->
  exists e,
    Subscriptions.createSubscription env io input w = (inl e, w)
    /\ (e = NotFoundError "Plan" \/ e = JsError "This plan is not currently available").
Proof.
  intros H. unfold Subscriptions.createSubscription.
  destruct (Prisma.findFirst _ (Db.plans (World.db w))) as [plan|] eqn:Hf.
  - destruct (Plan.isActive plan) eqn:Ha; simpl.
    + exfalso. destruct (available_plan_found _ _ _ Hf Ha) as [Hin Hid].
      exact (H plan Hin Hid).
    + eexists. split; [reflexivity|]. now right.
  - eexists. split; [reflexivity|]. now left.
Qed.

(** X12.  When the plan is available and the payment cannot be created
    (the gateway name does not resolve, the provider refuses), the error of
    the payment service is passed on and the subscription stays behind:
    stored, PENDING, with no payment row. *)
Theorem createSubscription_payment_failure (env : Config.t)
  (io : Subscriptions.CreateIO.t) (input : CreateSubscriptionInput.t) (w : World.t)
  (plan : Plan.t) (e : Error) (w' : World.t) :
  Prisma.findFirst (fun p => String.eqb (Plan.id p) (CreateSubscriptionInput.planId input))
    (Db.plans (World.db w)) = Some plan ->
  Plan.isActive plan = true ->
  Subscriptions.createSubscription env io input w = (inl e, w') ->
  Db.subscriptions (World.db w')
  = Db.subscriptions (World.db w) ++ [pendingSubscription io input]
  /\ World.payments w' = World.payments w
  /\ Db.plans (World.db w') = Db.plans (World.db w).
Proof.
  intros Hf Ha. unfold Subscriptions.createSubscription. rewrite Hf, Ha. simpl negb.
  cbv iota. fold (pendingSubscription io input).
  destruct (PaymentService.createPayment _ _ _ _ _ _ _ _) as [[e'|payment] w2] eqn:Hc;
    [|discriminate].
  intros [= <- <-].
  destruct (createPayment_failure_aux _ _ _ _ _ _ _ _ _ _ Hc) as [Hdb _].
  unfold World.payments. rewrite Hdb. simpl. now destruct (World.db w).
Qed.

Lemma findSubscriptionWithPlan_new (d : Db.t) (s : Subscription.t) (plan : Plan.t) :
  Subscription.id s ∉ Subscription.id <$> Db.subscriptions d ->
  Prisma.findFirst (fun p => String.eqb (Plan.id p) (Subscription.planId s)) (Db.plans d)
  = Some plan ->
  PaymentService.findSubscriptionWithPlan (Subscription.id s)
    (Db.withSubscriptions (Prisma.create s (Db.subscriptions d)) d)
  = Some (s, Some plan).
Proof.
  intros Hfresh Hp. unfold PaymentService.findSubscriptionWithPlan, Prisma.create.
  simpl Db.subscriptions. rewrite findFirst_app_None.
  - simpl. rewrite String.eqb_refl. simpl Db.plans. now rewrite Hp.
  - apply findFirst_None, Forall_forall. intros x Hx.
    apply String.eqb_neq. intros E. apply Hfresh. rewrite <- E.
    now apply list_elem_of_fmap_2.
Qed.

(** X13.  What a successful [createSubscription] stores and returns, the
    two identifiers minted being fresh: the subscription is appended,
    PENDING, without dates and with [autoRenew] false unless asked for; one
    payment is appended, PENDING, for that subscription, for the price and
    in the currency of the plan, through the gateway asked for or
    [zarinpal]; and the summary returned describes that payment. *)
Theorem createSubscription_success (env : Config.t) (io : Subscriptions.CreateIO.t)
  (input : CreateSubscriptionInput.t) (w : World.t)
  (subscription : Subscription.t) (plan : Plan.t) (payment : PaymentSummary.t)
  (w' : World.t) :
  Subscriptions.createSubscription env io input w
  = (inr (subscription, plan, payment), w') ->
  Subscriptions.CreateIO.newSubscriptionId io
    ∉ Subscription.id <$> Db.subscriptions (World.db w) ->
  PaymentService.CreateIO.newId (Subscriptions.CreateIO.payment io)
    ∉ Payment.id <$> World.payments w ->
  subscription = pendingSubscription io input
  /\ Db.subscriptions (World.db w') = Db.subscriptions (World.db w) ++ [subscription]
  /\ Plan.id plan = CreateSubscriptionInput.planId input
  /\ Plan.isActive plan = true
  /\ exists row,
       World.payments w' = World.payments w ++ [row]
       /\ Payment.status row = PaymentStatus.PENDING
       /\ Payment.subscriptionId row = Subscription.id subscription
       /\ Payment.amount row = Plan.price plan
       /\ Payment.currency row = Plan.currency plan
       /\ Payment.gateway row
          = Js.orElse (CreateSubscriptionInput.gateway input) "zarinpal"
       /\ payment = Subscriptions.summary row.
Proof.
  unfold Subscriptions.createSubscription.
  destruct (Prisma.findFirst _ (Db.plans (World.db w))) as [plan0|] eqn:Hf;
    [|discriminate].
  destruct (Plan.isActive plan0) eqn:Ha; simpl negb; cbv iota; [|discriminate].
  fold (pendingSubscription io input).
  set (w1 := World.withDb _ w).
  destruct (PaymentService.createPayment _ _ _ _ _ _ _ w1) as [[e'|p] w2] eqn:Hc;
    [discriminate|].
  intros [= <- <- <- <-] Hs Hp.
  destruct (createPayment_rows _ _ _ _ _ _ _ _ _ _ Hc Hp)
    as (Hrows & Hdb & plan1 & a & resp & (sub1 & Hsub) & _ & _ & _ & Hrow).
  assert (Hsub' : PaymentService.findSubscriptionWithPlan
                    (Subscription.id (pendingSubscription io input)) (World.db w1)
                  = Some (pendingSubscription io input, Some plan0)).
  { apply findSubscriptionWithPlan_new; [exact Hs|exact Hf]. }
  rewrite Hsub' in Hsub. injection Hsub as _ <-.
  destruct (findFirst_elem _ _ _ Hf) as [_ Hid]. apply String.eqb_eq in Hid.
  split; [reflexivity|]. split.
  { transitivity (Db.subscriptions (Db.withPayments (World.payments w1) (World.db w2)));
      [reflexivity|]. now rewrite Hdb. }
  split; [exact Hid|]. split; [exact Ha|].
  exists (PaymentService.setNotificationSent p). split; [exact Hrows|].
  rewrite Hrow. repeat split.
Qed.

Lemma update_idempotent {A} (f : A -> bool) (data : A -> A) (rows : list A)
  (u : A) (rows' : list A) :
  (forall x, f (data x) = f x) ->
  (forall x, data (data x) = data x) ->
  Prisma.update f data rows = Some (u, rows') ->
  Prisma.update f data rows' = Some (u, rows').
Proof.
  intros Hf Hd Hu.
  destruct (update_Some _ _ _ _ _ Hu) as (pre & post & r & -> & -> & -> & Hpre & Hr).
  rewrite (update_split f data pre post (data r) Hpre); [now rewrite Hd|].
  now rewrite Hf.
Qed.

(** X14.  Cancelling is idempotent: a second [cancelSubscription] of the
    same identifier returns what the first returned and leaves the database
    as the first left it, whether the subscription exists or not. *)
Theorem cancelSubscription_idempotent (id : string) (d : Db.t) :
  SubscriptionService.cancelSubscription id
    (snd (SubscriptionService.cancelSubscription id d))
  = SubscriptionService.cancelSubscription id d.
Proof.
  unfold SubscriptionService.cancelSubscription.
  destruct (Prisma.findFirst _ (Db.subscriptions d)) as [s|] eqn:Hf.
  - destruct (updateSubscription_found id SubscriptionService.setCancelled d s Hf eq_refl)
      as (rows' & Hu & Hupd & Hf').
    rewrite Hu. simpl snd. simpl Db.subscriptions. rewrite Hf'.
    unfold SubscriptionService.updateSubscription. simpl Db.subscriptions.
    rewrite (update_idempotent (SubscriptionService.hasId id)
               SubscriptionService.setCancelled _ _ _
               (fun _ => eq_refl) (fun _ => eq_refl) Hupd).
    reflexivity.
  - simpl. now rewrite Hf.
Qed.

Lemma findFirst_exists {A} (f : A -> bool) (rows : list A) (x : A) :
  x ∈ rows -> f x = true -> exists r, Prisma.findFirst f rows = Some r /\ f r = true.
Proof.
  intros Hx Hf. destruct (Prisma.findFirst f rows) as [r|] eqn:E.
  - exists r. split; [reflexivity|]. now destruct (findFirst_elem _ _ _ E).
  - apply findFirst_None in E.
    rewrite (proj1 (Forall_forall _ _) E x Hx) in Hf. discriminate Hf.
Qed.

(** X15.  A cancelled subscription is no longer the user's active one,
    whatever its end date: after [cancelSubscription], no call of
    [getActiveSubscription] returns the subscription that was cancelled. *)
Theorem cancelled_is_not_active (id : string) (d : Db.t) (s : Subscription.t)
  (now : Z) (userId : string) (r : Subscription.t) :
  uniqueSubscriptionIds d ->
  Prisma.findFirst (SubscriptionService.hasId id) (Db.subscriptions d) = Some s ->
  SubscriptionService.getActiveSubscription now userId
    (snd (SubscriptionService.cancelSubscription id d)) = Some r ->
  Subscription.id r <> id.
Proof.
  intros Hu Hf. unfold SubscriptionService.cancelSubscription. rewrite Hf.
  destruct (findFirst_Some _ _ _ Hf) as (pre & post & Hrows & Hpre & Hs).
  unfold SubscriptionService.updateSubscription. rewrite Hrows.
  rewrite (update_split _ SubscriptionService.setCancelled pre post s Hpre Hs).
  simpl snd. unfold SubscriptionService.getActiveSubscription. simpl Db.subscriptions.
  intros Hr Hid. destruct (findFirst_elem _ _ _ Hr) as [Hin Hact].
  unfold uniqueSubscriptionIds in Hu. rewrite Hrows, fmap_app, fmap_cons in Hu.
  apply NoDup_app in Hu as (_ & Hdis & Hpost). apply NoDup_cons in Hpost as [Hnot _].
  unfold SubscriptionService.hasId in Hs. apply String.eqb_eq in Hs.
  apply elem_of_app in Hin as [Hin|Hin].
  - apply (Hdis (Subscription.id r)); [now apply list_elem_of_fmap_2|].
    rewrite Hid, <- Hs. apply elem_of_cons. now left.
  - apply elem_of_cons in Hin as [->|Hin].
    + simpl in Hact. rewrite andb_false_r in Hact. discriminate Hact.
    + apply Hnot. rewrite Hs, <- Hid. now apply list_elem_of_fmap_2.
Qed.

(** X16.  After an activation, the user has an active subscription until
    the end date: at every clock reading up to the stored [endDate] (the
    reading of the activation moved by the plan's duration in calendar
    days of the host's local time), [getActiveSubscription] returns an
    ACTIVE subscription of that user that has not ended. *)
Theorem activated_is_active (env : Config.t) (io : SubscriptionService.ActivateIO.t)
  (id : string) (userEmail userPhone : option string) (d : Db.t)
  (s : Subscription.t) (plan : Plan.t) (now : Z) :
  PaymentService.findSubscriptionWithPlan id d = Some (s, Some plan) ->
  Z.abs (JsDate.UTC (Config.LocalTZA env)
           (JsDate.LocalTime (Config.LocalTZA env)
              (SubscriptionService.ActivateIO.endNow io)
            + Plan.duration plan * JsDate.msPerDay))
  <= 8640000000000000 ->
  now <= JsDate.UTC (Config.LocalTZA env)
           (JsDate.LocalTime (Config.LocalTZA env)
              (SubscriptionService.ActivateIO.endNow io)
            + Plan.duration plan * JsDate.msPerDay) ->
  exists r endDate,
    SubscriptionService.getActiveSubscription now (Subscription.userId s)
      (snd (SubscriptionService.activateSubscription env io id userEmail userPhone d))
    = Some r
    /\ Subscription.userId r = Subscription.userId s
    /\ Subscription.status r = SubscriptionStatus.ACTIVE
    /\ Subscription.endDate r = Some endDate
    /\ now <= endDate.
Proof.
  intros Hf Hr Hnow. unfold SubscriptionService.activateSubscription.
  rewrite Hf, setDate_getDate. unfold JsDate.TimeClip.
  apply Z.leb_le in Hr. rewrite Hr.
  apply findSubscriptionWithPlan_Some in Hf.
  set (data := SubscriptionService.setActive _ _).
  destruct (updateSubscription_found id data d s Hf eq_refl) as (rows' & Hu & _ & Hf').
  rewrite Hu. simpl snd. unfold SubscriptionService.getActiveSubscription.
  simpl Db.subscriptions.
  destruct (findFirst_elem _ _ _ Hf') as [Hin _].
  destruct (findFirst_exists
              (fun s0 => String.eqb (Subscription.userId s0) (Subscription.userId s)
                         && bool_decide (Subscription.status s0 = SubscriptionStatus.ACTIVE)
                         && match Subscription.endDate s0 with
                            | Some e => now <=? e
                            | None => false
                            end) rows' (data s) Hin) as (r & Hr1 & Hr2).
  { simpl. rewrite String.eqb_refl. simpl. now apply Z.leb_le. }
  rewrite Hr1. rewrite !andb_true_iff in Hr2. destruct Hr2 as [[H1 H2] H3].
  apply String.eqb_eq in H1. apply bool_decide_eq_true_1 in H2.
  destruct (Subscription.endDate r) as [e|] eqn:He; [|discriminate H3].
  exists r, e. apply Z.leb_le in H3.
  split; [reflexivity|]. split; [exact H1|]. split; [exact H2|].
  split; [exact He|exact H3].
Qed.

(** ** Routes *)

Lemma verifyPayment_returns_completed (io : PaymentService.VerifyIO.t)
  (authority : string) (status : option string) (w : World.t)
  (p : Payment.t) (w' : World.t) :
  PaymentService.verifyPayment io authority status w = (inr p, w') ->
  Payment.status p = PaymentStatus.COMPLETED.
Proof.
  unfold PaymentService.verifyPayment.
  destruct (Prisma.findFirst _ (World.payments w)) as [p0|]; [|discriminate].
  destruct (PaymentService.isFailureStatus status).
  { destruct (PaymentService.updatePayment _ _ w) as [[e|u] w1]; discriminate. }
  destruct (bool_decide _) eqn:Hc.
  { intros [= <- _]. now apply bool_decide_eq_true_1 in Hc. }
  destruct (Registry.getPaymentGateway _) as [e|g]; [discriminate|].
  destruct (PaymentService.callVerify _ _ _ _) as [[e|resp] w1].
  { destruct (PaymentService.updatePayment _ _ w1) as [[e'|u] w2]; discriminate. }
  unfold PaymentService.updatePayment.
  destruct (Prisma.update _ _ _) as [[u rows]|] eqn:Hu; [|discriminate].
  intros [= <- _].
  destruct (update_Some _ _ _ _ _ Hu) as (pre & post & r & _ & _ & -> & _).
  reflexivity.
Qed.

Lemma verifyPayment_other_tables (io : PaymentService.VerifyIO.t)
  (authority : string) (status : option string) (w : World.t) :
  Db.subscriptions (World.db (snd (PaymentService.verifyPayment io authority status w)))
  = Db.subscriptions (World.db w)
  /\ Db.plans (World.db (snd (PaymentService.verifyPayment io authority status w)))
     = Db.plans (World.db w).
Proof.
  destruct (verifyPayment_frame_aux io authority status w) as [H _].
  rewrite <- H. now split.
Qed.

Lemma activateSubscription_error_unchanged (env : Config.t)
  (io : SubscriptionService.ActivateIO.t) (subscriptionId : string)
  (userEmail userPhone : option string) (d : Db.t) (e : Error) (d' : Db.t) :
  SubscriptionService.activateSubscription env io subscriptionId userEmail userPhone d
  = (inl e, d') ->
  d' = d.
Proof.
  unfold SubscriptionService.activateSubscription.
  destruct (PaymentService.findSubscriptionWithPlan subscriptionId d) as [[s [plan|]]|].
  - destruct (JsDate.setDate _ _ _) as [t|].
    + unfold SubscriptionService.updateSubscription.
      destruct (Prisma.update _ _ _) as [[u rows]|].
      * discriminate.
      * intros [= _ <-]. reflexivity.
    + intros [= _ <-]. reflexivity.
  - intros [= _ <-]. reflexivity.
  - intros [= _ <-]. reflexivity.
Qed.

(** What the route does once the verification has returned a payment. *)
Lemma verify_after_payment (env : Config.t) (io : Routes.VerifyIO.t)
  (authority : string) (status : option string) (w : World.t)
  (p : Payment.t) (w1 : World.t) (s : Subscription.t) (plan : Plan.t) :
  PaymentService.verifyPayment (Routes.VerifyIO.verify io) authority status w
  = (inr p, w1) ->
  PaymentService.findSubscriptionWithPlan (Payment.subscriptionId p) (World.db w)
  = Some (s, Some plan) ->
  Z.abs (JsDate.UTC (Config.LocalTZA env)
           (JsDate.LocalTime (Config.LocalTZA env)
              (SubscriptionService.ActivateIO.endNow (Routes.VerifyIO.activate io))
            + Plan.duration plan * JsDate.msPerDay)) <= 8640000000000000 ->
  exists d2,
    Routes.verify env io authority status w
    = (Routes.Ok
         (Routes.VerifyResponse.mk true (Payment.id p) (Payment.amount p)
            (Payment.currency p) PaymentStatus.COMPLETED (Payment.paidAt p)
            (Payment.gatewayTxId p) (Payment.subscriptionId p)),
       World.withDb d2 w1)
    /\ Db.withSubscriptions (Db.subscriptions (World.db w1)) d2 = World.db w1
    /\ Prisma.findFirst (SubscriptionService.hasId (Payment.subscriptionId p))
         (Db.subscriptions d2)
       = Some (SubscriptionService.setActive
                 (SubscriptionService.ActivateIO.startNow (Routes.VerifyIO.activate io))
                 (JsDate.UTC (Config.LocalTZA env)
                    (JsDate.LocalTime (Config.LocalTZA env)
                       (SubscriptionService.ActivateIO.endNow (Routes.VerifyIO.activate io))
                     + Plan.duration plan * JsDate.msPerDay)) s).
Proof.
  intros Hv Hs Hr. unfold Routes.verify. rewrite Hv.
  pose proof (verifyPayment_returns_completed _ _ _ _ _ _ Hv) as Hc.
  rewrite Hc. rewrite bool_decide_eq_true_2 by reflexivity.
  destruct (verifyPayment_other_tables (Routes.VerifyIO.verify io) authority status w)
    as [Hsub Hplans].
  rewrite Hv in Hsub, Hplans. simpl snd in Hsub, Hplans.
  assert (Hs1 : PaymentService.findSubscriptionWithPlan (Payment.subscriptionId p)
                  (World.db w1) = Some (s, Some plan)).
  { unfold PaymentService.findSubscriptionWithPlan in *. now rewrite Hsub, Hplans. }
  unfold SubscriptionService.activateSubscription.
  rewrite Hs1, setDate_getDate. unfold JsDate.TimeClip.
  apply Z.leb_le in Hr. rewrite Hr.
  apply findSubscriptionWithPlan_Some in Hs1.
  set (data := SubscriptionService.setActive _ _).
  destruct (updateSubscription_found (Payment.subscriptionId p) data (World.db w1) s
              Hs1 eq_refl) as (rows' & Hu & _ & Hf').
  rewrite Hu. eexists. split; [reflexivity|]. split; [|exact Hf'].
  simpl. now destruct (World.db w1).
Qed.

(** X17.  The verification route, end to end: for a payment that is not
    yet COMPLETED, whose gateway resolves to an adapter that accepts, and
    whose subscription exists, the answer reports success with the payment
    COMPLETED, the payment row is stored COMPLETED, and the subscription
    row is stored ACTIVE from the clock reading of the activation until the
    plan's duration in calendar days of the host's local time later. *)
Theorem verify_route_activates (env : Config.t) (io : Routes.VerifyIO.t)
  (authority : string) (status : option string) (w : World.t)
  (p : Payment.t) (a : Adapter) (response : VerifyPaymentResponse.t)
  (s : Subscription.t) (plan : Plan.t) :
  PaymentService.uniqueIds w ->
  PaymentService.getPaymentByAuthority authority w = Some p ->
  Payment.status p <> PaymentStatus.COMPLETED ->
  PaymentService.isFailureStatus status = false ->
  Registry.getPaymentGateway (Payment.gateway p) = inr (Registry.Instance a) ->
  adapterVerifyPayment a (PaymentService.VerifyIO.provider (Routes.VerifyIO.verify io))
    (VerifyPaymentRequest.mk (default EmptyString (Payment.authority p))
       (Some (Payment.amount p))) = inr response ->
  PaymentService.findSubscriptionWithPlan (Payment.subscriptionId p) (World.db w)
  = Some (s, Some plan) ->
  Z.abs (JsDate.UTC (Config.LocalTZA env)
           (JsDate.LocalTime (Config.LocalTZA env)
              (SubscriptionService.ActivateIO.endNow (Routes.VerifyIO.activate io))
            + Plan.duration plan * JsDate.msPerDay)) <= 8640000000000000 ->
  exists body w',
    Routes.verify env io authority status w = (Routes.Ok body, w')
    /\ Routes.VerifyResponse.success body = true
    /\ Routes.VerifyResponse.status body = PaymentStatus.COMPLETED
    /\ Routes.VerifyResponse.id body = Payment.id p
    /\ Routes.VerifyResponse.subscriptionId body = Payment.subscriptionId p
    /\ PaymentService.statusOf (Payment.id p) w' = Some PaymentStatus.COMPLETED
    /\ Prisma.findFirst (SubscriptionService.hasId (Payment.subscriptionId p))
         (Db.subscriptions (World.db w'))
       = Some (Subscription.mk (Subscription.id s) (Subscription.userId s)
                 (Subscription.planId s) SubscriptionStatus.ACTIVE
                 (Subscription.autoRenew s)
                 (Some (SubscriptionService.ActivateIO.startNow
                          (Routes.VerifyIO.activate io)))
                 (Some (JsDate.UTC (Config.LocalTZA env)
                          (JsDate.LocalTime (Config.LocalTZA env)
                             (SubscriptionService.ActivateIO.endNow
                                (Routes.VerifyIO.activate io))
                           + Plan.duration plan * JsDate.msPerDay)))).
Proof.
  intros Hu Hf Hnc Hs Hg Ha Hsub Hr.
  unfold PaymentService.getPaymentByAuthority in Hf.
  set (vio := Routes.VerifyIO.verify io) in *.
  set (data := PaymentService.setCompleted response (PaymentService.VerifyIO.paidAtNow vio)
                 (PaymentService.VerifyIO.verifiedAtNow vio) (Payment.metadata p)).
  set (req := VerifyPaymentRequest.mk _ _) in Ha.
  assert (Hv : exists w1,
             PaymentService.verifyPayment vio authority status w = (inr (data p), w1)
             /\ PaymentService.statusOf (Payment.id p) w1 = Some PaymentStatus.COMPLETED).
  { unfold PaymentService.verifyPayment. rewrite Hf, Hs.
    rewrite bool_decide_eq_false_2 by exact Hnc. rewrite Hg. simpl.
    fold req. rewrite Ha.
    destruct (updatePayment_found authority data (World.logCall (VerifyCall a req) w) p
                Hu Hf) as (pre & post & Hrows & _ & Hid & Hupd).
    fold data. rewrite Hupd. eexists. split; [reflexivity|].
    unfold PaymentService.statusOf. rewrite payments_withPayments.
    rewrite (findFirst_split _ pre post _ Hid); [reflexivity|].
    apply (hasId_self (data p)). }
  destruct Hv as (w1 & Hv & Hst).
  destruct (verify_after_payment env io authority status w (data p) w1 s plan Hv Hsub Hr)
    as (d2 & Hroute & Hd2 & Hact).
  eexists _, _. split; [exact Hroute|].
  do 4 (split; [reflexivity|]).
  split; [|exact Hact].
  unfold PaymentService.statusOf in *.
  assert (Hp : World.payments (World.withDb d2 w1) = World.payments w1).
  { unfold World.payments. simpl. rewrite <- Hd2. reflexivity. }
  now rewrite Hp.
Qed.

(** X18.  The route activates on every call that finds the payment
    COMPLETED: verifying a COMPLETED payment again calls no adapter and
    leaves the payments as they are, yet stores the subscription ACTIVE
    with the dates of this call, in place of the dates it had. *)
Theorem verify_route_again_moves_dates (env : Config.t) (io : Routes.VerifyIO.t)
  (authority : string) (status : option string) (w : World.t)
  (p : Payment.t) (s : Subscription.t) (plan : Plan.t) :
  PaymentService.getPaymentByAuthority authority w = Some p ->
  Payment.status p = PaymentStatus.COMPLETED ->
  PaymentService.isFailureStatus status = false ->
  PaymentService.findSubscriptionWithPlan (Payment.subscriptionId p) (World.db w)
  = Some (s, Some plan) ->
  Z.abs (JsDate.UTC (Config.LocalTZA env)
           (JsDate.LocalTime (Config.LocalTZA env)
              (SubscriptionService.ActivateIO.endNow (Routes.VerifyIO.activate io))
            + Plan.duration plan * JsDate.msPerDay)) <= 8640000000000000 ->
  exists body w',
    Routes.verify env io authority status w = (Routes.Ok body, w')
    /\ Routes.VerifyResponse.success body = true
    /\ World.gatewayCalls w' = World.gatewayCalls w
    /\ World.payments w' = World.payments w
    /\ Prisma.findFirst (SubscriptionService.hasId (Payment.subscriptionId p))
         (Db.subscriptions (World.db w'))
       = Some (Subscription.mk (Subscription.id s) (Subscription.userId s)
                 (Subscription.planId s) SubscriptionStatus.ACTIVE
                 (Subscription.autoRenew s)
                 (Some (SubscriptionService.ActivateIO.startNow
                          (Routes.VerifyIO.activate io)))
                 (Some (JsDate.UTC (Config.LocalTZA env)
                          (JsDate.LocalTime (Config.LocalTZA env)
                             (SubscriptionService.ActivateIO.endNow
                                (Routes.VerifyIO.activate io))
                           + Plan.duration plan * JsDate.msPerDay)))).
Proof.
  intros Hf Hc Hs Hsub Hr.
  pose proof (verifyPayment_completed (Routes.VerifyIO.verify io) authority status w p
                Hf Hs Hc) as Hv.
  destruct (verify_after_payment env io authority status w p w s plan Hv Hsub Hr)
    as (d2 & Hroute & Hd2 & Hact).
  eexists _, _. split; [exact Hroute|].
  split; [reflexivity|]. split; [reflexivity|]. split; [|exact Hact].
  unfold World.payments. simpl. rewrite <- Hd2. reflexivity.
Qed.

(** What the route answers: a 200 always reports success and a
    COMPLETED payment; and on a 400, whatever failed, no subscription row
    has been written. *)
Lemma verify_route_answers (env : Config.t) (io : Routes.VerifyIO.t)
  (authority : string) (status : option string) (w : World.t) :
  match Routes.verify env io authority status w with
  | (Routes.Ok body, _) =>
      Routes.VerifyResponse.success body = true
      /\ Routes.VerifyResponse.status body = PaymentStatus.COMPLETED
  | (Routes.BadRequest _, w') =>
      Db.subscriptions (World.db w') = Db.subscriptions (World.db w)
  end.
Proof.
  unfold Routes.verify.
  destruct (verifyPayment_other_tables (Routes.VerifyIO.verify io) authority status w)
    as [Hsub _].
  destruct (PaymentService.verifyPayment _ _ _ w) as [[e|p] w1] eqn:Hv; simpl snd in Hsub.
  - exact Hsub.
  - rewrite (verifyPayment_returns_completed _ _ _ _ _ _ Hv).
    rewrite bool_decide_eq_true_2 by reflexivity.
    destruct (SubscriptionService.activateSubscription _ _ _ _ _ _) as [[e|s] d2] eqn:Ha.
    + apply activateSubscription_error_unchanged in Ha. subst d2.
      simpl. exact Hsub.
    + now split.
Qed.

(** ** AuthService, continued *)

Section FindLatestFacts.

Context {A : Type}.
Implicit Types (rows : list A) (r : A).

Lemma findLatest_None (f : A -> bool) (key : A -> Z) rows :
  Prisma.findLatest f key rows = None <-> Forall (fun x => f x = false) rows.
Proof.
  induction rows as [|x rest IH]; simpl.
  - split; [constructor|reflexivity].
  - destruct (f x) eqn:Hx.
    + split.
      * destruct (Prisma.findLatest f key rest) as [b|]; [|discriminate].
        destruct (key x <? key b); discriminate.
      * intros H. inversion H; congruence.
    + rewrite IH. split; [now constructor|]. intros H. now inversion H.
Qed.

Lemma findLatest_greatest (f : A -> bool) (key : A -> Z) rows r :
  Prisma.findLatest f key rows = Some r ->
  Forall (fun x => f x = true -> key x <= key r) rows.
Proof.
  revert r. induction rows as [|x rest IH]; simpl; intros r H; [constructor|].
  destruct (f x) eqn:Hx.
  - destruct (Prisma.findLatest f key rest) as [b|] eqn:Hb.
    + specialize (IH b eq_refl).
      destruct (key x <? key b) eqn:Hk; injection H as <-.
      * apply Z.ltb_lt in Hk. constructor; [lia|exact IH].
      * apply Z.ltb_ge in Hk. constructor; [lia|].
        eapply Forall_impl; [exact IH|]. simpl. intros y Hy Hfy.
        specialize (Hy Hfy). lia.
    + injection H as <-. constructor; [lia|].
      apply findLatest_None in Hb.
      eapply Forall_impl; [exact Hb|]. simpl. intros y Hy Hfy. congruence.
  - constructor; [intros; congruence|now apply IH].
Qed.

(** The row a query returns is also what a stricter query returns, when
    that row passes the stricter filter. *)
Lemma findLatest_stronger (f g : A -> bool) (key : A -> Z) rows r :
  (forall x, g x = true -> f x = true) ->
  Prisma.findLatest f key rows = Some r ->
  g r = true ->
  Prisma.findLatest g key rows = Some r.
Proof.
  intros Hgf. revert r. induction rows as [|x rest IH]; simpl; intros r H Hr;
    [discriminate|].
  destruct (f x) eqn:Hx.
  - destruct (Prisma.findLatest f key rest) as [b|] eqn:Hb.
    + destruct (key x <? key b) eqn:Hk; injection H as <-.
      * rewrite (IH b eq_refl Hr). destruct (g x); [now rewrite Hk|reflexivity].
      * rewrite Hr.
        destruct (Prisma.findLatest g key rest) as [b'|] eqn:Hb'; [|reflexivity].
        destruct (findLatest_elem _ _ _ _ Hb') as [Hin Hg'].
        pose proof (findLatest_greatest _ _ _ _ Hb) as Hmax.
        pose proof (proj1 (Forall_forall _ _) Hmax b' Hin (Hgf _ Hg')) as Hle.
        apply Z.ltb_ge in Hk.
        now rewrite (proj2 (Z.ltb_ge (key x) (key b'))) by lia.
    + injection H as <-. rewrite Hr.
      apply findLatest_None in Hb.
      assert (Hn : Prisma.findLatest g key rest = None).
      { apply findLatest_None. eapply Forall_impl; [exact Hb|]. simpl.
        intros y Hy. destruct (g y) eqn:Hgy; [|reflexivity].
        rewrite (Hgf _ Hgy) in Hy. discriminate Hy. }
      now rewrite Hn.
  - destruct (g x) eqn:Hgx; [rewrite (Hgf _ Hgx) in Hx; discriminate Hx|].
    now apply IH.
Qed.

(** A rewriting of the rows that keeps the filter and the key keeps the
    answer of the query. *)
Lemma findLatest_fmap (f : A -> bool) (key : A -> Z) (h : A -> A) rows :
  Forall (fun x => f (h x) = f x /\ key (h x) = key x) rows ->
  Prisma.findLatest f key (h <$> rows) = h <$> Prisma.findLatest f key rows.
Proof.
  induction 1 as [|x rest [Hf Hk] Hrest IH]; [reflexivity|].
  rewrite fmap_cons. cbn [Prisma.findLatest]. rewrite IH, Hf.
  destruct (f x); [|reflexivity].
  destruct (Prisma.findLatest f key rest) as [b|] eqn:Hb; [|reflexivity].
  cbn [fmap option_fmap option_map]. rewrite Hk.
  assert (Hkb : key (h b) = key b).
  { destruct (findLatest_elem _ _ _ _ Hb) as [Hin _].
    exact (proj2 (proj1 (Forall_forall _ _) Hrest b Hin)). }
  rewrite Hkb. now destruct (key x <? key b).
Qed.

Lemma unique_key (ident : A -> string) rows (x y : A) :
  NoDup (ident <$> rows) -> x ∈ rows -> y ∈ rows -> ident x = ident y -> x = y.
Proof.
  induction rows as [|z rest IH]; simpl; intros Hnd Hx Hy Heq.
  - now apply elem_of_nil in Hx.
  - apply NoDup_cons in Hnd as [Hz Hnd].
    apply elem_of_cons in Hx as [->|Hx]; apply elem_of_cons in Hy as [->|Hy].
    + reflexivity.
    + exfalso. apply Hz. rewrite Heq. now apply list_elem_of_fmap_2.
    + exfalso. apply Hz. rewrite <- Heq. now apply list_elem_of_fmap_2.
    + now apply IH.
Qed.

(** An update through a unique key rewrites the rows under that key. *)
Lemma update_unique (ident : A -> string) (data : A -> A) rows r :
  NoDup (ident <$> rows) -> r ∈ rows ->
  Prisma.update (fun x => String.eqb (ident x) (ident r)) data rows
  = Some (data r,
          (fun x => if String.eqb (ident x) (ident r) then data x else x) <$> rows).
Proof.
  induction rows as [|z rest IH]; simpl; intros Hnd Hr.
  - now apply elem_of_nil in Hr.
  - apply NoDup_cons in Hnd as [Hz Hnd].
    destruct (String.eqb (ident z) (ident r)) eqn:Hzr.
    + apply String.eqb_eq in Hzr.
      assert (r = z) as ->.
      { apply elem_of_cons in Hr as [->|Hr]; [reflexivity|].
        exfalso. apply Hz. rewrite Hzr. now apply list_elem_of_fmap_2. }
      do 3 f_equal.
      clear IH Hr Hzr Hnd. induction rest as [|y rest IH]; [reflexivity|].
      simpl. destruct (String.eqb (ident y) (ident z)) eqn:Hyz.
      * exfalso. apply Hz. apply String.eqb_eq in Hyz. rewrite <- Hyz.
        apply elem_of_cons. now left.
      * f_equal. apply IH. intros Hin. apply Hz. apply elem_of_cons. now right.
    + apply elem_of_cons in Hr as [->|Hr].
      * rewrite String.eqb_refl in Hzr. discriminate Hzr.
      * now rewrite (IH Hnd Hr).
Qed.

End FindLatestFacts.

Lemma updateOtpCode_found (record : OtpCode.t) (data : OtpCode.t -> OtpCode.t) (d : Db.t) :
  record ∈ Db.otpCodes d ->
  exists rows',
    AuthService.updateOtpCode (OtpCode.id record) data d = inr (Db.withOtpCodes rows' d).
Proof.
  intros Hin. unfold AuthService.updateOtpCode.
  destruct (update_is_Some (fun r => String.eqb (OtpCode.id r) (OtpCode.id record)) data
              (Db.otpCodes d) record Hin (String.eqb_refl _)) as [[u rows'] ->].
  now exists rows'.
Qed.

Section OtpFacts.

Variable env : Config.t.
Variable sha256Hex : string -> string.

Implicit Types (st : AuthService.State).

(** X19.  [validateOtp] is [verifyOtp] without the login: on the same
    state and clock readings it never throws, it touches the OTP table
    only, it answers true exactly when [verifyOtp] succeeds, and it leaves
    the OTP table as [verifyOtp] does; when [verifyOtp] throws, which it
    does with 'OTP not found or expired' or 'Invalid OTP code', both leave
    the same state. *)
Theorem validateOtp_agrees_with_verifyOtp (queryNow usedNow : Z) (newUserId randomBytesHex
  newApiKeyId rawPhone code : string) st :
  exists b st1,
    Otp.validateOtp sha256Hex (Otp.ValidateIO.mk queryNow usedNow) rawPhone code st
    = (inr b, st1)
    /\ AuthService.rate st1 = AuthService.rate st
    /\ Db.withOtpCodes (Db.otpCodes (AuthService.db st)) (AuthService.db st1)
       = AuthService.db st
    /\ match AuthService.verifyOtp sha256Hex
               (AuthService.VerifyIO.mk queryNow usedNow newUserId randomBytesHex
                  newApiKeyId) rawPhone code st with
       | (inr _, st2) =>
           b = true
           /\ Db.otpCodes (AuthService.db st2) = Db.otpCodes (AuthService.db st1)
       | (inl e, st2) =>
           b = false /\ st2 = st1
           /\ (e = AuthService.otpNotFound \/ e = AuthService.invalidCode)
       end.
Proof.
  unfold Otp.validateOtp, AuthService.verifyOtp. simpl.
  destruct (Prisma.findLatest _ _ _) as [record|] eqn:Hf.
  - destruct (findLatest_elem _ _ _ _ Hf) as [Hin _].
    set (data := AuthService.setAttempt _ _).
    destruct (updateOtpCode_found record data (AuthService.db st) Hin) as (rows' & ->).
    destruct (String.eqb _ _) eqn:Hok; simpl.
    + eexists _, _. split; [reflexivity|]. split; [reflexivity|].
      split; [now destruct (AuthService.db st)|].
      destruct (AuthService.findOrCreateUser _ _ _) as [user d2] eqn:Hu.
      split; [reflexivity|].
      match goal with
      | |- Db.otpCodes (AuthService.db (AuthService.mkState _ ?d3)) = _ =>
          change (Db.otpCodes d3 = rows')
      end.
      pose proof (findOrCreateUser_phone
                    (AuthService.VerifyIO.mk queryNow usedNow newUserId randomBytesHex
                       newApiKeyId)
                    (AuthService.normalizePhone rawPhone)
                    (Db.withOtpCodes rows' (AuthService.db st))) as (_ & H & _).
      rewrite Hu in H. simpl in H. simpl. exact H.
    + eexists _, _. split; [reflexivity|]. split; [reflexivity|].
      split; [now destruct (AuthService.db st)|].
      split; [reflexivity|]. split; [reflexivity|]. now right.
  - eexists _, _. split; [reflexivity|]. split; [reflexivity|].
    split; [now destruct (AuthService.db st)|].
    split; [reflexivity|]. split; [reflexivity|]. now left.
Qed.

End OtpFacts.

Lemma isLive_later (phone : string) (now now' : Z) (r : OtpCode.t) :
  now <= now' ->
  AuthService.isLive phone now' r = true -> AuthService.isLive phone now r = true.
Proof.
  unfold AuthService.isLive. rewrite !andb_true_iff, !Z.ltb_lt.
  intros Hle [[H1 H2] H3]. repeat split; [exact H1|exact H2|lia].
Qed.

Lemma isLive_unused (phone : string) (now : Z) (r : OtpCode.t) :
  AuthService.isLive phone now r = true -> OtpCode.usedAt r = None.
Proof.
  unfold AuthService.isLive. rewrite !andb_true_iff.
  intros [[_ H] _]. now apply bool_decide_eq_true_1 in H.
Qed.

Lemma isLive_intro (phone : string) (now : Z) (r : OtpCode.t) :
  OtpCode.phone r = phone -> OtpCode.usedAt r = None -> now < OtpCode.expiresAt r ->
  AuthService.isLive phone now r = true.
Proof.
  intros H1 H2 H3. unfold AuthService.isLive. rewrite !andb_true_iff.
  repeat split.
  - now apply String.eqb_eq.
  - now apply bool_decide_eq_true_2.
  - now apply Z.ltb_lt.
Qed.

Section Guessing.

Variable sha256Hex : string -> string.

(** A refused guess is counted on the row in force and changes nothing
    else of it; the row stays in force. *)
Lemma verifyOtp_wrong_guess (io : AuthService.VerifyIO.t) (raw wrong : string)
  (st : AuthService.State) (record : OtpCode.t) :
  Otp.uniqueIds (AuthService.db st) ->
  Prisma.findLatest
    (AuthService.isLive (AuthService.normalizePhone raw) (AuthService.VerifyIO.queryNow io))
    OtpCode.createdAt (Db.otpCodes (AuthService.db st)) = Some record ->
  AuthService.hashCode sha256Hex wrong <> OtpCode.codeHash record ->
  let counted :=
    AuthService.setAttempt (OtpCode.attempts record + 1) None record in
  let h := fun x : OtpCode.t =>
    if String.eqb (OtpCode.id x) (OtpCode.id record)
    then AuthService.setAttempt (OtpCode.attempts record + 1) None x else x in
  AuthService.verifyOtp sha256Hex io raw wrong st
  = (inl AuthService.invalidCode,
     AuthService.mkState (AuthService.rate st)
       (Db.withOtpCodes (h <$> Db.otpCodes (AuthService.db st)) (AuthService.db st)))
  /\ h record = counted
  /\ Forall (fun x => forall phone now,
               AuthService.isLive phone now (h x) = AuthService.isLive phone now x
               /\ OtpCode.createdAt (h x) = OtpCode.createdAt x)
       (Db.otpCodes (AuthService.db st)).
Proof.
  intros Hnd Hf Hw counted h.
  destruct (findLatest_elem _ _ _ _ Hf) as [Hin Hlive].
  pose proof (isLive_unused _ _ _ Hlive) as Hun.
  split; [|split].
  - unfold AuthService.verifyOtp. rewrite Hf.
    assert (Hno : String.eqb (OtpCode.codeHash record)
                    (AuthService.hashCode sha256Hex wrong) = false).
    { apply String.eqb_neq. congruence. }
    rewrite Hno. unfold AuthService.updateOtpCode.
    rewrite (update_unique OtpCode.id _ _ record Hnd Hin). rewrite Hun. reflexivity.
  - unfold h. now rewrite String.eqb_refl.
  - apply Forall_forall. intros x Hx phone now. unfold h.
    destruct (String.eqb (OtpCode.id x) (OtpCode.id record)) eqn:Hid; [|now split].
    apply String.eqb_eq in Hid.
    assert (x = record) as -> by (eapply (unique_key OtpCode.id); eassumption).
    split; [|reflexivity].
    unfold AuthService.isLive. simpl. now rewrite Hun.
Qed.

(** X20.  Refused guesses never lock a code out: [verifyOtp] with a wrong
    code fails with 'Invalid OTP code', counts the attempt on the row in
    force and leaves it unused; the count is never compared with anything,
    so the right code is still accepted by any later call before the
    expiry. *)
Theorem wrong_guess_does_not_lock (io io' : AuthService.VerifyIO.t)
  (raw wrong code : string) (st : AuthService.State) (record : OtpCode.t) :
  Otp.uniqueIds (AuthService.db st) ->
  Prisma.findLatest
    (AuthService.isLive (AuthService.normalizePhone raw) (AuthService.VerifyIO.queryNow io))
    OtpCode.createdAt (Db.otpCodes (AuthService.db st)) = Some record ->
  AuthService.hashCode sha256Hex wrong <> OtpCode.codeHash record ->
  AuthService.hashCode sha256Hex code = OtpCode.codeHash record ->
  AuthService.VerifyIO.queryNow io <= AuthService.VerifyIO.queryNow io' ->
  AuthService.VerifyIO.queryNow io' < OtpCode.expiresAt record ->
  exists st1,
    AuthService.verifyOtp sha256Hex io raw wrong st = (inl AuthService.invalidCode, st1)
    /\ Prisma.findLatest
         (AuthService.isLive (AuthService.normalizePhone raw)
            (AuthService.VerifyIO.queryNow io'))
         OtpCode.createdAt (Db.otpCodes (AuthService.db st1))
       = Some (OtpCode.mk (OtpCode.id record) (OtpCode.phone record)
                 (OtpCode.codeHash record) (OtpCode.expiresAt record)
                 (OtpCode.attempts record + 1) None (OtpCode.createdAt record))
    /\ exists user st2,
         AuthService.verifyOtp sha256Hex io' raw code st1
         = (inr (user, AuthService.VerifyIO.randomBytesHex io'), st2).
Proof.
  intros Hnd Hf Hw Hc Hle Hexp.
  destruct (verifyOtp_wrong_guess io raw wrong st record Hnd Hf Hw) as (Hv & _ & Hall).
  set (h := fun x : OtpCode.t =>
              if String.eqb (OtpCode.id x) (OtpCode.id record)
              then AuthService.setAttempt (OtpCode.attempts record + 1) None x else x)
    in *.
  assert (Hh : h record
               = AuthService.setAttempt (OtpCode.attempts record + 1) None record).
  { unfold h. now rewrite String.eqb_refl. }
  set (phone := AuthService.normalizePhone raw) in *.
  destruct (findLatest_elem _ _ _ _ Hf) as [Hin Hlive].
  assert (Hf' : Prisma.findLatest (AuthService.isLive phone (AuthService.VerifyIO.queryNow io'))
                  OtpCode.createdAt (h <$> Db.otpCodes (AuthService.db st))
                = Some (h record)).
  { rewrite findLatest_fmap.
    - rewrite (findLatest_stronger _ _ _ _ record
                 (fun x => isLive_later phone _ _ x Hle) Hf); [reflexivity|].
      apply isLive_intro; [now apply (isLive_phone _ _ _ Hlive)| |exact Hexp].
      exact (isLive_unused _ _ _ Hlive).
    - eapply Forall_impl; [exact Hall|]. simpl. intros x Hx. apply Hx. }
  eexists. split; [exact Hv|]. simpl AuthService.db. simpl Db.otpCodes.
  split; [rewrite Hf', Hh; reflexivity|].
  unfold AuthService.verifyOtp. fold phone. simpl AuthService.db. simpl Db.otpCodes.
  rewrite Hf', Hh.
  cbn [OtpCode.codeHash OtpCode.id OtpCode.attempts AuthService.setAttempt].
  rewrite Hc, String.eqb_refl.
  set (data := AuthService.setAttempt _ _).
  set (d := Db.withOtpCodes _ _).
  assert (Hin' : AuthService.setAttempt (OtpCode.attempts record + 1) None record
                 ∈ Db.otpCodes d).
  { unfold d. simpl. rewrite <- Hh. now apply list_elem_of_fmap_2. }
  destruct (updateOtpCode_found _ data d Hin') as (rows' & Hu).
  simpl OtpCode.id in Hu. rewrite Hu. simpl negb. cbv iota.
  destruct (AuthService.findOrCreateUser io' phone _) as [user d2].
  eexists _, _. reflexivity.
Qed.

(** X21.  A code is not accepted at or after its expiry: when a phone
    number has no other row in force, its requested code is refused with
    'OTP not found or expired' by every [verifyOtp] whose clock reads
    [OTP_EXP_MIN] minutes or more past the request, whatever the code
    given, and nothing is written. *)
Theorem expired_code_is_refused (env : Config.t) (io : AuthService.RequestIO.t)
  (vio : AuthService.VerifyIO.t) (raw code : string) (st st1 : AuthService.State) :
  AuthService.requestOtp env sha256Hex io raw st = (inr tt, st1) ->
  Forall (fun r => AuthService.isLive (AuthService.normalizePhone raw)
                     (AuthService.VerifyIO.queryNow vio) r = false)
    (Db.otpCodes (AuthService.db st)) ->
  AuthService.RequestIO.expiryNow io + Config.OTP_EXP_MIN env * 60000
  <= AuthService.VerifyIO.queryNow vio ->
  AuthService.verifyOtp sha256Hex vio raw code st1 = (inl AuthService.otpNotFound, st1).
Proof.
  intros Hr Hnone Hexp. unfold AuthService.requestOtp in Hr.
  destruct (AuthService.checkRateLimit _ _ _ _) as [e|rate']; [discriminate|].
  destruct (AuthService.randCode _ _) as [e|generated]; [discriminate|].
  injection Hr as <-.
  unfold AuthService.verifyOtp. simpl AuthService.db.
  unfold AuthService.createOtpCode, Prisma.create. simpl Db.otpCodes.
  rewrite findLatest_app_other.
  - now rewrite (proj2 (findLatest_None _ _ _) Hnone).
  - unfold AuthService.isLive. simpl.
    rewrite (proj2 (Z.ltb_ge _ _) Hexp). now rewrite andb_false_r.
Qed.

End Guessing.

Lemma rateKey_inj (p q : string) : AuthService.rateKey p = AuthService.rateKey q -> p = q.
Proof.
  unfold AuthService.rateKey.
  change ("otp:" +:+ p) with (String "o" (String "t" (String "p" (String ":" p)))).
  change ("otp:" +:+ q) with (String "o" (String "t" (String "p" (String ":" q)))).
  now intros [= H].
Qed.

Section RateLimiterFacts.

Variable env : Config.t.
Variable sha256Hex : string -> string.

Lemma requestOtp_outcome (io : AuthService.RequestIO.t) (raw : string)
  (st1 st2 : AuthService.State) :
  AuthService.rate st1 !! AuthService.rateKey (AuthService.normalizePhone raw)
  = AuthService.rate st2 !! AuthService.rateKey (AuthService.normalizePhone raw) ->
  fst (AuthService.requestOtp env sha256Hex io raw st1)
  = fst (AuthService.requestOtp env sha256Hex io raw st2).
Proof.
  intros H. unfold AuthService.requestOtp, AuthService.checkRateLimit. rewrite H.
  destruct (AuthService.randCode env (AuthService.RequestIO.randomInt io)) as [e|code].
  - destruct (AuthService.rate st2 !! _) as [entry|]; [|reflexivity].
    destruct (_ <? _); [reflexivity|].
    destruct (_ <=? _); reflexivity.
  - destruct (AuthService.rate st2 !! _) as [entry|]; [|reflexivity].
    destruct (_ <? _); [reflexivity|].
    destruct (_ <=? _); reflexivity.
Qed.

Lemma requestOtp_other_key (io : AuthService.RequestIO.t) (raw : string)
  (st : AuthService.State) (key : string) :
  key <> AuthService.rateKey (AuthService.normalizePhone raw) ->
  AuthService.rate (snd (AuthService.requestOtp env sha256Hex io raw st)) !! key
  = AuthService.rate st !! key.
Proof.
  intros Hk. unfold AuthService.requestOtp, AuthService.checkRateLimit.
  destruct (AuthService.randCode env (AuthService.RequestIO.randomInt io)) as [e|code];
    (destruct (AuthService.rate st !! AuthService.rateKey _) as [entry|];
     [destruct (_ <? _); [simpl; now rewrite lookup_insert_ne|];
      destruct (_ <=? _); [reflexivity|simpl; now rewrite lookup_insert_ne]
     |simpl; now rewrite lookup_insert_ne]).
Qed.

(** X22.  The allowance is per normalised phone number: a request for one
    number leaves the counter of every other number as it is, so the
    outcome of a request for another number is the same whether or not the
    first one took place. *)
Theorem rate_limit_is_per_phone (io io' : AuthService.RequestIO.t) (raw other : string)
  (st : AuthService.State) :
  AuthService.normalizePhone raw <> AuthService.normalizePhone other ->
  AuthService.rate (snd (AuthService.requestOtp env sha256Hex io raw st))
    !! AuthService.rateKey (AuthService.normalizePhone other)
  = AuthService.rate st !! AuthService.rateKey (AuthService.normalizePhone other)
  /\ fst (AuthService.requestOtp env sha256Hex io' other
            (snd (AuthService.requestOtp env sha256Hex io raw st)))
     = fst (AuthService.requestOtp env sha256Hex io' other st).
Proof.
  intros Hne.
  assert (Hk : AuthService.rateKey (AuthService.normalizePhone other)
               <> AuthService.rateKey (AuthService.normalizePhone raw)).
  { intros H. apply rateKey_inj in H. congruence. }
  pose proof (requestOtp_other_key io raw st _ Hk) as H.
  split; [exact H|]. now apply requestOtp_outcome.
Qed.

(** X23.  The counters stay within bounds: if every counter of the rate
    map lies between 1 and the configured maximum (or 1, when the maximum
    is lower), the same holds after any [requestOtp], accepted or refused. *)
Theorem rate_counters_stay_bounded (io : AuthService.RequestIO.t) (raw : string)
  (st : AuthService.State) :
  Otp.rateBounded env (AuthService.rate st) ->
  Otp.rateBounded env
    (AuthService.rate (snd (AuthService.requestOtp env sha256Hex io raw st))).
Proof.
  intros Hb. unfold AuthService.requestOtp, AuthService.checkRateLimit.
  assert (Hrate : forall r d,
             AuthService.rate
               (snd (match AuthService.randCode env (AuthService.RequestIO.randomInt io)
                     with
                     | inl e => (inl e, AuthService.mkState r (AuthService.db st))
                     | inr code => (inr tt, AuthService.mkState r (d code))
                     end : Result unit * AuthService.State)) = r).
  { intros r d. now destruct (AuthService.randCode _ _). }
  destruct (AuthService.rate st !! AuthService.rateKey _) as [entry|] eqn:Hk.
  - destruct (_ <? _).
    + rewrite Hrate. apply map_Forall_insert_2; [simpl; lia|exact Hb].
    + destruct (_ <=? _) eqn:Hm; [exact Hb|].
      rewrite Hrate. apply map_Forall_insert_2; [|exact Hb].
      apply Z.leb_gt in Hm. pose proof (Hb _ _ Hk) as He. simpl in He |- *. lia.
  - rewrite Hrate. apply map_Forall_insert_2; [simpl; lia|exact Hb].
Qed.

End RateLimiterFacts.

Lemma trimEnd_idempotent (s : string) : Js.trimEnd (Js.trimEnd s) = Js.trimEnd s.
Proof.
  induction s as [|c r IH]; [reflexivity|].
  simpl. destruct (Js.trimEnd r) as [|c' r'] eqn:Hr.
  - destruct (Js.isWhiteSpace c) eqn:Hc; [reflexivity|].
    simpl. now rewrite Hc.
  - change (Js.trimEnd (String c (String c' r'))) with
      (match Js.trimEnd (String c' r') with
       | EmptyString => if Js.isWhiteSpace c then EmptyString else String c EmptyString
       | r0 => String c r0
       end).
    now rewrite IH.
Qed.

Lemma trimStart_head (s : string) :
  Js.trimStart s = EmptyString
  \/ exists c r, Js.trimStart s = String c r /\ Js.isWhiteSpace c = false.
Proof.
  induction s as [|c r IH]; [now left|].
  simpl. destruct (Js.isWhiteSpace c) eqn:Hc; [exact IH|].
  right. now exists c, r.
Qed.

Lemma trim_idempotent (s : string) : Js.trim (Js.trim s) = Js.trim s.
Proof.
  unfold Js.trim.
  destruct (trimStart_head s) as [->|(c & r & -> & Hc)]; [reflexivity|].
  rewrite (trimEnd_cons c r Hc). simpl Js.trimStart. rewrite Hc.
  rewrite (trimEnd_cons c _ Hc). now rewrite trimEnd_idempotent.
Qed.

(** X24.  [normalizePhone] yields a canonical form: applying it again
    changes nothing, and its result never begins with [+98] and has no
    white space at either end. *)
Theorem normalizePhone_idempotent (phone : string) :
  AuthService.normalizePhone (AuthService.normalizePhone phone)
  = AuthService.normalizePhone phone
  /\ Js.startsWith (AuthService.normalizePhone phone) "+98" = false
  /\ Js.trim (AuthService.normalizePhone phone) = AuthService.normalizePhone phone.
Proof.
  assert (Hgoal : Js.startsWith (AuthService.normalizePhone phone) "+98" = false
                  /\ Js.trim (AuthService.normalizePhone phone)
                     = AuthService.normalizePhone phone).
  { unfold AuthService.normalizePhone.
    pose proof (trim_idempotent phone) as Ht.
    destruct (Js.startsWith (Js.trim phone) "+98") eqn:Hs.
    - destruct (Js.trim phone) as [|a [|b [|c rest]]]; cbn [Js.startsWith] in Hs;
        try discriminate Hs;
        try (destruct (Ascii.eqb "+" a); [|discriminate Hs];
             try (destruct (Ascii.eqb "9" b); [|discriminate Hs]); discriminate Hs).
      destruct (Ascii.eqb "+" a) eqn:Ha; [|discriminate Hs].
      destruct (Ascii.eqb "9" b) eqn:Hb; [|discriminate Hs].
      destruct (Ascii.eqb "8" c) eqn:Hc; [|discriminate Hs].
      apply Ascii.eqb_eq in Ha, Hb, Hc. subst a b c.
      simpl Js.slice. change ("0" +:+ rest) with (String "0" rest).
      split; [reflexivity|].
      unfold Js.trim in Ht |- *. simpl Js.trimStart in Ht |- *.
      rewrite !trimEnd_cons in Ht by reflexivity.
      rewrite !trimEnd_cons by reflexivity.
      injection Ht as Ht. now rewrite Ht.
    - split; [exact Hs|exact Ht]. }
  destruct Hgoal as [Hs Ht]. split; [|split; assumption].
  unfold AuthService.normalizePhone at 1. now rewrite Ht, Hs.
Qed.

(** ** ApiKeyService *)

Section ApiKeyFacts.

Variable sha256Hex : string -> string.

Lemma updateApiKey_found (row : ApiKey.t) (data : ApiKey.t -> ApiKey.t) (d : Db.t) :
  row ∈ Db.apiKeys d ->
  exists u rows',
    Prisma.update (ApiKeyService.hasId (ApiKey.id row)) data (Db.apiKeys d)
    = Some (u, rows')
    /\ ApiKeyService.updateApiKey (ApiKey.id row) data d = inr (Db.withApiKeys rows' d).
Proof.
  intros Hin. unfold ApiKeyService.updateApiKey.
  destruct (update_is_Some (ApiKeyService.hasId (ApiKey.id row)) data
              (Db.apiKeys d) row Hin (String.eqb_refl _)) as [[u rows'] Hu].
  rewrite Hu. now exists u, rows'.
Qed.

Lemma verifyAndTouch_new_key (now : Z) (key : string) (row : ApiKey.t) (d : Db.t) :
  ApiKeyService.hashUnused (sha256Hex key) d ->
  ApiKeyService.idUnused (ApiKey.id row) d ->
  ApiKey.hash row = sha256Hex key ->
  ApiKey.isActive row = true ->
  ApiKeyService.verifyAndTouch sha256Hex now key (AuthService.createApiKey row d)
  = (inr (ApiKeyService.Verified.mk true (ApiKeyService.includeUser row d)),
     Db.withApiKeys (Db.apiKeys d ++ [ApiKeyService.setLastUsedAt now row]) d).
Proof.
  intros Hh Hi Hrow Hact.
  unfold ApiKeyService.verifyAndTouch, ApiKeyService.hash, AuthService.createApiKey,
    Prisma.create.
  simpl Db.apiKeys.
  rewrite (findFirst_split _ (Db.apiKeys d) [] row).
  - rewrite Hact. simpl negb. cbv iota.
    unfold ApiKeyService.updateApiKey. simpl Db.apiKeys.
    rewrite (update_split _ _ (Db.apiKeys d) [] row).
    + reflexivity.
    + eapply Forall_impl; [exact Hi|]. simpl. intros x Hx.
      now apply String.eqb_neq.
    + apply String.eqb_refl.
  - eapply Forall_impl; [exact Hh|]. simpl. intros x Hx. now apply String.eqb_neq.
  - rewrite Hrow. apply String.eqb_refl.
Qed.

(** X25.  A key round trip: the key that [createForUser] (or [create])
    hands out in clear, stored under a hash and an identifier that were not
    in use, is accepted by [verifyAndTouch], which answers with the user
    the key was created for (none for [create]), and stamps [lastUsedAt] on
    that row alone. *)
Theorem created_key_is_accepted (io : ApiKeyService.CreateIO.t) (userId : string)
  (label : option string) (now : Z) (d : Db.t) :
  ApiKeyService.hashUnused (sha256Hex (ApiKeyService.CreateIO.randomBytesHex io)) d ->
  ApiKeyService.idUnused (ApiKeyService.CreateIO.newId io) d ->
  ApiKeyService.verifyAndTouch sha256Hex now
    (ApiKeyService.Created.key (fst (ApiKeyService.createForUser sha256Hex io userId label d)))
    (snd (ApiKeyService.createForUser sha256Hex io userId label d))
  = (inr (ApiKeyService.Verified.mk true
            (Prisma.findFirst (fun u => String.eqb (User.id u) userId) (Db.users d))),
     Db.withApiKeys
       (Db.apiKeys d
        ++ [ApiKey.mk (ApiKeyService.CreateIO.newId io) (Some userId)
              (sha256Hex (ApiKeyService.CreateIO.randomBytesHex io)) label true
              (Some now)]) d)
  /\ ApiKeyService.verifyAndTouch sha256Hex now
       (ApiKeyService.Created.key (fst (ApiKeyService.create sha256Hex io label d)))
       (snd (ApiKeyService.create sha256Hex io label d))
     = (inr (ApiKeyService.Verified.mk true None),
        Db.withApiKeys
          (Db.apiKeys d
           ++ [ApiKey.mk (ApiKeyService.CreateIO.newId io) None
                 (sha256Hex (ApiKeyService.CreateIO.randomBytesHex io)) label true
                 (Some now)]) d).
Proof.
  intros Hh Hi. split.
  - unfold ApiKeyService.createForUser. simpl fst. simpl snd.
    simpl ApiKeyService.Created.key.
    now rewrite verifyAndTouch_new_key.
  - unfold ApiKeyService.create. simpl fst. simpl snd.
    simpl ApiKeyService.Created.key.
    now rewrite verifyAndTouch_new_key.
Qed.

Lemma deactivate_found (row : ApiKey.t) (d : Db.t) :
  ApiKeyService.uniqueIds d ->
  row ∈ Db.apiKeys d ->
  ApiKeyService.deactivate (ApiKey.id row) d
  = (inr true,
     Db.withApiKeys
       ((fun x => if String.eqb (ApiKey.id x) (ApiKey.id row)
                  then ApiKeyService.setInactive x else x) <$> Db.apiKeys d) d).
Proof.
  intros Hnd Hin. unfold ApiKeyService.deactivate.
  destruct (findFirst_exists (ApiKeyService.hasId (ApiKey.id row)) _ row Hin
              (String.eqb_refl _)) as (r & -> & _).
  unfold ApiKeyService.updateApiKey.
  change (ApiKeyService.hasId (ApiKey.id row))
    with (fun x => String.eqb (ApiKey.id x) (ApiKey.id row)).
  now rewrite (update_unique ApiKey.id _ _ row Hnd Hin).
Qed.

Lemma findFirst_fmap {A} (f : A -> bool) (h : A -> A) (rows : list A) :
  (forall x, f (h x) = f x) ->
  Prisma.findFirst f (h <$> rows) = h <$> Prisma.findFirst f rows.
Proof.
  intros Hf. induction rows as [|x rest IH]; [reflexivity|].
  rewrite fmap_cons. cbn [Prisma.findFirst]. rewrite Hf, IH.
  now destruct (f x).
Qed.

(** X26.  A deactivated key is refused: after [deactivate] of the row a
    key is stored under, [verifyAndTouch] of that key answers not ok and
    writes nothing, at any time; the row is still there. *)
Theorem deactivated_key_is_refused (key : string) (row : ApiKey.t) (d : Db.t) :
  ApiKeyService.uniqueIds d ->
  Prisma.findFirst (fun r => String.eqb (ApiKey.hash r) (sha256Hex key)) (Db.apiKeys d)
  = Some row ->
  exists d1,
    ApiKeyService.deactivate (ApiKey.id row) d = (inr true, d1)
    /\ ApiKey.id <$> Db.apiKeys d1 = ApiKey.id <$> Db.apiKeys d
    /\ forall now,
         ApiKeyService.verifyAndTouch sha256Hex now key d1
         = (inr (ApiKeyService.Verified.mk false None), d1).
Proof.
  intros Hnd Hf. destruct (findFirst_elem _ _ _ Hf) as [Hin _].
  eexists. split; [exact (deactivate_found row d Hnd Hin)|].
  set (h := fun x => if String.eqb (ApiKey.id x) (ApiKey.id row)
                     then ApiKeyService.setInactive x else x).
  split.
  - simpl. rewrite <- list_fmap_compose. apply list_fmap_ext.
    intros i x _. simpl. unfold h. now destruct (String.eqb _ _).
  - intros now. unfold ApiKeyService.verifyAndTouch, ApiKeyService.hash.
    simpl Db.apiKeys. rewrite findFirst_fmap.
    + rewrite Hf. simpl. unfold h. rewrite String.eqb_refl. reflexivity.
    + intros x. unfold h. now destruct (String.eqb (ApiKey.id x) (ApiKey.id row)).
Qed.

(** X27.  [deactivateForUser] acts on the user's own keys only: it
    answers true exactly when the row exists and belongs to the user, and
    then does what [deactivate] does; otherwise it answers false and writes
    nothing.  It never throws, and never removes a row. *)
Theorem deactivateForUser_own_keys_only (id userId : string) (d : Db.t) :
  exists b d',
    ApiKeyService.deactivateForUser id userId d = (inr b, d')
    /\ ApiKey.id <$> Db.apiKeys d' = ApiKey.id <$> Db.apiKeys d
    /\ if b
       then (exists row, Prisma.findFirst (ApiKeyService.hasId id) (Db.apiKeys d) = Some row
                         /\ ApiKey.userId row = Some userId)
            /\ ApiKeyService.deactivate id d = (inr true, d')
       else d' = d
            /\ forall row, Prisma.findFirst (ApiKeyService.hasId id) (Db.apiKeys d) = Some row ->
                           ApiKey.userId row <> Some userId.
Proof.
  unfold ApiKeyService.deactivateForUser, ApiKeyService.deactivate.
  destruct (Prisma.findFirst _ _) as [found|] eqn:Hf.
  - destruct (bool_decide _) eqn:Hown; simpl negb; cbv iota.
    + apply bool_decide_eq_true_1 in Hown.
      destruct (findFirst_elem _ _ _ Hf) as [Hin Hid].
      apply String.eqb_eq in Hid. subst id.
      destruct (updateApiKey_found found ApiKeyService.setInactive d Hin)
        as (u & rows' & Hu & ->).
      exists true. eexists. split; [reflexivity|].
      split; [|split; [now exists found|reflexivity]].
      simpl. exact (update_ids _ _ ApiKey.id _ _ _ Hu (fun x => eq_refl)).
    + apply bool_decide_eq_false_1 in Hown.
      exists false, d. split; [reflexivity|]. split; [reflexivity|].
      split; [reflexivity|]. now intros row [= <-].
  - exists false, d. split; [reflexivity|]. split; [reflexivity|].
    split; [reflexivity|]. intros row. discriminate.
Qed.

(** X28.  The key a login hands out authenticates its user: after a
    [verifyOtp] that succeeds, [verifyAndTouch] of the returned key answers
    ok with the returned user. *)
Theorem login_key_authenticates (io : AuthService.VerifyIO.t) (raw code : string)
  (st st1 : AuthService.State) (user : User.t) (key : string) (now : Z) :
  AuthService.verifyOtp sha256Hex io raw code st = (inr (user, key), st1) ->
  ApiKeyService.hashUnused (sha256Hex (AuthService.VerifyIO.randomBytesHex io))
    (AuthService.db st) ->
  ApiKeyService.idUnused (AuthService.VerifyIO.newApiKeyId io) (AuthService.db st) ->
  ApiKeyService.uniqueUserIds (AuthService.db st) ->
  Forall (fun u => User.id u <> AuthService.VerifyIO.newUserId io)
    (Db.users (AuthService.db st)) ->
  exists d2,
    ApiKeyService.verifyAndTouch sha256Hex now key (AuthService.db st1)
    = (inr (ApiKeyService.Verified.mk true (Some user)), d2).
Proof.
  intros Hv Hh Hi Hu Hnew. unfold AuthService.verifyOtp in Hv.
  destruct (Prisma.findLatest _ _ _) as [record|]; [|discriminate].
  destruct (AuthService.updateOtpCode _ _ _) as [e|d1] eqn:Hupd; [discriminate|].
  destruct (negb _); [discriminate|].
  destruct (AuthService.findOrCreateUser io _ d1) as [user' d2] eqn:Hfu.
  injection Hv as <- <- <-. simpl AuthService.db.
  assert (Hd1 : Db.apiKeys d1 = Db.apiKeys (AuthService.db st)
                /\ Db.users d1 = Db.users (AuthService.db st)).
  { unfold AuthService.updateOtpCode in Hupd.
    destruct (Prisma.update _ _ _) as [[u rows]|]; [|discriminate].
    injection Hupd as <-. now split. }
  destruct Hd1 as [Hk1 Hu1].
  assert (Hd2 : Db.apiKeys d2 = Db.apiKeys (AuthService.db st)
                /\ Prisma.findFirst (fun u => String.eqb (User.id u) (User.id user'))
                     (Db.users d2) = Some user').
  { unfold AuthService.findOrCreateUser in Hfu.
    destruct (Prisma.findFirst _ (Db.users d1)) as [found|] eqn:Hfound.
    - injection Hfu as <- <-. split; [exact Hk1|].
      destruct (findFirst_elem _ _ _ Hfound) as [Hin _].
      destruct (findFirst_exists (fun u => String.eqb (User.id u) (User.id found))
                  (Db.users d1) found Hin (String.eqb_refl _)) as (r & Hr & Hid).
      rewrite Hr. f_equal.
      destruct (findFirst_elem _ _ _ Hr) as [Hrin _].
      apply String.eqb_eq in Hid.
      rewrite Hu1 in Hin, Hrin.
      exact (unique_key User.id _ r found Hu Hrin Hin Hid).
    - injection Hfu as <- <-. split; [exact Hk1|].
      unfold AuthService.createUser, Prisma.create. simpl Db.users. simpl User.id.
      rewrite Hu1.
      apply (findFirst_split _ (Db.users (AuthService.db st)) []).
      + eapply Forall_impl; [exact Hnew|]. simpl. intros x Hx. now apply String.eqb_neq.
      + apply String.eqb_refl. }
  destruct Hd2 as [Hk2 Hfind].
  eexists. rewrite verifyAndTouch_new_key.
  - unfold ApiKeyService.includeUser. cbn [ApiKey.userId]. rewrite Hfind. reflexivity.
  - unfold ApiKeyService.hashUnused. now rewrite Hk2.
  - unfold ApiKeyService.idUnused. simpl ApiKey.id. now rewrite Hk2.
  - reflexivity.
  - reflexivity.
Qed.

End ApiKeyFacts.

(** ** The authentication middleware *)

Lemma nonEmpty_Some (s : option string) (k : string) :
  Routes.nonEmpty s = Some k -> s = Some k /\ k <> EmptyString.
Proof.
  destruct s as [[|c r]|]; simpl; try discriminate.
  intros [= <-]. split; [reflexivity|discriminate].
Qed.

Lemma verifyAndTouch_outcome (sha256Hex : string -> string) (now : Z) (key : string)
  (d : Db.t) :
  exists result d',
    ApiKeyService.verifyAndTouch sha256Hex now key d = (inr result, d')
    /\ if ApiKeyService.Verified.ok result
       then exists row,
              Prisma.findFirst (fun r => String.eqb (ApiKey.hash r) (sha256Hex key))
                (Db.apiKeys d) = Some row
              /\ ApiKey.isActive row = true
              /\ ApiKeyService.Verified.user result = ApiKeyService.includeUser row d
       else d' = d.
Proof.
  unfold ApiKeyService.verifyAndTouch, ApiKeyService.hash.
  destruct (Prisma.findFirst _ _) as [found|] eqn:Hf.
  - destruct (ApiKey.isActive found) eqn:Hact; simpl negb; cbv iota.
    + destruct (findFirst_elem _ _ _ Hf) as [Hin _].
      destruct (updateApiKey_found found (ApiKeyService.setLastUsedAt now) d Hin)
        as (u & rows' & _ & ->).
      eexists _, _. split; [reflexivity|]. simpl. now exists found.
    + eexists _, _. split; [reflexivity|]. reflexivity.
  - eexists _, _. split; [reflexivity|]. reflexivity.
Qed.

(** X29.  What the middleware lets through: it never throws; a request
    reaches its route only on an exempt path, with the master key, or with
    a key whose hash is stored on an active row, whose user it attaches;
    and a request it answers with 401 has written nothing. *)
Theorem authenticate_guards (sha256Hex : string -> string) (master : option string)
  (now : Z) (req : Server.Request.t) (d : Db.t) :
  exists outcome d',
    Server.authenticate sha256Hex master now req d = (inr outcome, d')
    /\ match outcome with
       | Server.Next user =>
           Server.isExempt (Server.Request.path req) = true
           \/ (exists k, Server.extractKey req = Some k /\ k <> EmptyString
                         /\ master = Some k)
           \/ (exists k row,
                 Server.extractKey req = Some k
                 /\ Prisma.findFirst
                      (fun r => String.eqb (ApiKey.hash r) (sha256Hex k)) (Db.apiKeys d)
                    = Some row
                 /\ ApiKey.isActive row = true
                 /\ user = ApiKeyService.includeUser row d)
       | Server.Unauthorized message =>
           d' = d
           /\ Server.isExempt (Server.Request.path req) = false
           /\ (message = "Missing API key"%string <-> Server.extractKey req = None)
       end.
Proof.
  unfold Server.authenticate.
  destruct (Server.isExempt _) eqn:Hex.
  { eexists _, _. split; [reflexivity|]. now left. }
  destruct (Server.isMaster master (Server.extractKey req)) eqn:Hm.
  { eexists _, _. split; [reflexivity|]. right. left.
    unfold Server.isMaster in Hm.
    destruct (Routes.nonEmpty (Server.extractKey req)) as [k|] eqn:Hk; [|discriminate].
    destruct (Routes.nonEmpty master) as [m|] eqn:Hmaster; [|discriminate].
    apply String.eqb_eq in Hm. subst m.
    apply nonEmpty_Some in Hk as [Hk Hne]. apply nonEmpty_Some in Hmaster as [Hmaster _].
    now exists k. }
  destruct (Server.extractKey req) as [k|] eqn:Hk.
  - destruct (verifyAndTouch_outcome sha256Hex now k d) as (result & d' & -> & Hres).
    destruct (ApiKeyService.Verified.ok result); simpl negb; cbv iota.
    + destruct Hres as (row & Hf & Hact & Hu).
      eexists _, _. split; [reflexivity|]. right. right. now exists k, row.
    + eexists _, _. split; [reflexivity|]. split; [exact Hres|].
      split; [reflexivity|]. split; discriminate.
  - eexists _, _. split; [reflexivity|]. split; [reflexivity|].
    split; [reflexivity|]. now split.
Qed.

Lemma extractKey_eq (req : Server.Request.t) :
  Server.extractKey req
  = Routes.nonEmpty
      (Some (Js.orElse
               (Some (Js.trim (Js.orElse (Server.Request.xApiKey req) EmptyString)))
               (if Js.startsWith
                     (Js.trim (Js.orElse (Server.Request.authorization req) EmptyString))
                     "ApiKey "
                then Js.trim (Js.slice (Js.trim (Js.orElse
                       (Server.Request.authorization req) EmptyString)) 7)
                else EmptyString))).
Proof. reflexivity. Qed.

(** X30.  The key [extractKey] reads off a request is never empty and has
    no white space at either end; and the [x-api-key] header wins over
    the [Authorization] header whenever it holds more than white space. *)
Theorem extractKey_canonical (req : Server.Request.t) :
  (forall k, Server.extractKey req = Some k -> k <> EmptyString /\ Js.trim k = k)
  /\ (forall h, Server.Request.xApiKey req = Some h -> Js.trim h <> EmptyString ->
                Server.extractKey req = Some (Js.trim h)).
Proof.
  split.
  - intros k Hk. rewrite extractKey_eq in Hk.
    remember (Js.trim (Js.orElse (Server.Request.xApiKey req) EmptyString)) as hk eqn:Hh.
    remember (Js.startsWith
                (Js.trim (Js.orElse (Server.Request.authorization req) EmptyString))
                "ApiKey ") as b eqn:Hb.
    apply nonEmpty_Some in Hk as [Hk Hne]. split; [exact Hne|].
    assert (Hk' : k = Js.orElse (Some hk)
                        (if b
                         then Js.trim (Js.slice (Js.trim (Js.orElse
                                (Server.Request.authorization req) EmptyString)) 7)
                         else EmptyString)) by congruence.
    clear Hk Hne. subst k. destruct hk as [|c r]; cbn [Js.orElse].
    + destruct b; [apply trim_idempotent|reflexivity].
    + rewrite Hh. apply trim_idempotent.
  - intros h Hh Hne. rewrite extractKey_eq, Hh.
    assert (Ho : Js.orElse (Some h) EmptyString = h) by now destruct h.
    rewrite Ho. destruct (Js.trim h) as [|c r]; [congruence|]. reflexivity.
Qed.

(** * The further properties on the sample data *)

Lemma created_payment_url_witness :
  CreatePaymentResponse.paymentUrl
    (CreatePaymentResponse.mk "https://mock.pay/StartPay/AUTH-1700000001000"
       "AUTH-1700000001000" None (Some "Mock payment created"%string))
  = ("https://mock.pay/StartPay/" +:+ "AUTH-1700000001000")%string.
Proof.
  destruct (created_payment_url Sample.env MockGateway Sample.provider
              (CreatePaymentRequest.mk 100000 "Subscription: Monthly"
                 "http://localhost:3001/api/payment/verify" None None [])
              (CreatePaymentResponse.mk "https://mock.pay/StartPay/AUTH-1700000001000"
                 "AUTH-1700000001000" None (Some "Mock payment created"%string)))
    as [_ H].
  - vm_compute. reflexivity.
  - exact H.
Defined.

Lemma createPayment_failure_writes_nothing_witness :
  exists e w',
    PaymentService.createPayment Sample.env Fixtures.createIO "sub_1" 100000 "zarinpal"
      None None Sample.world = (inl e, w')
    /\ World.db w' = World.db Sample.world.
Proof.
  destruct (PaymentService.createPayment Sample.env Fixtures.createIO "sub_1" 100000
              "zarinpal" None None Sample.world) as [[e|p] w'] eqn:E.
  - exists e, w'. split; [reflexivity|].
    exact (proj1 (createPayment_failure_writes_nothing _ _ _ _ _ _ _ _ _ _ E)).
  - vm_compute in E. discriminate E.
Defined.

Lemma sample_fresh_payment_id :
  PaymentService.CreateIO.newId Fixtures.createIO ∉ Payment.id <$> World.payments Sample.world.
Proof. apply (bool_decide_unpack _). vm_compute. exact I. Qed.

Lemma createPayment_stores_pending_witness :
  exists payment w',
    PaymentService.createPayment Sample.env Fixtures.createIO "sub_1" 100000 "mock"
      None None Sample.world = (inr payment, w')
    /\ World.payments w'
       = World.payments Sample.world ++ [PaymentService.setNotificationSent payment]
    /\ Payment.status payment = PaymentStatus.PENDING.
Proof.
  destruct (PaymentService.createPayment Sample.env Fixtures.createIO "sub_1" 100000
              "mock" None None Sample.world) as [[e|p] w'] eqn:E.
  - vm_compute in E. discriminate E.
  - exists p, w'. split; [reflexivity|].
    destruct (createPayment_stores_pending _ _ _ _ _ _ _ _ _ _ E sample_fresh_payment_id)
      as (H1 & _ & _ & H4 & _).
    split; [exact H1|exact H4].
Defined.

Lemma authority_lookup_after_create_witness :
  exists payment w',
    PaymentService.createPayment Sample.env Fixtures.createIO "sub_1" 100000 "mock"
      None None Sample.world = (inr payment, w')
    /\ PaymentService.getPaymentByAuthority "AUTH-1700000001000" w'
       = Some (PaymentService.setNotificationSent payment).
Proof.
  destruct (PaymentService.createPayment Sample.env Fixtures.createIO "sub_1" 100000
              "mock" None None Sample.world) as [[e|p] w'] eqn:E.
  - vm_compute in E. discriminate E.
  - exists p, w'. split; [reflexivity|].
    refine (authority_lookup_after_create _ _ _ _ _ _ _ _ _ _ "AUTH-1700000001000"
              E sample_fresh_payment_id _ _).
    + vm_compute in E. injection E as <- _. reflexivity.
    + vm_compute. reflexivity.
Defined.

Lemma zarinpal_world_unique : PaymentService.uniqueIds Fixtures.zarinpalWorld.
Proof.
  refine (bool_decide_unpack (NoDup (Payment.id <$> World.payments Fixtures.zarinpalWorld)) _).
  vm_compute. exact I.
Qed.

(** No provider answers: the verification of the pending Zarinpal payment
    fails, and the row is stored FAILED. *)
Lemma verifyPayment_gateway_error_marks_failed_witness :
  exists w',
    PaymentService.verifyPayment Sample.verifyIO "A00000000000000000000000000000123456"
      (Some "OK"%string) Fixtures.zarinpalWorld
    = (inl (PaymentGatewayError "Payment verification failed" None), w')
    /\ PaymentService.statusOf "pay_z" w' = Some PaymentStatus.FAILED.
Proof.
  destruct (PaymentService.verifyPayment Sample.verifyIO
              "A00000000000000000000000000000123456" (Some "OK"%string)
              Fixtures.zarinpalWorld) as [r w'] eqn:E.
  assert (Hr : r = inl (PaymentGatewayError "Payment verification failed" None)).
  { vm_compute in E. injection E as <- _. reflexivity. }
  subst r. exists w'. split; [reflexivity|].
  destruct (verifyPayment_gateway_error_marks_failed _ _ _ _ _ _ _
              zarinpal_world_unique E) as (p & Hp & _ & H).
  vm_compute in Hp. injection Hp as <-. exact H.
Defined.

Lemma verifyPayment_rejected_unchanged_witness :
  PaymentService.verifyPayment Sample.verifyIO "AUTH-0" None Sample.world
  = (inl (NotFoundError "Payment"), Sample.world).
Proof.
  destruct (PaymentService.verifyPayment Sample.verifyIO "AUTH-0" None Sample.world)
    as [r w'] eqn:E.
  assert (Hr : r = inl (NotFoundError "Payment")).
  { vm_compute in E. injection E as <- _. reflexivity. }
  subst r. f_equal.
  exact (verifyPayment_rejected_unchanged _ _ _ _ _ _ E
           (or_introl (ex_intro _ "Payment"%string eq_refl))).
Defined.

Lemma verifiedMetadata_keeps_entries_witness :
  JsonObject.get "message"
    (PaymentService.verifiedMetadata (Payment.metadata Sample.pending)
       (VerifyPaymentResponse.mk (Some "REF-1"%string) None None None (Some 0)))
  = Some (Json.JString "Mock payment created").
Proof.
  rewrite (verifiedMetadata_keeps_entries (Payment.metadata Sample.pending)
             (VerifyPaymentResponse.mk (Some "REF-1"%string) None None None (Some 0))
             "message").
  - reflexivity.
  - intros H. repeat (destruct H as [H|H]; [discriminate H|]). exact H.
Defined.

Lemma createSubscription_unlisted_plan_witness :
  exists e,
    Subscriptions.createSubscription Sample.env Fixtures.createSubscriptionIO
      (Fixtures.input "plan_0" "mock") Sample.world = (inl e, Sample.world).
Proof.
  destruct (createSubscription_unlisted_plan Sample.env Fixtures.createSubscriptionIO
              (Fixtures.input "plan_0" "mock") Sample.world) as (e & H & _).
  - intros plan Hin.
    assert (Hl : Subscriptions.getAvailablePlans (World.db Sample.world) = [Sample.monthly])
      by (vm_compute; reflexivity).
    rewrite Hl in Hin. apply list_elem_of_singleton in Hin. subst plan. discriminate.
  - exists e. exact H.
Defined.

Lemma createSubscription_payment_failure_witness :
  exists e w',
    Subscriptions.createSubscription Sample.env Fixtures.createSubscriptionIO
      (Fixtures.input "plan_1" "zarinpal") Sample.world = (inl e, w')
    /\ Db.subscriptions (World.db w')
       = [Sample.subscription;
          Subscription.mk "sub_2" "user_2" "plan_1" SubscriptionStatus.PENDING true
            None None]
    /\ World.payments w' = World.payments Sample.world.
Proof.
  destruct (Subscriptions.createSubscription Sample.env Fixtures.createSubscriptionIO
              (Fixtures.input "plan_1" "zarinpal") Sample.world) as [[e|r] w'] eqn:E.
  - exists e, w'. split; [reflexivity|].
    destruct (createSubscription_payment_failure Sample.env Fixtures.createSubscriptionIO
                (Fixtures.input "plan_1" "zarinpal") Sample.world Sample.monthly e w'
                eq_refl eq_refl E) as (H1 & H2 & _).
    split; [exact H1|exact H2].
  - vm_compute in E. discriminate E.
Defined.

Lemma createSubscription_success_witness :
  exists subscription plan payment w',
    Subscriptions.createSubscription Sample.env Fixtures.createSubscriptionIO
      (Fixtures.input "plan_1" "mock") Sample.world
    = (inr (subscription, plan, payment), w')
    /\ subscription
       = Subscription.mk "sub_2" "user_2" "plan_1" SubscriptionStatus.PENDING true
           None None
    /\ Db.subscriptions (World.db w') = [Sample.subscription; subscription].
Proof.
  destruct (Subscriptions.createSubscription Sample.env Fixtures.createSubscriptionIO
              (Fixtures.input "plan_1" "mock") Sample.world)
    as [[e|[[s plan] pay]] w'] eqn:E.
  - vm_compute in E. discriminate E.
  - exists s, plan, pay, w'. split; [reflexivity|].
    destruct (createSubscription_success _ _ _ _ _ _ _ _ E) as (H1 & H2 & _).
    + apply (bool_decide_unpack _). vm_compute. exact I.
    + exact sample_fresh_payment_id.
    + split; [exact H1|exact H2].
Defined.

Lemma cancelled_is_not_active_witness :
  exists r,
    SubscriptionService.getActiveSubscription 1700000003000 "user_1"
      (snd (SubscriptionService.cancelSubscription "sub_a" Fixtures.twoActive)) = Some r
    /\ Subscription.id r <> "sub_a"%string.
Proof.
  exists (Fixtures.active "sub_b").
  assert (H : SubscriptionService.getActiveSubscription 1700000003000 "user_1"
                (snd (SubscriptionService.cancelSubscription "sub_a" Fixtures.twoActive))
              = Some (Fixtures.active "sub_b")) by (vm_compute; reflexivity).
  split; [exact H|].
  refine (cancelled_is_not_active "sub_a" Fixtures.twoActive (Fixtures.active "sub_a")
            1700000003000 "user_1" (Fixtures.active "sub_b") _ eq_refl H).
  refine (bool_decide_unpack (NoDup (Subscription.id <$> Db.subscriptions Fixtures.twoActive)) _).
  vm_compute. exact I.
Defined.

Lemma activated_is_active_witness :
  exists r,
    SubscriptionService.getActiveSubscription 1700000003000 "user_1"
      (snd (SubscriptionService.activateSubscription Sample.env Fixtures.activateIO
              "sub_1" None None Sample.database))
    = Some r
    /\ Subscription.status r = SubscriptionStatus.ACTIVE.
Proof.
  destruct (activated_is_active Sample.env Fixtures.activateIO "sub_1" None None
              Sample.database Sample.subscription Sample.monthly 1700000003000)
    as (r & endDate & H1 & _ & H3 & _).
  - reflexivity.
  - vm_compute. discriminate.
  - vm_compute. discriminate.
  - exists r. split; [exact H1|exact H3].
Defined.

(** The pending sample payment, verified through the route: the mock
    gateway accepts, and the subscription runs for the 30 days of the plan
    from the reading of the activation. *)
Lemma verify_route_activates_witness :
  exists body w',
    Routes.verify Sample.env Fixtures.routeIO "AUTH-1700000000000" (Some "OK"%string)
      Sample.world = (Routes.Ok body, w')
    /\ Routes.VerifyResponse.success body = true
    /\ PaymentService.statusOf "pay_1" w' = Some PaymentStatus.COMPLETED
    /\ Prisma.findFirst (SubscriptionService.hasId "sub_1") (Db.subscriptions (World.db w'))
       = Some (Subscription.mk "sub_1" "user_1" "plan_1" SubscriptionStatus.ACTIVE true
                 (Some 1700000002000) (Some (1700000002001 + 30 * 86400000))).
Proof.
  destruct (verify_route_activates Sample.env Fixtures.routeIO "AUTH-1700000000000"
              (Some "OK"%string) Sample.world Sample.pending MockGateway
              (VerifyPaymentResponse.mk (Some "REF-1700000001000"%string)
                 (Some "1234-5678-****-****"%string) (Some "mock-hash"%string)
                 (Some "fixed"%string) (Some 0))
              Sample.subscription Sample.monthly)
    as (body & w' & H1 & H2 & _ & _ & _ & H6 & H7).
  - exact sample_world_unique.
  - reflexivity.
  - discriminate.
  - reflexivity.
  - reflexivity.
  - vm_compute. reflexivity.
  - reflexivity.
  - vm_compute. discriminate.
  - exists body, w'. split; [exact H1|]. split; [exact H2|].
    split; [exact H6|exact H7].
Defined.

(** The completed sample payment, verified again through the route: no
    gateway call, and the subscription gets the dates of this call. *)
Lemma verify_route_again_moves_dates_witness :
  exists body w',
    Routes.verify Sample.env Fixtures.routeIO "AUTH-1700000000900" (Some "OK"%string)
      Sample.world = (Routes.Ok body, w')
    /\ World.gatewayCalls w' = []
    /\ Prisma.findFirst (SubscriptionService.hasId "sub_1") (Db.subscriptions (World.db w'))
       = Some (Subscription.mk "sub_1" "user_1" "plan_1" SubscriptionStatus.ACTIVE true
                 (Some 1700000002000) (Some (1700000002001 + 30 * 86400000))).
Proof.
  destruct (verify_route_again_moves_dates Sample.env Fixtures.routeIO
              "AUTH-1700000000900" (Some "OK"%string) Sample.world Sample.completed
              Sample.subscription Sample.monthly)
    as (body & w' & H1 & _ & H3 & _ & H5).
  - reflexivity.
  - reflexivity.
  - reflexivity.
  - reflexivity.
  - vm_compute. discriminate.
  - exists body, w'. split; [exact H1|]. split; [exact H3|exact H5].
Defined.

Lemma requested_unique : Otp.uniqueIds (AuthService.db Fixtures.requested).
Proof.
  refine (bool_decide_unpack
            (NoDup (OtpCode.id <$> Db.otpCodes (AuthService.db Fixtures.requested))) _).
  vm_compute. exact I.
Qed.

(** A wrong code one minute after the request, then the right one a
    minute later. *)
Lemma wrong_guess_does_not_lock_witness :
  exists st1 user st2,
    AuthService.verifyOtp Sample.digest Sample.firstLogin "09120000000" "000000"
      Fixtures.requested = (inl AuthService.invalidCode, st1)
    /\ AuthService.verifyOtp Sample.digest Sample.secondLogin "09120000000" "123456" st1
       = (inr (user, "9d4a7e55"%string), st2).
Proof.
  destruct (wrong_guess_does_not_lock Sample.digest Sample.firstLogin Sample.secondLogin
              "09120000000" "000000" "123456" Fixtures.requested Fixtures.requestedRow)
    as (st1 & H1 & _ & user & st2 & H3).
  - exact requested_unique.
  - vm_compute. reflexivity.
  - vm_compute. discriminate.
  - vm_compute. reflexivity.
  - vm_compute. discriminate.
  - vm_compute. reflexivity.
  - exists st1, user, st2. split; [exact H1|exact H3].
Defined.

(** The code requested at 1700000000000 expires five minutes later. *)
Lemma expired_code_is_refused_witness :
  AuthService.verifyOtp Sample.digest
    (Sample.login 1700000300000 "user_1" "6b1f0c2e" "key_1") "09120000000" "123456"
    Fixtures.requested
  = (inl AuthService.otpNotFound, Fixtures.requested).
Proof.
  apply (expired_code_is_refused Sample.digest Sample.env
           (Sample.request "otp_1" 1700000000000)
           (Sample.login 1700000300000 "user_1" "6b1f0c2e" "key_1")
           "09120000000" "123456" Sample.started Fixtures.requested).
  - vm_compute. reflexivity.
  - constructor.
  - vm_compute. discriminate.
Defined.

Lemma rate_limit_is_per_phone_witness :
  AuthService.rate Fixtures.requested !! "otp:09130000000"%string = None
  /\ fst (AuthService.requestOtp Sample.env Sample.digest
            (Sample.request "otp_2" 1700000001000) "09130000000" Fixtures.requested)
     = fst (AuthService.requestOtp Sample.env Sample.digest
              (Sample.request "otp_2" 1700000001000) "09130000000" Sample.started).
Proof.
  destruct (rate_limit_is_per_phone Sample.env Sample.digest
              (Sample.request "otp_1" 1700000000000)
              (Sample.request "otp_2" 1700000001000)
              "09120000000" "09130000000" Sample.started) as [H1 H2].
  - vm_compute. discriminate.
  - split; [|exact H2].
    etransitivity; [exact H1|]. reflexivity.
Defined.

Lemma rate_counters_stay_bounded_witness :
  Otp.rateBounded Sample.env (AuthService.rate Fixtures.requested).
Proof.
  apply (rate_counters_stay_bounded Sample.env Sample.digest
           (Sample.request "otp_1" 1700000000000) "09120000000" Sample.started).
  apply map_Forall_empty.
Defined.

Lemma created_key_is_accepted_witness :
  fst (ApiKeyService.verifyAndTouch Sample.digest 1700000005000 "6b1f0c2e" Fixtures.oneKey)
  = inr (ApiKeyService.Verified.mk true
           (Some (User.mk "user_1" (Some "09120000000"%string) None "USER"))).
Proof.
  destruct (created_key_is_accepted Sample.digest Fixtures.keyIO "user_1" None
              1700000005000 Fixtures.oneUser) as [H _].
  - constructor.
  - constructor.
  - change (ApiKeyService.verifyAndTouch Sample.digest 1700000005000 "6b1f0c2e"
              Fixtures.oneKey)
      with (ApiKeyService.verifyAndTouch Sample.digest 1700000005000
              (ApiKeyService.Created.key
                 (fst (ApiKeyService.createForUser Sample.digest Fixtures.keyIO "user_1"
                         None Fixtures.oneUser)))
              (snd (ApiKeyService.createForUser Sample.digest Fixtures.keyIO "user_1"
                      None Fixtures.oneUser))).
    rewrite H. reflexivity.
Defined.

Lemma deactivated_key_is_refused_witness :
  exists d1,
    ApiKeyService.deactivate "key_1" Fixtures.oneKey = (inr true, d1)
    /\ ApiKeyService.verifyAndTouch Sample.digest 1700000005000 "6b1f0c2e" d1
       = (inr (ApiKeyService.Verified.mk false None), d1).
Proof.
  destruct (deactivated_key_is_refused Sample.digest "6b1f0c2e"
              (ApiKey.mk "key_1" (Some "user_1"%string) (Sample.digest "6b1f0c2e") None
                 true None) Fixtures.oneKey)
    as (d1 & H1 & _ & H3).
  - refine (bool_decide_unpack (NoDup (ApiKey.id <$> Db.apiKeys Fixtures.oneKey)) _).
    vm_compute. exact I.
  - vm_compute. reflexivity.
  - exists d1. split; [exact H1|exact (H3 1700000005000)].
Defined.

(** The login of the sample round trip: the key it hands out is accepted
    for the user it created. *)
Lemma login_key_authenticates_witness :
  exists user st1 d2,
    AuthService.verifyOtp Sample.digest Sample.firstLogin "09120000000" "123456"
      Fixtures.requested = (inr (user, "6b1f0c2e"%string), st1)
    /\ ApiKeyService.verifyAndTouch Sample.digest 1700000070000 "6b1f0c2e"
         (AuthService.db st1)
       = (inr (ApiKeyService.Verified.mk true (Some user)), d2).
Proof.
  destruct (AuthService.verifyOtp Sample.digest Sample.firstLogin "09120000000" "123456"
              Fixtures.requested) as [[e|[user key]] st1] eqn:E.
  - vm_compute in E. discriminate E.
  - assert (Hk : key = "6b1f0c2e"%string).
    { vm_compute in E. injection E as _ <- _. reflexivity. }
    subst key.
    destruct (login_key_authenticates Sample.digest Sample.firstLogin "09120000000"
                "123456" Fixtures.requested st1 user "6b1f0c2e" 1700000070000 E)
      as (d2 & H).
    + constructor.
    + constructor.
    + constructor.
    + constructor.
    + exists user, st1, d2. split; [reflexivity|exact H].
Defined.
